(** * Shallow embedding of src/architectures/NLU_model.py

    Two parts of the module are embedded:
    - the architecture presets registered with [register_model_architecture]
      (functions that fill in missing attributes of the argparse namespace);
    - [SMLP_MLM_Model]: its head registration, its [forward] and its
      state-dict migration [upgrade_state_dict_named].

    A Python [dict] (and the [__dict__] of an argparse [Namespace], and a
    [nn.ModuleDict]) is an insertion-ordered map: it is modelled as an
    association list whose assignment replaces a present key in place and
    appends an absent one, and whose [del] removes the key. *)

From Stdlib Require Import String Ascii List ZArith QArith Bool Lia Permutation.
Import ListNotations.
Set Warnings "-register-all".
Open Scope Z_scope.
Open Scope string_scope.

(** ** Insertion-ordered dictionaries *)
Module Dict.
Section Dict.
Context {V : Type}.

Definition t := list (string * V).

(** [d.get(k)] / [k in d] *)
Fixpoint get (d : t) (k : string) : option V :=
  match d with
  | [] => None
  | (k', v) :: d' => if String.eqb k' k then Some v else get d' k
  end.

Definition mem (d : t) (k : string) : bool :=
  match get d k with Some _ => true | None => false end.

(** [d[k] = v]: in place when [k] is present, appended otherwise. *)
Definition set (d : t) (k : string) (v : V) : t :=
  if mem d k
  then List.map (fun p => if String.eqb (fst p) k then (k, v) else p) d
  else (d ++ [(k, v)])%list.

(** [del d[k]] (the caller checks presence; see [Migration]). *)
Definition del (d : t) (k : string) : t :=
  List.filter (fun p => negb (String.eqb (fst p) k)) d.

Definition keys (d : t) : list string := List.map fst d.

End Dict.
Arguments t : clear implicits.
End Dict.

(** ** The argparse namespace and the architecture presets *)

(** Attribute values: Python [int], [float] (decimal literals as rationals),
    [bool], [str] and [None]. *)
Inductive value :=
| VInt (z : Z)
| VFloat (q : Q)
| VBool (b : bool)
| VStr (s : string)
| VNone.

Definition value_eqb (v w : value) : bool :=
  match v, w with
  | VInt a, VInt b => Z.eqb a b
  | VFloat a, VFloat b => Z.eqb (Qnum a) (Qnum b) && Pos.eqb (Qden a) (Qden b)
  | VBool a, VBool b => Bool.eqb a b
  | VStr a, VStr b => String.eqb a b
  | VNone, VNone => true
  | _, _ => false
  end.

(** The [args] namespace, as its attribute dictionary. *)
Definition Namespace := Dict.t value.

(** [getattr(args, name, default)] *)
Definition getattr (args : Namespace) (name : string) (default : value) : value :=
  match Dict.get args name with Some v => v | None => default end.

(** One preset line [args.dst = getattr(args, "src", default)]; on every
    line of the file [dst] and [src] are the same name but one. *)
Record assign := Assign { dst : string; src : string; dflt : value }.

Definition exec_assign (args : Namespace) (a : assign) : Namespace :=
  Dict.set args (dst a) (getattr args (src a) (dflt a)).

Definition exec (body : list assign) (args : Namespace) : Namespace :=
  fold_left exec_assign body args.

(** [args.n = getattr(args, "n", d)] *)
Definition dflt_line (n : string) (d : value) : assign := Assign n n d.

(** [base_architecture] (the root preset ["smlp_mlm"]).  Its
    [spectral_norm_classification_head] line reads the attribute
    ["spectral_nrom_classification_head"], as written in the source. *)
Definition base_architecture_body : list assign := [
  dflt_line "encoder_layers" (VInt 12);
  dflt_line "encoder_embed_dim" (VInt 768);
  dflt_line "encoder_attention_heads" (VInt 12);
  dflt_line "activation_fn" (VStr "gelu");
  dflt_line "pooler_activation_fn" (VStr "tanh");
  dflt_line "dropout" (VFloat (1 # 10));
  dflt_line "pooler_dropout" (VFloat 0);
  dflt_line "encoder_layers_to_keep" VNone;
  dflt_line "encoder_layerdrop" (VFloat 0);
  Assign "spectral_norm_classification_head"
         "spectral_nrom_classification_head" (VBool false);
  dflt_line "share_encoder_input_output_embed" (VBool true);
  dflt_line "encoder_learned_pos" (VBool false);
  dflt_line "no_token_positional_embeddings" (VBool false);
  dflt_line "sent_loss" (VBool true);
  dflt_line "normalize_embedding" (VBool false);
  dflt_line "adaptive_input" (VBool false);
  dflt_line "encoder_normalize_before" (VBool false);
  dflt_line "encoder_learned_pos" (VBool false);
  dflt_line "encoder_q_dim" (VInt 768);
  dflt_line "encoder_k_dim" (VInt 768);
  dflt_line "attention_dropout" (VFloat 0);
  dflt_line "activation_dropout" (VFloat 0);
  dflt_line "activation_fn" (VStr "relu");
  dflt_line "use_position_embeddings" (VBool true);
  dflt_line "smlp_pos" (VStr "before_act");
  dflt_line "has_ffn" (VBool false);
  dflt_line "kernal_cutoff" (VBool false);
  dflt_line "complex" (VBool false);
  dflt_line "complex_version" (VStr "normal");
  dflt_line "no_beta" (VBool false);
  dflt_line "norm_type" (VStr "layernorm");
  dflt_line "max_lambda" (VFloat (9999 # 10000));
  dflt_line "norm_after_smlp" (VBool false);
  dflt_line "cls_attn" (VBool false);
  dflt_line "gate" (VBool false);
  dflt_line "freeze" (VBool false)].

Definition base_architecture (args : Namespace) : Namespace :=
  exec base_architecture_body args.

Definition smlp_mlm_complex_architecture_body : list assign := [
  dflt_line "encoder_normalize_before" (VBool true);
  dflt_line "use_position_embeddings" (VBool false);
  dflt_line "complex" (VBool true);
  dflt_line "r_max" (VFloat (9 # 10));
  dflt_line "r_min" (VFloat (1 # 10));
  dflt_line "max_phase" (VFloat (628 # 100));
  dflt_line "dt_min" (VFloat (1 # 1000));
  dflt_line "dt_max" (VFloat (1 # 10));
  dflt_line "gate_activation_fn" (VStr "sigmoid")].

Definition smlp_mlm_complex_architecture (args : Namespace) : Namespace :=
  base_architecture (exec smlp_mlm_complex_architecture_body args).

Definition smlp_mlm_complex_architecture_mp (args : Namespace) : Namespace :=
  smlp_mlm_complex_architecture
    (exec [dflt_line "sen_rep_type" (VStr "mp")] args).

(** The task presets that set the same seven lines with their own number of
    layers (and [max_phase]) before calling [smlp_mlm_complex_architecture]. *)
Definition task_body (max_phase : Q) (layers : Z) : list assign := [
  dflt_line "r_max" (VFloat (9 # 10));
  dflt_line "r_min" (VFloat (1 # 10));
  dflt_line "max_phase" (VFloat max_phase);
  dflt_line "sen_rep_type" (VStr "mp");
  dflt_line "encoder_embed_dim" (VInt 512);
  dflt_line "encoder_k_dim" (VInt 512);
  dflt_line "encoder_layers" (VInt layers)].

Definition smlp_mlm_complex_architecture_test1 (args : Namespace) : Namespace :=
  smlp_mlm_complex_architecture (exec (task_body (628 # 100) 6) args).

Definition smlp_mlm_complex_architecture_sst2 (args : Namespace) : Namespace :=
  smlp_mlm_complex_architecture (exec (task_body (628 # 100) 12) args).

Definition gate_body : list assign := [dflt_line "gate" (VBool true)].

Definition smlp_mlm_complex_architecture_qqp_gate (args : Namespace) : Namespace :=
  smlp_mlm_complex_architecture_sst2 (exec gate_body args).

Definition smlp_mlm_complex_architecture_sst2_gate (args : Namespace) : Namespace :=
  smlp_mlm_complex_architecture_sst2 (exec gate_body args).

Definition smlp_mlm_complex_architecture_cola (args : Namespace) : Namespace :=
  smlp_mlm_complex_architecture (exec (task_body (628 # 100) 3) args).

Definition smlp_mlm_complex_architecture_cola_gate (args : Namespace) : Namespace :=
  smlp_mlm_complex_architecture_cola (exec gate_body args).

Definition smlp_mlm_complex_architecture_mrpc (args : Namespace) : Namespace :=
  smlp_mlm_complex_architecture (exec (task_body (628 # 100) 6) args).

Definition smlp_mlm_complex_architecture_mrpc_gate (args : Namespace) : Namespace :=
  smlp_mlm_complex_architecture_mrpc (exec gate_body args).

(** Two functions of the source share the name
    [smlp_mlm_complex_architecture_test1_base]; each was registered by its
    decorator before the next definition, the second is primed here. *)
Definition smlp_mlm_complex_architecture_test1_base (args : Namespace) : Namespace :=
  smlp_mlm_complex_architecture_test1
    (exec [dflt_line "encoder_layers" (VInt 12)] args).

Definition smlp_mlm_complex_architecture_test1_base' (args : Namespace) : Namespace :=
  smlp_mlm_complex_architecture_test1
    (exec [dflt_line "gate" (VBool true); dflt_line "encoder_layers" (VInt 12)] args).

Definition smlp_mlm_complex_gate (args : Namespace) : Namespace :=
  smlp_mlm_complex_architecture
    (exec [dflt_line "decoder_layers" (VInt 16); dflt_line "gate" (VBool true)] args).

Definition smlp_mlm_complex_architecture_qnli (args : Namespace) : Namespace :=
  smlp_mlm_complex_architecture (exec (task_body (628 # 100) 6) args).

Definition smlp_mlm_complex_architecture_qnli_gate (args : Namespace) : Namespace :=
  smlp_mlm_complex_architecture_test1 (exec gate_body args).

Definition smlp_mlm_complex_architecture_imdb (args : Namespace) : Namespace :=
  smlp_mlm_complex_architecture (exec (task_body (314 # 100) 4) args).

(** The last line of the file (it has no final newline) calls
    [smlp_mlm_complex_architecture_imdb]. *)
Definition smlp_mlm_complex_architecture_imdb_gate (args : Namespace) : Namespace :=
  smlp_mlm_complex_architecture_imdb (exec gate_body args).

(** [ARCH_CONFIG_REGISTRY] as filled by the decorators of the module. *)
Definition arch_registry : list (string * (Namespace -> Namespace)) := [
  ("smlp_mlm", base_architecture);
  ("smlp_mlm_complex", smlp_mlm_complex_architecture);
  ("smlp_mlm_complex_mp", smlp_mlm_complex_architecture_mp);
  ("smlp_mlm_complex_QQP", smlp_mlm_complex_architecture_test1);
  ("smlp_mlm_complex_sst2", smlp_mlm_complex_architecture_sst2);
  ("smlp_mlm_complex_sst2_gate", smlp_mlm_complex_architecture_qqp_gate);
  ("smlp_mlm_complex_QQP_gate", smlp_mlm_complex_architecture_sst2_gate);
  ("smlp_mlm_complex_cola", smlp_mlm_complex_architecture_cola);
  ("smlp_mlm_complex_cola_gate", smlp_mlm_complex_architecture_cola_gate);
  ("smlp_mlm_complex_mrpc", smlp_mlm_complex_architecture_mrpc);
  ("smlp_mlm_complex_mrpc_gate", smlp_mlm_complex_architecture_mrpc_gate);
  ("smlp_mlm_complex_mnli", smlp_mlm_complex_architecture_test1_base);
  ("smlp_mlm_complex_mnli_gate", smlp_mlm_complex_architecture_test1_base');
  ("smlp_mlm_complex_gate", smlp_mlm_complex_gate);
  ("smlp_mlm_complex_qnli", smlp_mlm_complex_architecture_qnli);
  ("smlp_mlm_complex_qnli_gate", smlp_mlm_complex_architecture_qnli_gate);
  ("smlp_mlm_complex_imdb", smlp_mlm_complex_architecture_imdb);
  ("smlp_mlm_complex_imdb_gate", smlp_mlm_complex_architecture_imdb_gate)].

(** Resolution of a preset name: [ARCH_CONFIG_REGISTRY[arch](args)]. *)
Definition resolve (arch : string) (args : Namespace) : option Namespace :=
  match Dict.get arch_registry arch with
  | Some f => Some (f args)
  | None => None
  end.

(** ** Checks on the preset bodies *)

(** Every line is [args.n = getattr(args, "n", d)] except, possibly, lines
    that write [spectral_norm_classification_head]. *)
Definition self_or_spectral (body : list assign) : bool :=
  forallb (fun l => String.eqb (src l) (dst l)
                    || String.eqb (dst l) "spectral_norm_classification_head") body.

(** A line reading another attribute than it writes reads one that no line
    writes, and it is the only such line writing its attribute. *)
Definition foreign_reads_ok (body : list assign) : bool :=
  forallb (fun l =>
    String.eqb (src l) (dst l) ||
    forallb (fun l' =>
      negb (String.eqb (dst l') (src l)) &&
      (negb (String.eqb (dst l') (dst l)) || String.eqb (src l') (dst l')
       || (String.eqb (src l') (src l) && String.eqb (dst l') (dst l)
           && value_eqb (dflt l') (dflt l)))) body) body.

(** Extensional equality of namespaces (same attributes, same values). *)
Definition ns_equiv (a b : Namespace) : Prop := forall k, Dict.get a k = Dict.get b k.

(** ** The model: classification heads and state-dict migration *)

(** Python exceptions the embedded code can raise. *)
Inductive exn :=
| KeyError (key : string)
| IndexError
| AttributeError (attr : string)
| NotImplementedError
| RuntimeError
| ValueError
| AssertionError
| ZeroDivisionError.

Inductive result (A : Type) :=
| Ok (a : A)
| Err (e : exn).
Arguments Ok {A} a.
Arguments Err {A} e.

(** Tensor contents are opaque: a tensor read from a checkpoint carries a
    token [Stored n]; a parameter of a head constructed in this process is
    [Fresh uid param], [uid] identifying the head object. *)
Inductive payload :=
| Stored (n : nat)
| Fresh (uid : nat) (param : string).

Record tensor := Tensor { shape : list Z; contents : payload }.

(** [t.size(0)] *)
Definition size0 (t : tensor) : result Z :=
  match shape t with
  | d :: _ => Ok d
  | [] => Err IndexError
  end.

(** The attributes of [self.args] read by the model ([None] for
    [sen_rep_type] when the preset did not set it). *)
Record ModelArgs := MkArgs {
  encoder_embed_dim : Z;
  pooler_activation_fn : string;
  pooler_dropout : Q;
  quant_noise_pq : Q;
  quant_noise_pq_block_size : Z;
  spectral_norm_classification_head : bool;
  sen_rep_type : option string;
  load_checkpoint_heads : bool }.

(** An [SMLPClassificationHead]: the object [head_uid], the in/out features
    of [dense] and [out_proj], spectral normalisation and pooling mode. *)
Record head := Head {
  head_uid : nat;
  dense_in : Z;
  dense_out : Z;
  out_proj_in : Z;
  out_proj_out : Z;
  spectral : bool;
  head_sen_rep_type : string }.

(** [nn.Linear(in_features, out_features)] allocates its weight with
    [torch.empty((out_features, in_features))], which raises [RuntimeError]
    for a negative dimension. *)
Definition linear_ok (in_features out_features : Z) : bool :=
  Z.leb 0 in_features && Z.leb 0 out_features.

(** The names [fairseq.utils.get_activation_fn] accepts (fairseq 0.12);
    any other name raises [RuntimeError]. *)
Definition activation_fn_known (activation : string) : bool :=
  existsb (String.eqb activation)
    ["relu"; "relu_squared"; "gelu"; "gelu_fast"; "gelu_accurate"; "tanh"; "linear"; "swish"].

(** [nn.Dropout(p)] raises [ValueError] unless [0 <= p <= 1]. *)
Definition dropout_ok (p : Q) : bool := Qle_bool 0 p && Qle_bool p 1.

(** [fairseq.modules.quant_noise.quant_noise(module, p, block_size)] on an
    [nn.Linear(in_features, _)]: nothing is checked when [p <= 0];
    otherwise it asserts [module.weight.size(1) % block_size == 0], and
    [weight.size(1)] is [in_features]. *)
Definition apply_quant_noise_ (in_features : Z) (p : Q) (block_size : Z) : result unit :=
  if Qle_bool p 0 then Ok tt
  else if Z.eqb block_size 0 then Err ZeroDivisionError
  else if Z.eqb (Z.modulo in_features block_size) 0 then Ok tt
  else Err AssertionError.

(** [SMLPClassificationHead(input_dim, inner_dim, num_classes, ...)] as
    called by [register_classification_head]: reading
    [self.args.sen_rep_type] for the last argument raises [AttributeError]
    when the preset did not set it; then, in the order of [__init__],
    [nn.Linear(input_dim, inner_dim)], [get_activation_fn],
    [nn.Dropout(pooler_dropout)], [nn.Linear(inner_dim, num_classes)] and
    [apply_quant_noise_] may raise, then the spectral-norm branch: quant
    noise raises [NotImplementedError], and [torch.nn.utils.spectral_norm]
    reshapes the weight with [reshape(num_classes, -1)], which raises
    [RuntimeError] for a weight without elements ([num_classes = 0]). *)
Definition SMLPClassificationHead (a : ModelArgs) (uid : nat)
    (input_dim inner_dim num_classes : Z) : result head :=
  match sen_rep_type a with
  | None => Err (AttributeError "sen_rep_type")
  | Some srt =>
      if negb (linear_ok input_dim inner_dim) then Err RuntimeError else
      if negb (activation_fn_known (pooler_activation_fn a)) then Err RuntimeError else
      if negb (dropout_ok (pooler_dropout a)) then Err ValueError else
      if negb (linear_ok inner_dim num_classes) then Err RuntimeError else
      match apply_quant_noise_ inner_dim (quant_noise_pq a) (quant_noise_pq_block_size a) with
      | Err e => Err e
      | Ok _ =>
          if spectral_norm_classification_head a && negb (Qeq_bool (quant_noise_pq a) 0)
          then Err NotImplementedError
          else if spectral_norm_classification_head a && Z.eqb num_classes 0
          then Err RuntimeError
          else Ok (Head uid input_dim inner_dim inner_dim num_classes
                        (spectral_norm_classification_head a) srt)
      end
  end.

(** [head.state_dict()] entries, named relative to the head. *)
Definition head_state_dict (h : head) : list (string * tensor) :=
  let u := head_uid h in
  [("dense.weight", Tensor [dense_out h; dense_in h] (Fresh u "dense.weight"));
   ("dense.bias", Tensor [dense_out h] (Fresh u "dense.bias"))] ++
  (if spectral h then
     [("out_proj.bias", Tensor [out_proj_out h] (Fresh u "out_proj.bias"));
      ("out_proj.weight_orig", Tensor [out_proj_out h; out_proj_in h]
                                      (Fresh u "out_proj.weight_orig"));
      ("out_proj.weight_u", Tensor [out_proj_out h] (Fresh u "out_proj.weight_u"));
      ("out_proj.weight_v", Tensor [out_proj_in h] (Fresh u "out_proj.weight_v"))]
   else
     [("out_proj.weight", Tensor [out_proj_out h; out_proj_in h]
                                 (Fresh u "out_proj.weight"));
      ("out_proj.bias", Tensor [out_proj_out h] (Fresh u "out_proj.bias"))])%list.

(** [self.classification_heads.state_dict()] *)
Definition heads_state_dict (hs : Dict.t head) : list (string * tensor) :=
  flat_map (fun nh => List.map (fun kv => (fst nh ++ "." ++ fst kv, snd kv))
                               (head_state_dict (snd nh))) hs.

(** The attributes of an [nn.ModuleDict] instance (PyTorch 2.x): those of
    [object], of [nn.Module] (methods, class and instance attributes) and the
    methods of [nn.ModuleDict]. *)
Definition module_dict_attrs : list string :=
  ["T_destination"; "add_module"; "apply"; "bfloat16"; "buffers"; "call_super_init";
   "children"; "clear"; "compile"; "cpu"; "cuda"; "double"; "dump_patches"; "eval";
   "extra_repr"; "float"; "forward"; "get_buffer"; "get_extra_state"; "get_parameter";
   "get_submodule"; "half"; "ipu"; "items"; "keys"; "load_state_dict"; "modules"; "mtia";
   "named_buffers"; "named_children"; "named_modules"; "named_parameters"; "parameters";
   "pop"; "register_backward_hook"; "register_buffer"; "register_forward_hook";
   "register_forward_pre_hook"; "register_full_backward_hook";
   "register_full_backward_pre_hook"; "register_load_state_dict_post_hook";
   "register_load_state_dict_pre_hook"; "register_module"; "register_parameter";
   "register_state_dict_post_hook"; "register_state_dict_pre_hook"; "requires_grad_";
   "set_extra_state"; "set_submodule"; "share_memory"; "state_dict"; "to"; "to_empty";
   "train"; "training"; "type"; "update"; "values"; "xpu"; "zero_grad";
   "_apply"; "_backward_hooks"; "_backward_pre_hooks"; "_buffers"; "_call_impl";
   "_compiled_call_impl"; "_forward_hooks"; "_forward_hooks_always_called";
   "_forward_hooks_with_kwargs"; "_forward_pre_hooks"; "_forward_pre_hooks_with_kwargs";
   "_get_backward_hooks"; "_get_backward_pre_hooks"; "_get_name"; "_is_full_backward_hook";
   "_load_from_state_dict"; "_load_state_dict_post_hooks"; "_load_state_dict_pre_hooks";
   "_maybe_warn_non_full_backward_hook"; "_modules"; "_named_members";
   "_non_persistent_buffers_set"; "_parameters"; "_register_load_state_dict_pre_hook";
   "_register_state_dict_hook"; "_replicate_for_data_parallel"; "_save_to_state_dict";
   "_slow_forward"; "_state_dict_hooks"; "_state_dict_pre_hooks"; "_version";
   "_wrapped_call_impl";
   "__annotations__"; "__call__"; "__class__"; "__contains__"; "__delattr__";
   "__delitem__"; "__dict__"; "__dir__"; "__doc__"; "__eq__"; "__format__"; "__ge__";
   "__getattr__"; "__getattribute__"; "__getitem__"; "__getstate__"; "__gt__"; "__hash__";
   "__init__"; "__init_subclass__"; "__iter__"; "__le__"; "__len__"; "__lt__";
   "__module__"; "__ne__"; "__new__"; "__reduce__"; "__reduce_ex__"; "__repr__";
   "__setattr__"; "__setitem__"; "__setstate__"; "__sizeof__"; "__str__";
   "__subclasshook__"; "__weakref__"].

Definition is_module_dict_attr (n : string) : bool :=
  existsb (String.eqb n) module_dict_attrs.

Fixpoint has_dot (n : string) : bool :=
  match n with
  | EmptyString => false
  | String c n' => Ascii.eqb c "."%char || has_dot n'
  end.

(** [self.classification_heads[name] = module], i.e. [nn.Module.add_module]:
    [KeyError] when [hasattr(self, name) and name not in self._modules]
    ([hasattr] also finds the registered modules), when ["."] is in [name]
    and when [name] is empty. *)
Definition add_module_ok (modules : Dict.t head) (name : string) : bool :=
  negb (is_module_dict_attr name && negb (Dict.mem modules name)) &&
  negb (has_dot name) && negb (String.eqb name "").

(** A name [add_module] accepts for a module not yet registered under it. *)
Definition module_name_ok (n : string) : bool :=
  negb (is_module_dict_attr n) && negb (String.eqb n "") && negb (has_dot n).

Record model := Model {
  args : ModelArgs;
  classification_heads : Dict.t head;
  next_uid : nat }.

Inductive diag :=
| WarnReRegister (name : string)
| WarnDeleteUnknown (head_name key : string)
| WarnDeleteShape (head_name key : string)
| InfoOverwriting (key : string).

(** The state threaded through a call: the live model, the state dict being
    upgraded (mutated in place by the source), and the log. *)
Record st := St { model_of : model; state_dict : Dict.t tensor; log : list diag }.

Definition M (A : Type) := st -> result (A * st).

Definition ret {A} (a : A) : M A := fun s => Ok (a, s).
Definition bind {A B} (m : M A) (k : A -> M B) : M B :=
  fun s => match m s with Ok (a, s') => k a s' | Err e => Err e end.
Definition raise {A} (e : exn) : M A := fun _ => Err e.
Definition lift {A} (r : result A) : M A :=
  fun s => match r with Ok a => Ok (a, s) | Err e => Err e end.

Notation "x <- m ;; k" := (bind m (fun x => k))
  (at level 61, m at next level, right associativity).
Notation "m ;; k" := (bind m (fun _ => k)) (at level 61, right associativity).

Definition get_model : M model := fun s => Ok (model_of s, s).
Definition put_model (m : model) : M unit :=
  fun s => Ok (tt, St m (state_dict s) (log s)).
Definition emit (d : diag) : M unit :=
  fun s => Ok (tt, St (model_of s) (state_dict s) (log s ++ [d])%list).

(** [list(state_dict.keys())], [state_dict[k]], [state_dict[k] = v],
    [del state_dict[k]], [k in state_dict] *)
Definition sd_keys : M (list string) := fun s => Ok (Dict.keys (state_dict s), s).
Definition sd_getitem (k : string) : M tensor :=
  fun s => match Dict.get (state_dict s) k with
           | Some v => Ok (v, s)
           | None => Err (KeyError k)
           end.
Definition sd_setitem (k : string) (v : tensor) : M unit :=
  fun s => Ok (tt, St (model_of s) (Dict.set (state_dict s) k v) (log s)).
Definition sd_delitem (k : string) : M unit :=
  fun s => if Dict.mem (state_dict s) k
           then Ok (tt, St (model_of s) (Dict.del (state_dict s) k) (log s))
           else Err (KeyError k).
Definition sd_contains (k : string) : M bool :=
  fun s => Ok (Dict.mem (state_dict s) k, s).

(** Python's [x or y] on an optional integer: [None] and [0] are falsy. *)
Definition or_default (o : option Z) (d : Z) : Z :=
  match o with
  | Some v => if Z.eqb v 0 then d else v
  | None => d
  end.

Definition opt_Z_eqb (o : option Z) (z : Z) : bool :=
  match o with Some v => Z.eqb v z | None => false end.

(** [SMLP_MLM_Model.register_classification_head] *)
Definition register_classification_head (name : string) (num_classes : Z)
    (inner_dim : option Z) : M unit :=
  m <- get_model ;;
  (match Dict.get (classification_heads m) name with
   | Some prev =>
       if negb (Z.eqb num_classes (out_proj_out prev))
          || negb (opt_Z_eqb inner_dim (dense_out prev))
       then emit (WarnReRegister name) else ret tt
   | None => ret tt
   end) ;;
  let a := args m in
  h <- lift (SMLPClassificationHead a (next_uid m) (encoder_embed_dim a)
               (or_default inner_dim (encoder_embed_dim a)) num_classes) ;;
  if add_module_ok (classification_heads m) name
  then put_model (Model a (Dict.set (classification_heads m) name h) (S (next_uid m)))
  else raise (KeyError name).

(** [k[n:]] *)
Definition drop (n : nat) (k : string) : string :=
  String.substring n (String.length k - n) k.

(** [s.split(".")[0]] *)
Fixpoint first_segment (s : string) : string :=
  match s with
  | EmptyString => EmptyString
  | String c s' => if Ascii.eqb c "."%char then EmptyString else String c (first_segment s')
  end.

(** [prefix = name + "." if name != "" else ""] *)
Definition module_prefix (name : string) : string :=
  if String.eqb name "" then "" else name ++ ".".

(** The rename loop: [for k in list(state_dict.keys())], a key starting with
    [prefix + "decoder"] is moved to [prefix + "encoder" + k[len(prefix + "decoder"):]]. *)
Fixpoint rename_decoder (prefix : string) (ks : list string) : M unit :=
  match ks with
  | [] => ret tt
  | k :: ks' =>
      (if String.prefix (prefix ++ "decoder") k
       then let new_k := prefix ++ "encoder" ++ drop (String.length (prefix ++ "decoder")) k in
            v <- sd_getitem k ;; sd_setitem new_k v ;; sd_delitem k
       else ret tt) ;;
      rename_decoder prefix ks'
  end.

(** Modelled from the spec: [super().upgrade_state_dict_named(state_dict, name)]
    runs the upgrade hooks of the child modules, among them the
    [SMLPSentenceEncoder] of [..module.smlp_encoder], whose code is not part
    of the sources; the spec lists no step of it and lets every key outside
    its three steps pass through unchanged. *)
Definition upgrade_children (name : string) : M unit := ret tt.

(** The reconciliation loop over the keys of the state dict, returning
    [keys_to_delete]. *)
Fixpoint reconcile_heads (prefix : string) (ks : list string) (keys_to_delete : list string)
    : M (list string) :=
  match ks with
  | [] => ret keys_to_delete
  | k :: ks' =>
      let ns := prefix ++ "classification_heads." in
      if negb (String.prefix ns k) then reconcile_heads prefix ks' keys_to_delete else
      let head_name := first_segment (drop (String.length ns) k) in
      w <- sd_getitem (ns ++ head_name ++ ".out_proj.weight") ;;
      num_classes <- lift (size0 w) ;;
      w' <- sd_getitem (ns ++ head_name ++ ".dense.weight") ;;
      inner_dim <- lift (size0 w') ;;
      m <- get_model ;;
      if load_checkpoint_heads (args m) then
        (if negb (Dict.mem (classification_heads m) head_name)
         then register_classification_head head_name num_classes (Some inner_dim)
         else ret tt) ;;
        reconcile_heads prefix ks' keys_to_delete
      else
        match Dict.get (classification_heads m) head_name with
        | None =>
            emit (WarnDeleteUnknown head_name k) ;;
            reconcile_heads prefix ks' (keys_to_delete ++ [k])%list
        | Some h =>
            if negb (Z.eqb num_classes (out_proj_out h)) || negb (Z.eqb inner_dim (dense_out h))
            then emit (WarnDeleteShape head_name k) ;;
                 reconcile_heads prefix ks' (keys_to_delete ++ [k])%list
            else reconcile_heads prefix ks' keys_to_delete
        end
  end.

(** [for k in keys_to_delete: del state_dict[k]] *)
Fixpoint delete_keys (ks : list string) : M unit :=
  match ks with
  | [] => ret tt
  | k :: ks' => sd_delitem k ;; delete_keys ks'
  end.

(** The copy of the current heads' parameters absent from the state dict. *)
Fixpoint backfill (prefix : string) (cur_state : list (string * tensor)) : M unit :=
  match cur_state with
  | [] => ret tt
  | (k, v) :: rest =>
      let key := prefix ++ "classification_heads." ++ k in
      present <- sd_contains key ;;
      (if present then ret tt else emit (InfoOverwriting key) ;; sd_setitem key v) ;;
      backfill prefix rest
  end.

(** [SMLP_MLM_Model.upgrade_state_dict_named(state_dict, name)].  The source
    mutates [state_dict] in place and returns [None]; the result here is its
    local [keys_to_delete]. *)
Definition upgrade_state_dict_named (name : string) : M (list string) :=
  let prefix := module_prefix name in
  ks <- sd_keys ;;
  rename_decoder prefix ks ;;
  upgrade_children name ;;
  ks2 <- sd_keys ;;
  keys_to_delete <- reconcile_heads prefix ks2 [] ;;
  delete_keys keys_to_delete ;;
  m <- get_model ;;
  backfill prefix (heads_state_dict (classification_heads m)) ;;
  ret keys_to_delete.

(** The top-level call of the loader: [model.upgrade_state_dict(state_dict)],
    i.e. [upgrade_state_dict_named(state_dict, "")]. *)
Definition migrate (m : model) (sd : Dict.t tensor) : result (list string * st) :=
  upgrade_state_dict_named "" (St m sd []).

(** ** [forward] *)

(** Tensors of the forward pass, as the expressions that compute them: the
    numeric layers are those of the external tensor library (and of the
    [SMLPSentenceEncoder], whose code is not part of the sources). *)
Inductive sym :=
| Tokens (n : nat)
| InnerStates (src_tokens : sym) (src_lengths : option sym) (last_state_only : bool)
| Features (src_tokens : sym) (src_lengths : option sym) (last_state_only : bool)
| LMOutput (features : sym) (masked_tokens : option sym)
| PoolCls (features : sym)
| PoolMean (features : sym)
| PoolMeanLen (features : sym) (src_lengths : sym)
| HeadOutput (uid : nat) (pooled : sym).
(* [InnerStates t l b] is the list [inner_states] returned by
   [self.sentence_encoder(t, l, last_state_only=b)], and [Features t l b]
   is [inner_states[0].transpose(0, 1)] of that call. *)

(** The [**kwargs] the forward passes read.  [kw_src_lengths] is [None]
    when the keyword is absent and [Some v] when it is passed, [v] being
    [None] for an explicit [src_lengths=None]; an absent [masked_tokens]
    and [masked_tokens=None] are the same default. *)
Record kwargs := Kwargs { kw_src_lengths : option (option sym); kw_masked_tokens : option sym }.

(** [unused['src_lengths'] if "src_lengths" in unused.keys() else None] *)
Definition src_lengths_of (kw : kwargs) : option sym :=
  match kw_src_lengths kw with
  | Some v => v
  | None => None
  end.

(** [RobertaEncoder.extract_features] *)
Definition extract_features (src_tokens : sym) (src_lengths : option sym)
    (return_all_hiddens : bool) : sym * option sym :=
  let inner_states := InnerStates src_tokens src_lengths (negb return_all_hiddens) in
  (Features src_tokens src_lengths (negb return_all_hiddens),
   if return_all_hiddens then Some inner_states else None).

(** [RobertaEncoder.output_layer] (the [SMLPLMHead]) *)
Definition output_layer (features : sym) (masked_tokens : option sym) : sym :=
  LMOutput features masked_tokens.

(** [RobertaEncoder.forward] *)
Definition encoder_forward (src_tokens : sym) (features_only return_all_hiddens : bool)
    (kw : kwargs) : sym * option sym :=
  let (x, extra) := extract_features src_tokens (src_lengths_of kw) return_all_hiddens in
  if negb features_only then (output_layer x (kw_masked_tokens kw), extra) else (x, extra).

(** [SMLPClassificationHead.forward]: with ["src_lengths"] among the keywords,
    [src_lengths.unsqueeze(-1)] raises [AttributeError] on [None]. *)
Definition head_forward (h : head) (features : sym) (kw : kwargs) : result sym :=
  if String.eqb (head_sen_rep_type h) "mp" then
    match kw_src_lengths kw with
    | Some (Some l) => Ok (HeadOutput (head_uid h) (PoolMeanLen features l))
    | Some None => Err (AttributeError "unsqueeze")
    | None => Ok (HeadOutput (head_uid h) (PoolMean features))
    end
  else if String.eqb (head_sen_rep_type h) "cls" then
    Ok (HeadOutput (head_uid h) (PoolCls features))
  else Err NotImplementedError.

(** [SMLP_MLM_Model.forward] *)
Definition forward (m : model) (src_tokens : sym) (features_only return_all_hiddens : bool)
    (classification_head_name : option string) (kw : kwargs) : result (sym * option sym) :=
  let features_only := match classification_head_name with
                       | Some _ => true
                       | None => features_only
                       end in
  let (x, extra) := encoder_forward src_tokens features_only return_all_hiddens kw in
  match classification_head_name with
  | None => Ok (x, extra)
  | Some n =>
      match Dict.get (classification_heads m) n with
      | None => Err (KeyError n)
      | Some h =>
          match head_forward h x kw with
          | Ok y => Ok (y, extra)
          | Err e => Err e
          end
      end
  end.

(** ** Observations on the migrated state dict (top-level call, [name = ""]) *)

Definition heads_ns : string := "classification_heads.".

(** [k[len(prefix + "classification_heads."):].split(".")[0]] *)
Definition head_name_of (k : string) : string :=
  first_segment (drop (String.length heads_ns) k).

(** [k in l] for a list of keys *)
Definition mem_list (k : string) (l : list string) : bool := existsb (String.eqb k) l.

(** The state dict after the rename loop, key by key. *)
Definition renamed (sd : Dict.t tensor) (k : string) : option tensor :=
  if String.prefix "decoder" k then None
  else if String.prefix "encoder" k then
    match Dict.get sd ("decoder" ++ drop 7 k) with
    | Some v => Some v
    | None => Dict.get sd k
    end
  else Dict.get sd k.

(** The same after the keys [done] of the snapshot have been visited. *)
Definition renamed_upto (sd : Dict.t tensor) (done : list string) (k : string) : option tensor :=
  if String.prefix "decoder" k then (if mem_list k done then None else Dict.get sd k)
  else if String.prefix "encoder" k then
    (if mem_list ("decoder" ++ drop 7 k) done then Dict.get sd ("decoder" ++ drop 7 k)
     else Dict.get sd k)
  else Dict.get sd k.

(** The shapes the reconciliation loop reads for a head:
    [(out_proj.weight.size(0), dense.weight.size(0))]. *)
Definition persisted_dims (sd : Dict.t tensor) (hn : string) : result (Z * Z) :=
  match Dict.get sd (heads_ns ++ hn ++ ".out_proj.weight") with
  | None => Err (KeyError (heads_ns ++ hn ++ ".out_proj.weight"))
  | Some w =>
      match size0 w with
      | Err e => Err e
      | Ok nc =>
          match Dict.get sd (heads_ns ++ hn ++ ".dense.weight") with
          | None => Err (KeyError (heads_ns ++ hn ++ ".dense.weight"))
          | Some w' =>
              match size0 w' with
              | Err e => Err e
              | Ok inner => Ok (nc, inner)
              end
          end
      end
  end.

(** Whether the loop with [load_checkpoint_heads] off puts [k] in
    [keys_to_delete]. *)
Definition drop_decision (hs : Dict.t head) (sd : Dict.t tensor) (k : string) : bool :=
  String.prefix heads_ns k &&
  match persisted_dims sd (head_name_of k) with
  | Ok (nc, inner) =>
      match Dict.get hs (head_name_of k) with
      | None => true
      | Some h => negb (Z.eqb nc (out_proj_out h)) || negb (Z.eqb inner (dense_out h))
      end
  | Err _ => false
  end.

(** The entries the backfill copies, with their full keys. *)
Definition backfill_entries (hs : Dict.t head) : Dict.t tensor :=
  List.map (fun kv => (heads_ns ++ fst kv, snd kv)) (heads_state_dict hs).

(** Whether [k] is a key of the head [hn] in the state dict. *)
Definition is_head_key (hn k : string) : bool :=
  String.prefix heads_ns k && String.eqb (head_name_of k) hn.

(** The invariant registrations keep from [SMLP_MLM_Model.__init__] (no
    heads) on: head names are valid [nn.ModuleDict] keys and every head
    object was allocated before [next_uid]. *)
Definition heads_wf (m : model) : Prop :=
  forall n h, Dict.get (classification_heads m) n = Some h ->
    module_name_ok n = true /\ (head_uid h < next_uid m)%nat.

(** The checks [SMLPClassificationHead.__init__] makes once [sen_rep_type]
    is read all pass. *)
Definition head_ctor_ok (a : ModelArgs) (input_dim inner_dim num_classes : Z) : bool :=
  linear_ok input_dim inner_dim && activation_fn_known (pooler_activation_fn a) &&
  dropout_ok (pooler_dropout a) && linear_ok inner_dim num_classes &&
  match apply_quant_noise_ inner_dim (quant_noise_pq a) (quant_noise_pq_block_size a) with
  | Ok _ => true
  | Err _ => false
  end &&
  negb (spectral_norm_classification_head a && negb (Qeq_bool (quant_noise_pq a) 0)) &&
  negb (spectral_norm_classification_head a && Z.eqb num_classes 0).

(** A model with a ["qqp"] head (2 classes, inner dimension 512). *)
Definition qqp_args : ModelArgs := MkArgs 512 "tanh" 0 0 8 false (Some "mp") false.
Definition qqp_head : head := Head 0 512 512 512 2 false "mp".
Definition qqp_model : model := Model qqp_args [("qqp", qqp_head)] 1.

(** Inputs of a forward call through the ["qqp"] head. *)
Definition qqp_kwargs : kwargs := Kwargs (Some (Some (Tokens 1))) None.

(** A caller-supplied namespace asking for a spectral-normalised head
    ([--spectral-norm-classification-head]). *)
Definition caller_args_spectral : Namespace :=
  [("spectral_norm_classification_head", VBool true)].

(** A namespace where every attribute the root preset defines is already
    set, with [spectral_norm_classification_head] set to [True]. *)
Definition full_args_spectral : Namespace :=
  Dict.set (base_architecture []) "spectral_norm_classification_head" (VBool true).

(** A model with an ["sst2"] head expecting [out_proj.weight : [2, 512]],
    with [--load-checkpoint-heads] set to [lch]. *)
Definition sst2_args (lch : bool) : ModelArgs :=
  MkArgs 512 "tanh" 0 0 8 false (Some "mp") lch.
Definition sst2_head : head := Head 0 512 512 512 2 false "mp".
Definition sst2_model (lch : bool) : model := Model (sst2_args lch) [("sst2", sst2_head)] 1.

(** A checkpoint whose ["sst2"] head has 3 classes ([out_proj.weight : [3, 512]]). *)
Definition sst2_blob : Dict.t tensor :=
  [("classification_heads.sst2.dense.weight", Tensor [512; 512] (Stored 0));
   ("classification_heads.sst2.dense.bias", Tensor [512] (Stored 1));
   ("classification_heads.sst2.out_proj.weight", Tensor [3; 512] (Stored 2));
   ("classification_heads.sst2.out_proj.bias", Tensor [3] (Stored 3))].

(** A checkpoint with an ["mnli"] head (3 classes, inner dimension 512). *)
Definition mnli_blob : Dict.t tensor :=
  [("encoder.sentence_encoder.embed_tokens.weight", Tensor [100; 512] (Stored 0));
   ("classification_heads.mnli.dense.weight", Tensor [512; 512] (Stored 1));
   ("classification_heads.mnli.dense.bias", Tensor [512] (Stored 2));
   ("classification_heads.mnli.out_proj.weight", Tensor [3; 512] (Stored 3));
   ("classification_heads.mnli.out_proj.bias", Tensor [3] (Stored 4))].

(** A checkpoint with an ["rte"] head of inner dimension 0
    ([dense.weight : [0, 512]]). *)
Definition zero_inner_blob : Dict.t tensor :=
  [("classification_heads.rte.dense.weight", Tensor [0; 512] (Stored 0));
   ("classification_heads.rte.dense.bias", Tensor [0] (Stored 1));
   ("classification_heads.rte.out_proj.weight", Tensor [2; 0] (Stored 2));
   ("classification_heads.rte.out_proj.bias", Tensor [2] (Stored 3))].

(** A checkpoint with a ["qqp"] head key but no [out_proj.weight] for it. *)
Definition partial_head_blob : Dict.t tensor :=
  [("classification_heads.qqp.dense.weight", Tensor [512; 512] (Stored 0))].

(** A checkpoint with a legacy ["decoder."] key. *)
Definition legacy_blob : Dict.t tensor :=
  [("decoder.lm_head.bias", Tensor [100] (Stored 0))].

(** A checkpoint with an ["encoder."] key that a legacy key also maps to, and a
    key that starts with ["decoder"] without being in the ["decoder"]
    namespace. *)
Definition overlap_blob : Dict.t tensor :=
  [("encoder.lm_head.bias", Tensor [100] (Stored 0));
   ("decoder.lm_head.bias", Tensor [100] (Stored 1));
   ("decoder_embed.weight", Tensor [100; 512] (Stored 2))].

(** ** [SMLP_MLM_Model.build_model] and [RobertaEncoder.__init__] *)

(** Python truthiness of an attribute value. *)
Definition truthy (v : value) : bool :=
  match v with
  | VInt z => negb (Z.eqb z 0)
  | VFloat q => negb (Qeq_bool q 0)
  | VBool b => b
  | VStr s => negb (String.eqb s "")
  | VNone => false
  end.

(** [args.name]: raises [AttributeError] when the attribute is unset. *)
Definition getattr_strict (args : Namespace) (name : string) : result value :=
  match Dict.get args name with
  | Some v => Ok v
  | None => Err (AttributeError name)
  end.

(** Sequencing of fallible steps. *)
Definition rbind {A B} (r : result A) (k : A -> result B) : result B :=
  match r with Ok a => k a | Err e => Err e end.

Fixpoint count_char (c : ascii) (s : string) : nat :=
  match s with
  | EmptyString => O
  | String c' s' => if Ascii.eqb c' c then S (count_char c s') else count_char c s'
  end.

(** [len(s.split(","))]: one piece more than there are separators. *)
Definition split_len (s : string) : Z := Z.of_nat (count_char ","%char s) + 1.

(** [task.source_dictionary]: what the encoder reads of it ([pad()] and
    [len(dictionary)]). *)
Record dictionary := Dictionary { dict_pad : Z; dict_len : Z }.

(** The arguments of the [SMLPSentenceEncoder] constructor (its code is not
    part of the sources); the constants [embedding_type='sparse'] and
    [offset_positions_by_padding=True] are left out. *)
Record sentence_encoder_cfg := SentenceEncoderCfg {
  se_padding_idx : Z;
  se_vocab_size : Z;
  se_num_encoder_layers : value;
  se_embedding_dim : value;
  se_dropout : value;
  se_max_seq_len : value;
  se_use_position_embeddings : value;
  se_encoder_normalize_before : value;
  se_learned_pos_embedding : value;
  se_sen_rep_type : value;
  se_freeze : value }.

(** An [SMLPLMHead]: its sizes, activation, and whether its output
    projection is the embedding matrix of the sentence encoder (tied) or a
    fresh [nn.Linear] weight. *)
Record lm_head_cfg := LMHeadCfg {
  lm_embed_dim : value;
  lm_output_dim : Z;
  lm_activation_fn : value;
  lm_tied : bool }.

(** A [RobertaEncoder]; [enc_args] is [self.args], the namespace object as
    left by the constructor (which mutates it). *)
Record encoder := Encoder {
  enc_args : Namespace;
  sentence_encoder : sentence_encoder_cfg;
  lm_head : lm_head_cfg }.

(** [RobertaEncoder.__init__(args, dictionary)] *)
Definition RobertaEncoder (args : Namespace) (d : dictionary) : result encoder :=
  rbind (getattr_strict args "encoder_layers_to_keep") (fun ltk =>
  rbind (if truthy ltk then
           match ltk with
           | VStr s => Ok (Dict.set args "encoder_layers" (VInt (split_len s)))
           | _ => Err (AttributeError "split")
           end
         else Ok args) (fun args =>
  rbind (getattr_strict args "encoder_layers") (fun layers =>
  rbind (getattr_strict args "encoder_embed_dim") (fun emb =>
  rbind (getattr_strict args "dropout") (fun drp =>
  rbind (getattr_strict args "max_positions") (fun maxpos =>
  rbind (getattr_strict args "use_position_embeddings") (fun upe =>
  let enb := getattr args "encoder_normalize_before" (VBool false) in
  rbind (getattr_strict args "encoder_learned_pos") (fun lpe =>
  let se := SentenceEncoderCfg (dict_pad d) (dict_len d) layers emb drp maxpos upe enb lpe
              (getattr args "sen_rep_type" (VStr "cls"))
              (getattr args "freeze" (VBool false)) in
  let args := Dict.set args "untie_weights_roberta"
                (getattr args "untie_weights_roberta" (VBool false)) in
  rbind (getattr_strict args "encoder_embed_dim") (fun emb' =>
  rbind (getattr_strict args "activation_fn") (fun act =>
  rbind (getattr_strict args "untie_weights_roberta") (fun untie =>
  Ok (Encoder args se (LMHeadCfg emb' (dict_len d) act (negb (truthy untie))))))))))))))).


(** [SMLP_MLM_Model.build_model(args, task)]: the model is [cls(args, encoder)]
    with no classification head; its [args] is [enc_args] of the encoder. *)
Definition build_model (args : Namespace) (d : dictionary) : result encoder :=
  let args := base_architecture args in
  rbind (if Dict.mem args "max_positions" then Ok args
         else rbind (getattr_strict args "tokens_per_sample")
                    (fun v => Ok (Dict.set args "max_positions" v)))
        (fun args => RobertaEncoder args d).

(** * Proofs *)

Module DictFacts.
Import Dict.
Section Facts.
Context {V : Type}.
Implicit Types d : Dict.t V.

Lemma get_map_replace (d : Dict.t V) k v k' :
  get (List.map (fun p => if String.eqb (fst p) k then (k, v) else p) d) k' =
  if String.eqb k k' then (if mem d k then Some v else None) else get d k'.
Proof.
  unfold mem. induction d as [|[a b] d IH]; simpl.
  - destruct (String.eqb k k'); reflexivity.
  - destruct (String.eqb_spec a k) as [->|Hak]; simpl.
    + destruct (String.eqb_spec k k'); [reflexivity|].
      rewrite IH. destruct (String.eqb_spec k k'); congruence.
    + destruct (String.eqb_spec a k') as [->|Hak'].
      * destruct (String.eqb_spec k k'); [congruence|reflexivity].
      * exact IH.
Qed.

Lemma get_app (d1 d2 : Dict.t V) k :
  get (d1 ++ d2)%list k = match get d1 k with Some v => Some v | None => get d2 k end.
Proof.
  induction d1 as [|[a b] d1 IH]; simpl; [reflexivity|].
  destruct (String.eqb a k); [reflexivity|exact IH].
Qed.

Lemma get_set (d : Dict.t V) k v k' :
  get (set d k v) k' = if String.eqb k k' then Some v else get d k'.
Proof.
  unfold set. destruct (mem d k) eqn:Hm.
  - rewrite get_map_replace, Hm. reflexivity.
  - rewrite get_app. destruct (String.eqb_spec k k') as [->|Hne].
    + unfold mem in Hm. destruct (get d k'); [discriminate|].
      simpl. rewrite String.eqb_refl. reflexivity.
    + destruct (get d k'); [reflexivity|]. simpl.
      destruct (String.eqb_spec k k'); [congruence|reflexivity].
Qed.

Lemma get_del (d : Dict.t V) k k' :
  get (del d k) k' = if String.eqb k k' then None else get d k'.
Proof.
  induction d as [|[a b] d IH]; simpl.
  - destruct (String.eqb k k'); reflexivity.
  - destruct (String.eqb_spec a k) as [->|Hak]; simpl.
    + rewrite IH. destruct (String.eqb_spec k k'); reflexivity.
    + destruct (String.eqb_spec a k') as [->|Hak'].
      * destruct (String.eqb_spec k k'); [congruence|reflexivity].
      * exact IH.
Qed.

Lemma mem_get (d : Dict.t V) k : mem d k = true <-> exists v, get d k = Some v.
Proof.
  unfold mem. destruct (get d k); split; intros H; try discriminate;
    [eauto | reflexivity | destruct H; discriminate].
Qed.

Lemma get_in_keys (d : Dict.t V) k v : get d k = Some v -> In k (keys d).
Proof.
  induction d as [|[a b] d IH]; simpl; [discriminate|].
  destruct (String.eqb_spec a k); intros H; [left; assumption|right; auto].
Qed.

Lemma in_keys_get (d : Dict.t V) k : In k (keys d) -> exists v, get d k = Some v.
Proof.
  induction d as [|[a b] d IH]; simpl; [contradiction|].
  destruct (String.eqb_spec a k); [eauto|].
  intros [H|H]; [congruence|auto].
Qed.
End Facts.
End DictFacts.
Import DictFacts.

(** ** Facts on the presets *)
Module PresetFacts.

Lemma value_eqb_eq (v w : value) : value_eqb v w = true -> v = w.
Proof.
  destruct v as [a|[an ad]|a|a|], w as [b|[bn bd]|b|b|]; simpl; try discriminate.
  - intros H. apply Z.eqb_eq in H. congruence.
  - intros H. apply andb_true_iff in H as [H1 H2].
    apply Z.eqb_eq in H1. apply Pos.eqb_eq in H2. simpl in *. congruence.
  - intros H. apply Bool.eqb_prop in H. congruence.
  - intros H. apply String.eqb_eq in H. congruence.
  - reflexivity.
Qed.

Lemma exec_cons (x : assign) body a : exec (x :: body) a = exec body (exec_assign a x).
Proof. reflexivity. Qed.

Lemma exec_app l1 l2 a : exec (l1 ++ l2) a = exec l2 (exec l1 a).
Proof. unfold exec. apply fold_left_app. Qed.

Lemma getattr_equiv a b n d : ns_equiv a b -> getattr a n d = getattr b n d.
Proof. intros H. unfold getattr. rewrite H. reflexivity. Qed.

Lemma exec_assign_equiv a b x : ns_equiv a b -> ns_equiv (exec_assign a x) (exec_assign b x).
Proof.
  intros H k. unfold exec_assign. rewrite !get_set, (getattr_equiv a b _ _ H), H.
  reflexivity.
Qed.

Lemma exec_equiv body : forall a b, ns_equiv a b -> ns_equiv (exec body a) (exec body b).
Proof.
  induction body as [|x body IH]; intros a b H; [exact H|].
  rewrite !exec_cons. apply IH, exec_assign_equiv, H.
Qed.

(** A present attribute that no line overwrites from another attribute keeps
    its value. *)
Lemma exec_keeps_present body k :
  (forall l, In l body -> dst l = k -> src l = k) ->
  forall a, Dict.mem a k = true -> Dict.get (exec body a) k = Dict.get a k.
Proof.
  induction body as [|x body IH]; intros Hb a Hm; [reflexivity|].
  rewrite exec_cons.
  assert (Hx : Dict.get (exec_assign a x) k = Dict.get a k).
  { unfold exec_assign. rewrite get_set.
    destruct (String.eqb_spec (dst x) k) as [Hd|Hd]; [|reflexivity].
    rewrite (Hb x (or_introl eq_refl) Hd). unfold getattr.
    apply mem_get in Hm as [v Hv]. rewrite Hv. reflexivity. }
  rewrite IH; [exact Hx| intros l Hl; apply Hb; right; exact Hl |].
  unfold Dict.mem in *. rewrite Hx. exact Hm.
Qed.

Definition FR (full : list assign) : Prop :=
  forall l l', In l full -> In l' full -> src l <> dst l ->
    dst l' <> src l /\
    (dst l' = dst l -> src l' = dst l' \/ (src l' = src l /\ dflt l' = dflt l)).

Lemma foreign_reads_ok_FR body : foreign_reads_ok body = true -> FR body.
Proof.
  unfold foreign_reads_ok. intros H l l' Hl Hl' Hne.
  rewrite forallb_forall in H. specialize (H l Hl).
  apply orb_true_iff in H as [H|H].
  { apply String.eqb_eq in H. contradiction. }
  rewrite forallb_forall in H. specialize (H l' Hl').
  apply andb_true_iff in H as [H1 H2]. apply negb_true_iff, String.eqb_neq in H1.
  split; [exact H1|]. intros Hdd.
  apply orb_true_iff in H2 as [H2|H2]; [apply orb_true_iff in H2 as [H2|H2]|].
  - apply negb_true_iff, String.eqb_neq in H2. contradiction.
  - left. apply String.eqb_eq in H2. exact H2.
  - right. apply andb_true_iff in H2 as [H2 H4]. apply andb_true_iff in H2 as [H2 _].
    apply String.eqb_eq in H2. apply value_eqb_eq in H4. auto.
Qed.

(** What a completed resolution guarantees for each line of the chain. *)
Definition Inv (s : Namespace) (ls : list assign) : Prop :=
  forall l, In l ls ->
    if String.eqb (src l) (dst l) then Dict.mem s (dst l) = true
    else Dict.get s (dst l) = Some (getattr s (src l) (dflt l)).

Lemma Inv_incl s l1 l2 : incl l2 l1 -> Inv s l1 -> Inv s l2.
Proof. intros Hi H l Hl. apply H, Hi, Hl. Qed.

Lemma Inv_step full s pre x :
  FR full -> In x full -> incl pre full -> Inv s pre -> Inv (exec_assign s x) (x :: pre).
Proof.
  intros Hfr Hx Hpre Hinv l [<-|Hl]; unfold exec_assign.
  - destruct (String.eqb_spec (src x) (dst x)) as [He|Hne].
    + unfold Dict.mem. rewrite get_set, String.eqb_refl. reflexivity.
    + destruct (Hfr x x Hx Hx Hne) as [Hd _].
      rewrite get_set, String.eqb_refl. unfold getattr at 2. rewrite get_set.
      destruct (String.eqb_spec (dst x) (src x)); [congruence|reflexivity].
  - specialize (Hinv l Hl). destruct (String.eqb_spec (src l) (dst l)) as [He|Hne].
    + unfold Dict.mem in *. rewrite get_set.
      destruct (String.eqb (dst x) (dst l)); [reflexivity|exact Hinv].
    + destruct (Hfr l x (Hpre l Hl) Hx Hne) as [Hd Hsame].
      assert (Hg : getattr (Dict.set s (dst x) (getattr s (src x) (dflt x))) (src l) (dflt l)
                   = getattr s (src l) (dflt l)).
      { unfold getattr. rewrite get_set.
        destruct (String.eqb_spec (dst x) (src l)); [congruence|reflexivity]. }
      rewrite Hg, get_set.
      destruct (String.eqb_spec (dst x) (dst l)) as [Heq|Hneq]; [|exact Hinv].
      destruct (Hsame Heq) as [Hs|[Hs Hdf]].
      * rewrite Hs, Heq. unfold getattr at 1. rewrite Hinv. reflexivity.
      * rewrite Hs, Hdf. reflexivity.
Qed.

Lemma Inv_exec full : FR full ->
  forall rest s pre, incl pre full -> incl rest full -> Inv s pre ->
    Inv (exec rest s) (pre ++ rest).
Proof.
  intros Hfr rest. induction rest as [|x rest IH]; intros s pre Hpre Hrest Hinv.
  - rewrite app_nil_r. exact Hinv.
  - rewrite exec_cons.
    apply Inv_incl with (l1 := ((x :: pre) ++ rest)%list).
    + intros l Hl. apply in_app_or in Hl as [Hl|[<-|Hl]];
        [right; apply in_or_app; left; exact Hl | left; reflexivity
        | right; apply in_or_app; right; exact Hl].
    + apply IH.
      * intros l [<-|Hl]; [apply Hrest; left; reflexivity | apply Hpre, Hl].
      * intros l Hl. apply Hrest. right. exact Hl.
      * apply (Inv_step full); [exact Hfr | apply Hrest; left; reflexivity | exact Hpre | exact Hinv].
Qed.

Lemma Inv_equiv s t ls : ns_equiv s t -> Inv s ls -> Inv t ls.
Proof.
  intros He H l Hl. specialize (H l Hl). unfold Dict.mem in *.
  rewrite <- !He, <- (getattr_equiv s t _ _ He).
  exact H.
Qed.

Lemma exec_fixed body : forall s, Inv s body -> ns_equiv (exec body s) s.
Proof.
  induction body as [|x body IH]; intros s Hinv; [intros k; reflexivity|].
  rewrite exec_cons.
  assert (Hx : ns_equiv (exec_assign s x) s).
  { intros k. unfold exec_assign. rewrite get_set.
    destruct (String.eqb_spec (dst x) k) as [<-|]; [|reflexivity].
    specialize (Hinv x (or_introl eq_refl)).
    destruct (String.eqb_spec (src x) (dst x)) as [He|Hne].
    - unfold getattr. rewrite He. apply mem_get in Hinv as [v Hv]. rewrite Hv. reflexivity.
    - symmetry. exact Hinv. }
  intros k. rewrite (exec_equiv body _ _ Hx k).
  apply IH. intros l Hl. apply Hinv. right. exact Hl.
Qed.

Lemma exec_idempotent body : FR body ->
  forall a, ns_equiv (exec body (exec body a)) (exec body a).
Proof.
  intros Hfr a. apply exec_fixed.
  apply (Inv_exec body Hfr body a []).
  - intros l Hl. inversion Hl.
  - intros l Hl. exact Hl.
  - intros l Hl. inversion Hl.
Qed.

End PresetFacts.

Module Resolver.
Import PresetFacts.

(** Each registered preset runs one chain of lines, whose only line reading
    another attribute than it writes is the [spectral_nrom] line. *)
Lemma registry_chains n f : In (n, f) arch_registry ->
  exists body, (forall a, f a = exec body a) /\
    foreign_reads_ok body = true /\ self_or_spectral body = true.
Proof.
  simpl. intros H.
  repeat destruct H as [H|H]; try contradiction; injection H as <- <-;
    (eexists; split;
    [ intros a;
      cbv beta delta [base_architecture smlp_mlm_complex_architecture
        smlp_mlm_complex_architecture_mp smlp_mlm_complex_architecture_test1
        smlp_mlm_complex_architecture_sst2 smlp_mlm_complex_architecture_qqp_gate
        smlp_mlm_complex_architecture_sst2_gate smlp_mlm_complex_architecture_cola
        smlp_mlm_complex_architecture_cola_gate smlp_mlm_complex_architecture_mrpc
        smlp_mlm_complex_architecture_mrpc_gate
        smlp_mlm_complex_architecture_test1_base
        smlp_mlm_complex_architecture_test1_base' smlp_mlm_complex_gate
        smlp_mlm_complex_architecture_qnli smlp_mlm_complex_architecture_qnli_gate
        smlp_mlm_complex_architecture_imdb smlp_mlm_complex_architecture_imdb_gate];
      rewrite <- ?exec_app; reflexivity
    | split; vm_compute; reflexivity ]).
Qed.

(** Re-running a registered preset on its own result changes no attribute. *)
Lemma preset_idempotent_on_result n f a : In (n, f) arch_registry ->
  ns_equiv (f (f a)) (f a).
Proof.
  intros H. destruct (registry_chains n f H) as (body & Hf & Hok & _).
  intros k. rewrite !Hf. apply exec_idempotent, foreign_reads_ok_FR, Hok.
Qed.

(** A registered preset keeps every caller-supplied attribute but
    [spectral_norm_classification_head]. *)
Lemma preset_keeps_caller_value n f a k : In (n, f) arch_registry ->
  k <> "spectral_norm_classification_head" -> Dict.mem a k = true ->
  Dict.get (f a) k = Dict.get a k.
Proof.
  intros H Hk Hm. destruct (registry_chains n f H) as (body & Hf & _ & Hs).
  rewrite Hf. apply exec_keeps_present; [|exact Hm].
  intros l Hl Hd. unfold self_or_spectral in Hs. rewrite forallb_forall in Hs.
  specialize (Hs l Hl). apply orb_true_iff in Hs as [Hs|Hs].
  - apply String.eqb_eq in Hs. congruence.
  - apply String.eqb_eq in Hs. congruence.
Qed.

(** C1 (code_bug): resolving the root preset ["smlp_mlm"], or the task
    preset ["smlp_mlm_complex_sst2"], on a namespace where the caller set
    [spectral_norm_classification_head] to [True] yields [False]: the line
    reads the misspelled attribute ["spectral_nrom_classification_head"]. *)
Theorem C1_resolve_overwrites_spectral_norm :
  option_map (fun r => Dict.get r "spectral_norm_classification_head")
    (resolve "smlp_mlm" caller_args_spectral) = Some (Some (VBool false)) /\
  option_map (fun r => Dict.get r "spectral_norm_classification_head")
    (resolve "smlp_mlm_complex_sst2" caller_args_spectral) = Some (Some (VBool false)).
Proof. split; vm_compute; reflexivity. Qed.

(** C4 (code_bug): on a namespace where every attribute of the root preset
    is set and [spectral_norm_classification_head] is [True], resolving
    ["smlp_mlm"] changes that attribute to [False]. *)
Theorem C4_resolve_changes_full_record :
  forallb (fun l => Dict.mem full_args_spectral (dst l)) base_architecture_body = true /\
  Dict.get full_args_spectral "spectral_norm_classification_head" = Some (VBool true) /\
  option_map (fun r => Dict.get r "spectral_norm_classification_head")
    (resolve "smlp_mlm" full_args_spectral) = Some (Some (VBool false)).
Proof. split; [|split]; vm_compute; reflexivity. Qed.

End Resolver.

Module Monad.

Lemma bind_ok {A B} (m : M A) (k : A -> M B) s b s' :
  bind m k s = Ok (b, s') -> exists a s1, m s = Ok (a, s1) /\ k a s1 = Ok (b, s').
Proof.
  unfold bind. destruct (m s) as [[a s1]|e]; [eauto|discriminate].
Qed.

Lemma bind_step {A B} (m : M A) (k : A -> M B) s a s1 :
  m s = Ok (a, s1) -> bind m k s = k a s1.
Proof. unfold bind. intros ->. reflexivity. Qed.

Lemma bind_err {A B} (m : M A) (k : A -> M B) s e :
  m s = Err e -> bind m k s = Err e.
Proof. unfold bind. intros ->. reflexivity. Qed.

End Monad.

Module HeadCtor.

Lemma ctor_ok a u e i n srt :
  sen_rep_type a = Some srt -> head_ctor_ok a e i n = true ->
  SMLPClassificationHead a u e i n =
    Ok (Head u e i i n (spectral_norm_classification_head a) srt).
Proof.
  intros Hs Hc. unfold head_ctor_ok in Hc. unfold SMLPClassificationHead. rewrite Hs.
  destruct (linear_ok e i), (activation_fn_known _), (dropout_ok _), (linear_ok i n);
    cbn [andb negb] in Hc |- *; try discriminate.
  destruct (apply_quant_noise_ _ _ _); [|discriminate].
  destruct (spectral_norm_classification_head a), (Qeq_bool _ 0), (Z.eqb n 0);
    cbn in Hc |- *; first [discriminate | reflexivity].
Qed.

Lemma ctor_inv a u e i n h :
  SMLPClassificationHead a u e i n = Ok h ->
  exists srt, sen_rep_type a = Some srt /\ head_ctor_ok a e i n = true /\
    h = Head u e i i n (spectral_norm_classification_head a) srt.
Proof.
  unfold SMLPClassificationHead, head_ctor_ok.
  destruct (sen_rep_type a) as [srt|]; [|discriminate].
  destruct (linear_ok e i), (activation_fn_known _), (dropout_ok _), (linear_ok i n);
    cbn [negb andb]; try discriminate.
  destruct (apply_quant_noise_ _ _ _); [|discriminate].
  destruct (_ && negb _); [discriminate|]. destruct (_ && Z.eqb n 0); [discriminate|].
  intros E. injection E as <-. exists srt. auto.
Qed.

Lemma ctor_uid a u e i n h : SMLPClassificationHead a u e i n = Ok h -> head_uid h = u.
Proof. intros H. destruct (ctor_inv _ _ _ _ _ _ H) as (srt & _ & _ & ->). reflexivity. Qed.

Lemma add_module_fresh (hs : Dict.t head) n :
  Dict.mem hs n = false -> add_module_ok hs n = module_name_ok n.
Proof.
  intros H. unfold add_module_ok, module_name_ok. rewrite H.
  destruct (is_module_dict_attr n), (has_dot n), (String.eqb n ""); reflexivity.
Qed.

Lemma add_module_of_ok (hs : Dict.t head) n :
  module_name_ok n = true -> add_module_ok hs n = true.
Proof.
  unfold add_module_ok, module_name_ok.
  destruct (is_module_dict_attr n), (has_dot n), (String.eqb n ""); cbn; congruence.
Qed.

Lemma add_module_wf m n :
  heads_wf m -> add_module_ok (classification_heads m) n = true -> module_name_ok n = true.
Proof.
  intros Hw H. destruct (Dict.get (classification_heads m) n) as [h|] eqn:E.
  - exact (proj1 (Hw n h E)).
  - rewrite <- H. symmetry. apply add_module_fresh. unfold Dict.mem. rewrite E. reflexivity.
Qed.

End HeadCtor.

Module Heads.
Import Monad HeadCtor.

(** Registration keeps [heads_wf]. *)
Lemma register_wf name nc idim s s' :
  heads_wf (model_of s) ->
  register_classification_head name nc idim s = Ok (tt, s') -> heads_wf (model_of s').
Proof.
  intros Hwf H. unfold register_classification_head in H.
  apply bind_ok in H as (m & s1 & Hm & H). cbn in Hm. injection Hm as <- <-.
  apply bind_ok in H as ([] & s2 & _ & H).
  apply bind_ok in H as (h & s3 & Hh & H).
  unfold lift in Hh. destruct (SMLPClassificationHead _ _ _ _ _) as [h'|e] eqn:Hc;
    [injection Hh as <- <-|discriminate].
  destruct (add_module_ok _ name) eqn:Hn; [|discriminate].
  apply (add_module_wf _ _ Hwf) in Hn.
  cbn in H. injection H as <-. cbn.
  pose proof (HeadCtor.ctor_uid _ _ _ _ _ _ Hc) as Hu.
  intros n h2. cbn [classification_heads next_uid]. rewrite get_set.
  destruct (String.eqb_spec name n) as [<-|Hne].
  - intros E. injection E as <-. split; [exact Hn|lia].
  - intros E. destruct (Hwf n h2 E). split; [assumption|lia].
Qed.

(** C2 (corrected): registering a name that is already present always
    replaces its head by a freshly constructed one (a new object, hence new
    parameters) with the requested shapes; a warning is logged exactly when
    [num_classes] or [inner_dim] differs from the existing head's; the call
    fails only when the head constructor fails, whatever the comparison
    gave. *)
Theorem C2_reregister_replaces_head (m : model) sd lg name nc idim h0 :
  heads_wf m -> Dict.get (classification_heads m) name = Some h0 ->
  let emb := encoder_embed_dim (args m) in
  (forall e, SMLPClassificationHead (args m) (next_uid m) emb (or_default idim emb) nc = Err e ->
     register_classification_head name nc idim (St m sd lg) = Err e) /\
  (forall h, SMLPClassificationHead (args m) (next_uid m) emb (or_default idim emb) nc = Ok h ->
     register_classification_head name nc idim (St m sd lg) =
       Ok (tt, St (Model (args m) (Dict.set (classification_heads m) name h) (S (next_uid m))) sd
                  (if Z.eqb nc (out_proj_out h0) && opt_Z_eqb idim (dense_out h0)
                   then lg else (lg ++ [WarnReRegister name])%list)) /\
     head_uid h <> head_uid h0 /\ out_proj_out h = nc /\ dense_out h = or_default idim emb).
Proof.
  intros Hwf H0. cbv zeta. destruct (Hwf name h0 H0) as [Hn Hu].
  unfold register_classification_head, bind, get_model, lift, emit, ret, put_model, raise.
  cbn [model_of]. rewrite H0. split.
  - intros e He. rewrite He.
    destruct (Z.eqb nc (out_proj_out h0)), (opt_Z_eqb idim (dense_out h0)); reflexivity.
  - intros h Hh. rewrite Hh. cbn [model_of]. rewrite (add_module_of_ok _ _ Hn). split.
    + destruct (Z.eqb nc (out_proj_out h0)), (opt_Z_eqb idim (dense_out h0)); reflexivity.
    + destruct (ctor_inv _ _ _ _ _ _ Hh) as (srt & _ & _ & ->). cbn.
      split; [lia|]. split; reflexivity.
Qed.

Lemma C2_reregister_replaces_head_witness :
  heads_wf qqp_model /\
  Dict.get (classification_heads qqp_model) "qqp" = Some qqp_head /\
  register_classification_head "qqp" 2 (Some 512) (St qqp_model [] []) =
    Ok (tt, St (Model qqp_args [("qqp", Head 1 512 512 512 2 false "mp")] 2) [] []).
Proof.
  assert (Hwf : heads_wf qqp_model).
  { intros n h E. cbn [Dict.get classification_heads qqp_model] in E.
    destruct (String.eqb_spec "qqp" n) as [<-|]; [|discriminate].
    injection E as <-. split; [reflexivity|cbn; lia]. }
  split; [exact Hwf|]. split; [reflexivity|].
  destruct (C2_reregister_replaces_head qqp_model [] [] "qqp" 2 (Some 512) qqp_head Hwf
              eq_refl) as [_ H].
  destruct (H (Head 1 512 512 512 2 false "mp") eq_refl) as [-> _].
  reflexivity.
Defined.

(** C2: re-registering ["qqp"] with the same [(num_classes, inner_dim)] is
    not a no-op: the head object is replaced. *)
Lemma C2_same_values_not_noop :
  exists s', register_classification_head "qqp" 2 (Some 512) (St qqp_model [] []) = Ok (tt, s')
    /\ out_proj_out qqp_head = 2 /\ dense_out qqp_head = 512
    /\ classification_heads (model_of s') <> classification_heads qqp_model.
Proof.
  eexists. split; [vm_compute; reflexivity|].
  split; [reflexivity|]. split; [reflexivity|]. vm_compute. discriminate.
Qed.

End Heads.

Module Forward.

(** C10: with a [classification_head_name], [forward] ignores
    [features_only]: its first component is the named head applied to the
    features of [extract_features], never to the output of the LM head. *)
Theorem C10_forward_with_head_is_features_only (m : model) src_tokens features_only
    return_all_hiddens name kw h :
  Dict.get (classification_heads m) name = Some h ->
  forward m src_tokens features_only return_all_hiddens (Some name) kw =
    forward m src_tokens true return_all_hiddens (Some name) kw /\
  forward m src_tokens features_only return_all_hiddens (Some name) kw =
    (let (x, extra) := extract_features src_tokens (src_lengths_of kw) return_all_hiddens in
     match head_forward h x kw with Ok y => Ok (y, extra) | Err e => Err e end) /\
  (forall y extra,
     forward m src_tokens features_only return_all_hiddens (Some name) kw = Ok (y, extra) ->
     let f := Features src_tokens (src_lengths_of kw) (negb return_all_hiddens) in
     exists p, y = HeadOutput (head_uid h) p /\
       (p = PoolCls f \/ p = PoolMean f \/ exists l, p = PoolMeanLen f l)).
Proof.
  intros Hh. unfold forward. cbn [negb]. rewrite Hh.
  split; [reflexivity|]. split; [reflexivity|].
  intros y extra. unfold head_forward.
  destruct (String.eqb (head_sen_rep_type h) "mp").
  - destruct (kw_src_lengths kw) as [[l|]|]; intros E; try discriminate E;
      injection E as <- _; eexists; (split; [reflexivity|]); eauto.
  - destruct (String.eqb (head_sen_rep_type h) "cls"); [|discriminate].
    intros E. injection E as <- _. eexists; split; [reflexivity|]. left; reflexivity.
Qed.

Lemma C10_forward_with_head_is_features_only_witness :
  Dict.get (classification_heads qqp_model) "qqp" = Some qqp_head /\
  forward qqp_model (Tokens 0) false false (Some "qqp") qqp_kwargs =
    Ok (HeadOutput 0 (PoolMeanLen (Features (Tokens 0) (Some (Tokens 1)) true) (Tokens 1)), None).
Proof.
  split; [reflexivity|].
  destruct (C10_forward_with_head_is_features_only qqp_model (Tokens 0) false false "qqp"
              qqp_kwargs qqp_head eq_refl) as [_ [-> _]].
  reflexivity.
Defined.

End Forward.

Module Strs.

Lemma prefix_app p r : String.prefix p (p ++ r) = true.
Proof.
  induction p as [|a p IH]; [destruct r; reflexivity|]. simpl.
  destruct (ascii_dec a a); [exact IH|contradiction].
Qed.

Lemma length_app p r : String.length (p ++ r) = (String.length p + String.length r)%nat.
Proof. induction p as [|a p IH]; simpl; auto. Qed.

Lemma substring_full r : String.substring 0 (String.length r) r = r.
Proof. induction r as [|a r IH]; simpl; [reflexivity|]. rewrite IH. reflexivity. Qed.

Lemma drop_app p r : drop (String.length p) (p ++ r) = r.
Proof.
  unfold drop. rewrite length_app.
  replace (String.length p + String.length r - String.length p)%nat with (String.length r) by lia.
  induction p as [|a p IH]; simpl; [apply substring_full|exact IH].
Qed.

Lemma prefix_split p k : String.prefix p k = true -> k = p ++ drop (String.length p) k.
Proof.
  revert k. induction p as [|a p IH]; intros k H.
  - unfold drop. simpl. rewrite Nat.sub_0_r. symmetry. apply substring_full.
  - destruct k as [|b k]; simpl in H; [discriminate|].
    destruct (ascii_dec a b) as [<-|]; [|discriminate].
    unfold drop in *. simpl. f_equal. apply IH, H.
Qed.

Lemma mem_list_In k l : mem_list k l = true <-> In k l.
Proof.
  unfold mem_list. rewrite existsb_exists. split.
  - intros (x & Hx & E). apply String.eqb_eq in E. subst. exact Hx.
  - intros H. exists k. split; [exact H|apply String.eqb_refl].
Qed.

Lemma mem_list_app k l1 l2 : mem_list k (l1 ++ l2) = mem_list k l1 || mem_list k l2.
Proof. unfold mem_list. apply existsb_app. Qed.

Lemma mem_list_single k x : mem_list k [x] = String.eqb k x.
Proof. unfold mem_list. simpl. apply orb_false_r. Qed.

Lemma dec_enc r : String.prefix "decoder" ("encoder" ++ r) = false.
Proof. reflexivity. Qed.

Lemma dec_ns r : String.prefix "decoder" (heads_ns ++ r) = false.
Proof. reflexivity. Qed.

Lemma enc_ns r : String.prefix "encoder" (heads_ns ++ r) = false.
Proof. reflexivity. Qed.

Lemma enc_dec r : String.prefix "encoder" ("decoder" ++ r) = false.
Proof. reflexivity. Qed.

Lemma ns_dec r : String.prefix heads_ns ("decoder" ++ r) = false.
Proof. reflexivity. Qed.

Lemma ns_enc r : String.prefix heads_ns ("encoder" ++ r) = false.
Proof. reflexivity. Qed.

(** Keys are classified by their prefix. *)
Lemma dec_not_enc k : String.prefix "decoder" k = true -> String.prefix "encoder" k = false.
Proof. intros H. rewrite (prefix_split _ _ H). apply enc_dec. Qed.

Lemma dec_not_ns k : String.prefix "decoder" k = true -> String.prefix heads_ns k = false.
Proof. intros H. rewrite (prefix_split _ _ H). apply ns_dec. Qed.

Lemma enc_not_dec k : String.prefix "encoder" k = true -> String.prefix "decoder" k = false.
Proof. intros H. rewrite (prefix_split _ _ H). apply dec_enc. Qed.

Lemma enc_not_ns k : String.prefix "encoder" k = true -> String.prefix heads_ns k = false.
Proof. intros H. rewrite (prefix_split _ _ H). apply ns_enc. Qed.

Lemma ns_not_dec k : String.prefix heads_ns k = true -> String.prefix "decoder" k = false.
Proof. intros H. rewrite (prefix_split _ _ H). apply dec_ns. Qed.

Lemma ns_not_enc k : String.prefix heads_ns k = true -> String.prefix "encoder" k = false.
Proof. intros H. rewrite (prefix_split _ _ H). apply enc_ns. Qed.


Lemma first_segment_no_dot s : has_dot (first_segment s) = false.
Proof.
  induction s as [|c s IH]; [reflexivity|]. simpl.
  destruct (Ascii.eqb c "."%char) eqn:E; [reflexivity|]. simpl. rewrite E, IH. reflexivity.
Qed.

End Strs.

Module Rename.
Import Monad Strs.

Lemma drop7_enc r : drop 7 ("encoder" ++ r) = r.
Proof. exact (drop_app "encoder" r). Qed.

Lemma drop7_dec r : drop 7 ("decoder" ++ r) = r.
Proof. exact (drop_app "decoder" r). Qed.

Lemma dec_drop7 k : String.prefix "decoder" k = true -> "decoder" ++ drop 7 k = k.
Proof. intros H. symmetry. exact (prefix_split "decoder" k H). Qed.

Lemma enc_drop7 k : String.prefix "encoder" k = true -> "encoder" ++ drop 7 k = k.
Proof. intros H. symmetry. exact (prefix_split "encoder" k H). Qed.

Lemma renamed_upto_skip sd0 done k k' :
  String.prefix "decoder" k = false ->
  renamed_upto sd0 (done ++ [k]) k' = renamed_upto sd0 done k'.
Proof.
  intros Hk. unfold renamed_upto. rewrite !mem_list_app, !mem_list_single.
  destruct (String.prefix "decoder" k') eqn:E1.
  - destruct (String.eqb_spec k' k) as [->|]; [congruence|]. rewrite orb_false_r. reflexivity.
  - destruct (String.prefix "encoder" k'); [|reflexivity].
    destruct (String.eqb_spec ("decoder" ++ drop 7 k') k) as [E|].
    + rewrite <- E, prefix_app in Hk. discriminate.
    + rewrite orb_false_r. reflexivity.
Qed.

Lemma renamed_upto_move sd0 done k v k' :
  String.prefix "decoder" k = true -> Dict.get sd0 k = Some v ->
  (if String.eqb k k' then None
   else if String.eqb ("encoder" ++ drop 7 k) k' then Some v
   else renamed_upto sd0 done k') = renamed_upto sd0 (done ++ [k]) k'.
Proof.
  intros Hk Hv. destruct (String.eqb_spec k k') as [<-|Hne].
  - unfold renamed_upto. rewrite Hk, mem_list_app, mem_list_single, String.eqb_refl, orb_true_r.
    reflexivity.
  - destruct (String.eqb_spec ("encoder" ++ drop 7 k) k') as [<-|Hne2].
    + unfold renamed_upto. rewrite dec_enc, prefix_app, drop7_enc, (dec_drop7 k Hk).
      rewrite mem_list_app, mem_list_single, String.eqb_refl, orb_true_r. symmetry. exact Hv.
    + unfold renamed_upto. rewrite !mem_list_app, !mem_list_single.
      destruct (String.prefix "decoder" k') eqn:E1.
      * destruct (String.eqb_spec k' k); [congruence|]. rewrite orb_false_r. reflexivity.
      * destruct (String.prefix "encoder" k') eqn:E2; [|reflexivity].
        destruct (String.eqb_spec ("decoder" ++ drop 7 k') k) as [E|].
        -- exfalso. apply Hne2. rewrite <- E, drop7_dec. exact (enc_drop7 k' E2).
        -- rewrite orb_false_r. reflexivity.
Qed.

Lemma rename_decoder_spec sd0 : forall ks done s,
  NoDup (done ++ ks) ->
  (forall k, In k ks -> exists v, Dict.get sd0 k = Some v) ->
  (forall k, Dict.get (state_dict s) k = renamed_upto sd0 done k) ->
  exists s', rename_decoder "" ks s = Ok (tt, s') /\ model_of s' = model_of s /\
    log s' = log s /\ forall k, Dict.get (state_dict s') k = renamed_upto sd0 (done ++ ks) k.
Proof.
  induction ks as [|k ks IH]; intros done s Hnd Hin Hs.
  - exists s. rewrite app_nil_r. auto.
  - assert (Hnd' : NoDup ((done ++ [k]) ++ ks)) by (rewrite <- app_assoc; exact Hnd).
    assert (Hkd : mem_list k done = false).
    { destruct (mem_list k done) eqn:E; [|reflexivity]. apply mem_list_In in E.
      apply NoDup_remove_2 in Hnd. exfalso. apply Hnd. apply in_or_app. left. exact E. }
    assert (Hin' : forall k', In k' ks -> exists v, Dict.get sd0 k' = Some v)
      by (intros k' H; apply Hin; right; exact H).
    cbn [rename_decoder]. change ("" ++ "decoder") with "decoder".
    change (String.length "decoder") with 7%nat. change ("" ++ "encoder" ++ drop 7 k) with ("encoder" ++ drop 7 k).
    destruct (String.prefix "decoder" k) eqn:Hk.
    + destruct (Hin k (or_introl eq_refl)) as [v Hv].
      assert (Hg : Dict.get (state_dict s) k = Some v).
      { rewrite Hs. unfold renamed_upto. rewrite Hk, Hkd. exact Hv. }
      set (s2 := St (model_of s)
                    (Dict.del (Dict.set (state_dict s) ("encoder" ++ drop 7 k) v) k) (log s)).
      assert (Hstep : (v' <- sd_getitem k ;; sd_setitem ("encoder" ++ drop 7 k) v' ;; sd_delitem k) s
                      = Ok (tt, s2)).
      { unfold bind, sd_getitem, sd_setitem, sd_delitem. rewrite Hg. cbn [state_dict model_of log].
        unfold Dict.mem. rewrite get_set.
        destruct (String.eqb_spec ("encoder" ++ drop 7 k) k) as [E|].
        - rewrite <- E, dec_enc in Hk. discriminate.
        - rewrite Hg. reflexivity. }
      rewrite (bind_step _ _ _ _ _ Hstep).
      destruct (IH (done ++ [k])%list s2 Hnd' Hin') as (s' & H1 & H2 & H3 & H4).
      * intros k'. cbn [state_dict s2]. rewrite get_del, get_set, Hs.
        apply renamed_upto_move; assumption.
      * exists s'. rewrite <- app_assoc in H4. auto.
    + unfold bind at 1, ret at 1.
      destruct (IH (done ++ [k])%list s Hnd' Hin') as (s' & H1 & H2 & H3 & H4).
      * intros k'. rewrite Hs, renamed_upto_skip by exact Hk. reflexivity.
      * exists s'. rewrite <- app_assoc in H4. auto.
Qed.

End Rename.

Module Reconcile.
Import Monad Strs HeadCtor.

Lemma ctor_shapes a u e i n h :
  SMLPClassificationHead a u e i n = Ok h ->
  head_uid h = u /\ dense_in h = e /\ dense_out h = i /\ out_proj_in h = i /\
  out_proj_out h = n /\ spectral h = spectral_norm_classification_head a.
Proof.
  intros H. destruct (ctor_inv _ _ _ _ _ _ H) as (srt & _ & _ & ->). cbn. auto 7.
Qed.

Lemma register_ok name nc idim s u s1 :
  register_classification_head name nc idim s = Ok (u, s1) ->
  let m := model_of s in
  let emb := encoder_embed_dim (args m) in
  exists h, SMLPClassificationHead (args m) (next_uid m) emb (or_default idim emb) nc = Ok h /\
    add_module_ok (classification_heads m) name = true /\
    model_of s1 = Model (args m) (Dict.set (classification_heads m) name h) (S (next_uid m)) /\
    state_dict s1 = state_dict s /\ exists extra, log s1 = (log s ++ extra)%list.
Proof.
  intros H m emb. unfold register_classification_head in H.
  apply bind_ok in H as (m' & s2 & Hm & H). cbn in Hm. injection Hm as <- <-.
  apply bind_ok in H as ([] & s3 & Hw & H).
  assert (Hs3 : model_of s3 = model_of s /\ state_dict s3 = state_dict s /\
                exists extra, log s3 = (log s ++ extra)%list).
  { destruct (Dict.get _ name) as [prev|].
    - destruct (_ || _); cbn in Hw; injection Hw as <-; cbn; split; auto; split; auto.
      + eexists; reflexivity.
      + exists []. rewrite app_nil_r. reflexivity.
    - cbn in Hw. injection Hw as <-. split; auto. split; auto. exists []. rewrite app_nil_r. reflexivity. }
  destruct Hs3 as (Hm3 & Hsd3 & extra & Hl3).
  apply bind_ok in H as (h & s4 & Hh & H).
  unfold lift in Hh. destruct (SMLPClassificationHead _ _ _ _ _) as [h'|e] eqn:Hc;
    [injection Hh as -> <-|discriminate].
  exists h. split; [first [exact Hc | reflexivity]|].
  destruct (add_module_ok _ name) eqn:Hn; [|discriminate].
  cbn in H. injection H as _ <-. cbn. split; [reflexivity|]. split; [reflexivity|].
  split; [exact Hsd3|]. exists extra. exact Hl3.
Qed.

Lemma register_succeeds name nc idim s :
  sen_rep_type (args (model_of s)) <> None ->
  head_ctor_ok (args (model_of s)) (encoder_embed_dim (args (model_of s)))
    (or_default idim (encoder_embed_dim (args (model_of s)))) nc = true ->
  add_module_ok (classification_heads (model_of s)) name = true ->
  exists s1, register_classification_head name nc idim s = Ok (tt, s1).
Proof.
  intros Hs Hq Hn. destruct (sen_rep_type (args (model_of s))) as [srt|] eqn:Es;
    [|contradiction].
  unfold register_classification_head, bind, get_model, lift, emit, ret,
    put_model, raise.
  cbn [model_of state_dict log].
  rewrite (ctor_ok _ (next_uid (model_of s)) _ _ _ _ Es Hq), Hn.
  destruct (Dict.get _ name) as [prev|]; [destruct (_ || _)|]; eexists; reflexivity.
Qed.

Lemma dims_step {B} hn (K : Z -> Z -> M B) s :
  (w <- sd_getitem (heads_ns ++ hn ++ ".out_proj.weight") ;;
   num_classes <- lift (size0 w) ;;
   w' <- sd_getitem (heads_ns ++ hn ++ ".dense.weight") ;;
   inner_dim <- lift (size0 w') ;;
   K num_classes inner_dim) s =
  match persisted_dims (state_dict s) hn with
  | Ok (nc, i) => K nc i s
  | Err e => Err e
  end.
Proof.
  unfold bind at 1, sd_getitem at 1, persisted_dims.
  destruct (Dict.get _ (heads_ns ++ hn ++ ".out_proj.weight")) as [w|]; [|reflexivity].
  unfold bind at 1, lift at 1. destruct (size0 w) as [nc|e]; [|reflexivity].
  unfold bind at 1, sd_getitem at 1.
  destruct (Dict.get _ (heads_ns ++ hn ++ ".dense.weight")) as [w'|]; [|reflexivity].
  unfold bind at 1, lift at 1. destruct (size0 w') as [i|e]; reflexivity.
Qed.

Lemma reconcile_unfold k ks acc :
  reconcile_heads "" (k :: ks) acc =
  if negb (String.prefix heads_ns k) then reconcile_heads "" ks acc else
  (w <- sd_getitem (heads_ns ++ head_name_of k ++ ".out_proj.weight") ;;
   num_classes <- lift (size0 w) ;;
   w' <- sd_getitem (heads_ns ++ head_name_of k ++ ".dense.weight") ;;
   inner_dim <- lift (size0 w') ;;
   m <- get_model ;;
   if load_checkpoint_heads (args m) then
     (if negb (Dict.mem (classification_heads m) (head_name_of k))
      then register_classification_head (head_name_of k) num_classes (Some inner_dim)
      else ret tt) ;;
     reconcile_heads "" ks acc
   else
     match Dict.get (classification_heads m) (head_name_of k) with
     | None =>
         emit (WarnDeleteUnknown (head_name_of k) k) ;;
         reconcile_heads "" ks (acc ++ [k])%list
     | Some h =>
         if negb (Z.eqb num_classes (out_proj_out h)) || negb (Z.eqb inner_dim (dense_out h))
         then emit (WarnDeleteShape (head_name_of k) k) ;; reconcile_heads "" ks (acc ++ [k])%list
         else reconcile_heads "" ks acc
     end).
Proof. reflexivity. Qed.

Lemma reconcile_disabled ks : forall acc s r s',
  load_checkpoint_heads (args (model_of s)) = false ->
  reconcile_heads "" ks acc s = Ok (r, s') ->
  model_of s' = model_of s /\ state_dict s' = state_dict s /\
  r = (acc ++ List.filter (drop_decision (classification_heads (model_of s)) (state_dict s)) ks)%list /\
  (forall d, In d (log s) -> In d (log s')) /\
  (forall k, In k ks ->
     drop_decision (classification_heads (model_of s)) (state_dict s) k = true ->
     Dict.get (classification_heads (model_of s)) (head_name_of k) = None ->
     In (WarnDeleteUnknown (head_name_of k) k) (log s')) /\
  (forall k, In k ks -> String.prefix heads_ns k = true ->
     exists d, persisted_dims (state_dict s) (head_name_of k) = Ok d).
Proof.
  induction ks as [|k ks IH]; intros acc s r s' Hl H.
  - cbn in H. injection H as <- <-. rewrite app_nil_r.
    split; [reflexivity|]. split; [reflexivity|]. split; [reflexivity|].
    split; [auto|]. split; intros k [].
  - rewrite reconcile_unfold in H.
    destruct (String.prefix heads_ns k) eqn:Hp; cbn [negb] in H.
    2: { destruct (IH acc s r s' Hl H) as (Hm & Hsd & Hr & Hlog & Hw & Hdims).
         assert (Hk : drop_decision (classification_heads (model_of s)) (state_dict s) k = false)
           by (unfold drop_decision; rewrite Hp; reflexivity).
         cbn [List.filter]. rewrite Hk. split; [exact Hm|]. split; [exact Hsd|].
         split; [exact Hr|]. split; [exact Hlog|]. split.
         - intros k' [<-|Hin]; [congruence|]. exact (Hw k' Hin).
         - intros k' [<-|Hin]; [congruence|]. exact (Hdims k' Hin). }
    rewrite dims_step in H.
    destruct (persisted_dims (state_dict s) (head_name_of k)) as [[nc i]|e] eqn:Hd;
      [|discriminate].
    unfold bind at 1, get_model at 1 in H. cbv beta iota in H. rewrite Hl in H.
    assert (Hdk : forall k', k' = k -> exists d, persisted_dims (state_dict s) (head_name_of k') = Ok d)
      by (intros k' ->; eauto).
    destruct (Dict.get (classification_heads (model_of s)) (head_name_of k)) as [h|] eqn:Hg.
    + destruct (negb (nc =? out_proj_out h)%Z || negb (i =? dense_out h)%Z) eqn:Hc.
      * unfold bind at 1, emit at 1 in H. cbv beta iota in H.
        apply IH in H; [|exact Hl]. destruct H as (Hm & Hsd & Hr & Hlog & Hw & Hdims).
        cbn [model_of state_dict log] in *.
        assert (Hk : drop_decision (classification_heads (model_of s)) (state_dict s) k = true)
          by (unfold drop_decision; rewrite Hp, Hd, Hg, Hc; reflexivity).
        cbn [List.filter]. rewrite Hk. split; [exact Hm|]. split; [exact Hsd|].
        split; [rewrite Hr, <- app_assoc; reflexivity|].
        split; [intros d Hin; apply Hlog, in_or_app; left; exact Hin|]. split.
        -- intros k' [<-|Hin]; [congruence|]. exact (Hw k' Hin).
        -- intros k' [<-|Hin] Hp'; [exact (Hdk _ eq_refl)|exact (Hdims k' Hin Hp')].
      * apply IH in H; [|exact Hl]. destruct H as (Hm & Hsd & Hr & Hlog & Hw & Hdims).
        assert (Hk : drop_decision (classification_heads (model_of s)) (state_dict s) k = false)
          by (unfold drop_decision; rewrite Hp, Hd, Hg, Hc; reflexivity).
        cbn [List.filter]. rewrite Hk. split; [exact Hm|]. split; [exact Hsd|].
        split; [exact Hr|]. split; [exact Hlog|]. split.
        -- intros k' [<-|Hin]; [congruence|]. exact (Hw k' Hin).
        -- intros k' [<-|Hin] Hp'; [exact (Hdk _ eq_refl)|exact (Hdims k' Hin Hp')].
    + unfold bind at 1, emit at 1 in H. cbv beta iota in H.
      apply IH in H; [|exact Hl]. destruct H as (Hm & Hsd & Hr & Hlog & Hw & Hdims).
      cbn [model_of state_dict log] in *.
      assert (Hk : drop_decision (classification_heads (model_of s)) (state_dict s) k = true)
        by (unfold drop_decision; rewrite Hp, Hd, Hg; reflexivity).
      cbn [List.filter]. rewrite Hk. split; [exact Hm|]. split; [exact Hsd|].
      split; [rewrite Hr, <- app_assoc; reflexivity|].
      split; [intros d Hin; apply Hlog, in_or_app; left; exact Hin|]. split.
      * intros k' [<-|Hin] Hk' Hg'.
        -- apply Hlog, in_or_app. right. left. reflexivity.
        -- exact (Hw k' Hin Hk' Hg').
      * intros k' [<-|Hin] Hp'; [exact (Hdk _ eq_refl)|exact (Hdims k' Hin Hp')].
Qed.

Lemma mem_false_get {V} (d : Dict.t V) k : Dict.mem d k = false -> Dict.get d k = None.
Proof. unfold Dict.mem. destruct (Dict.get d k); [discriminate|reflexivity]. Qed.

Lemma reconcile_enabled ks : forall acc s r s',
  load_checkpoint_heads (args (model_of s)) = true ->
  reconcile_heads "" ks acc s = Ok (r, s') ->
  r = acc /\ state_dict s' = state_dict s /\ args (model_of s') = args (model_of s) /\
  (forall n h, Dict.get (classification_heads (model_of s)) n = Some h ->
     Dict.get (classification_heads (model_of s')) n = Some h) /\
  (forall n h, Dict.get (classification_heads (model_of s)) n = None ->
     Dict.get (classification_heads (model_of s')) n = Some h ->
     exists nc i, persisted_dims (state_dict s) n = Ok (nc, i) /\ out_proj_out h = nc /\
       dense_out h = or_default (Some i) (encoder_embed_dim (args (model_of s)))) /\
  (forall k, In k ks -> String.prefix heads_ns k = true ->
     (exists d, persisted_dims (state_dict s) (head_name_of k) = Ok d) /\
     exists h, Dict.get (classification_heads (model_of s')) (head_name_of k) = Some h).
Proof.
  induction ks as [|k ks IH]; intros acc s r s' Hl H.
  - cbn in H. injection H as <- <-.
    split; [reflexivity|]. split; [reflexivity|]. split; [reflexivity|].
    split; [auto|]. split; [intros n h H1 H2; congruence|intros k []].
  - rewrite reconcile_unfold in H.
    destruct (String.prefix heads_ns k) eqn:Hp; cbn [negb] in H.
    2: { apply IH in H; [|exact Hl]. destruct H as (Hr & Hsd & Ha & Hpres & Hnew & Hks).
         split; [exact Hr|]. split; [exact Hsd|]. split; [exact Ha|]. split; [exact Hpres|].
         split; [exact Hnew|]. intros k' [<-|Hin]; [congruence|]. exact (Hks k' Hin). }
    rewrite dims_step in H.
    destruct (persisted_dims (state_dict s) (head_name_of k)) as [[nc i]|e] eqn:Hd;
      [|discriminate].
    unfold bind at 1, get_model at 1 in H. cbv beta iota in H. rewrite Hl in H.
    destruct (Dict.mem (classification_heads (model_of s)) (head_name_of k)) eqn:Hmem;
      cbn [negb] in H.
    + unfold bind at 1, ret at 1 in H. cbv beta iota in H.
      apply IH in H; [|exact Hl]. destruct H as (Hr & Hsd & Ha & Hpres & Hnew & Hks).
      split; [exact Hr|]. split; [exact Hsd|]. split; [exact Ha|]. split; [exact Hpres|].
      split; [exact Hnew|]. intros k' [<-|Hin] Hp'; [|exact (Hks k' Hin Hp')].
      split; [eauto|]. apply mem_get in Hmem as [h Hh]. eauto.
    + apply bind_ok in H as ([] & s1 & Hreg & H).
      pose proof (register_ok _ _ _ _ _ _ Hreg) as R. cbv zeta in R.
      destruct R as (h1 & Hc & _ & Hm1 & Hsd1 & _).
      apply ctor_shapes in Hc as (_ & _ & Hdo & _ & Hoo & _).
      apply mem_false_get in Hmem.
      assert (Hl1 : load_checkpoint_heads (args (model_of s1)) = true) by (rewrite Hm1; exact Hl).
      apply IH in H; [|exact Hl1]. destruct H as (Hr & Hsd & Ha & Hpres & Hnew & Hks).
      rewrite Hsd1 in Hsd, Hnew, Hks. rewrite Hm1 in Ha, Hpres, Hnew.
      cbn [classification_heads args] in Ha, Hpres, Hnew.
      split; [exact Hr|]. split; [exact Hsd|]. split; [exact Ha|].
      split; [|split].
      * intros n h Hh. apply Hpres. rewrite get_set.
        destruct (String.eqb_spec (head_name_of k) n) as [<-|]; [congruence|exact Hh].
      * intros n h Hn0 Hh.
        destruct (Dict.get (Dict.set (classification_heads (model_of s)) (head_name_of k) h1) n)
          as [h2|] eqn:Hg1.
        -- rewrite get_set in Hg1.
           destruct (String.eqb_spec (head_name_of k) n) as [<-|Hne]; [|congruence].
           assert (Hs : Dict.get (classification_heads (model_of s')) (head_name_of k) = Some h1)
             by (apply Hpres; rewrite get_set, String.eqb_refl; reflexivity).
           exists nc, i. split; [exact Hd|]. rewrite Hs in Hh. injection Hh as <-.
           split; [exact Hoo|exact Hdo].
        -- exact (Hnew n h Hg1 Hh).
      * intros k' [<-|Hin] Hp'; [|exact (Hks k' Hin Hp')].
        split; [eauto|]. exists h1. apply Hpres. rewrite get_set, String.eqb_refl. reflexivity.
Qed.

End Reconcile.

Module Migrate.
Import Monad Strs Rename Reconcile.

Section Keys.
Context {V : Type}.

Lemma keys_del_nodup (d : Dict.t V) k : NoDup (Dict.keys d) -> NoDup (Dict.keys (Dict.del d k)).
Proof.
  assert (E : Dict.keys (Dict.del d k) = List.filter (fun x => negb (String.eqb x k)) (Dict.keys d)).
  { unfold Dict.keys, Dict.del. induction d as [|[a b] d IH]; [reflexivity|].
    cbn. destruct (String.eqb a k); cbn; [exact IH|f_equal; exact IH]. }
  rewrite E. apply NoDup_filter.
Qed.

Lemma keys_set_nodup (d : Dict.t V) k v : NoDup (Dict.keys d) -> NoDup (Dict.keys (Dict.set d k v)).
Proof.
  intros Hd. unfold Dict.set. destruct (Dict.mem d k) eqn:Hm.
  - replace (Dict.keys _) with (Dict.keys d); [exact Hd|].
    unfold Dict.keys. clear Hd Hm. induction d as [|[a b] d IH]; [reflexivity|].
    cbn. destruct (String.eqb_spec a k) as [->|]; cbn; f_equal; exact IH.
  - unfold Dict.keys. rewrite map_app. cbn.
    apply Permutation_NoDup with (l := k :: List.map fst d).
    + apply Permutation_cons_append.
    + constructor; [|exact Hd]. intros Hin. apply in_keys_get in Hin as [w Hw].
      unfold Dict.mem in Hm. rewrite Hw in Hm. discriminate.
Qed.
End Keys.

Lemma rename_nodup ks : forall s s',
  rename_decoder "" ks s = Ok (tt, s') ->
  NoDup (Dict.keys (state_dict s)) -> NoDup (Dict.keys (state_dict s')).
Proof.
  induction ks as [|k ks IH]; intros s s' H Hd.
  - cbn in H. injection H as <-. exact Hd.
  - cbn [rename_decoder] in H. apply bind_ok in H as ([] & s1 & H1 & H).
    apply (IH s1 s' H). destruct (String.prefix _ k).
    + apply bind_ok in H1 as (v & s2 & H2 & H1). unfold sd_getitem in H2.
      destruct (Dict.get (state_dict s) k); [injection H2 as <- <-|discriminate].
      apply bind_ok in H1 as ([] & s3 & H3 & H1). unfold sd_setitem in H3.
      injection H3 as <-. unfold sd_delitem in H1. cbn [state_dict model_of log] in H1.
      destruct (Dict.mem _ k); [injection H1 as <-|discriminate].
      cbn [state_dict]. apply keys_del_nodup, keys_set_nodup, Hd.
    + cbn in H1. injection H1 as <-. exact Hd.
Qed.

Lemma renamed_upto_nil sd0 k : renamed_upto sd0 [] k = Dict.get sd0 k.
Proof.
  unfold renamed_upto. cbn [mem_list existsb].
  destruct (String.prefix "decoder" k); [reflexivity|].
  destruct (String.prefix "encoder" k); reflexivity.
Qed.

Lemma renamed_upto_keys sd0 k :
  renamed_upto sd0 (Dict.keys sd0) k = renamed sd0 k.
Proof.
  unfold renamed_upto, renamed.
  destruct (String.prefix "decoder" k); [|destruct (String.prefix "encoder" k)].
  - destruct (mem_list k (Dict.keys sd0)) eqn:E; [reflexivity|].
    destruct (Dict.get sd0 k) eqn:Hg; [|reflexivity].
    apply get_in_keys, mem_list_In in Hg. congruence.
  - destruct (mem_list _ (Dict.keys sd0)) eqn:E.
    + apply mem_list_In, in_keys_get in E as [v Hv]. rewrite Hv. reflexivity.
    + destruct (Dict.get sd0 ("decoder" ++ drop 7 k)) eqn:Hg; [|reflexivity].
      apply get_in_keys, mem_list_In in Hg. congruence.
  - reflexivity.
Qed.

(** The rename loop over the snapshot of all keys. *)
Lemma rename_all m sd lg :
  NoDup (Dict.keys sd) ->
  exists s1, rename_decoder "" (Dict.keys sd) (St m sd lg) = Ok (tt, s1) /\
    model_of s1 = m /\ log s1 = lg /\ NoDup (Dict.keys (state_dict s1)) /\
    forall k, Dict.get (state_dict s1) k = renamed sd k.
Proof.
  intros Hnd.
  destruct (rename_decoder_spec sd (Dict.keys sd) [] (St m sd lg)) as (s1 & H1 & H2 & H3 & H4).
  - exact Hnd.
  - intros k Hk. exact (in_keys_get _ _ Hk).
  - intros k. rewrite renamed_upto_nil. reflexivity.
  - exists s1. split; [exact H1|]. split; [exact H2|]. split; [exact H3|]. split.
    + exact (rename_nodup _ _ _ H1 Hnd).
    + intros k. rewrite H4. apply renamed_upto_keys.
Qed.

Lemma delete_keys_ok ks : forall s s',
  delete_keys ks s = Ok (tt, s') ->
  model_of s' = model_of s /\ log s' = log s /\
  forall k, Dict.get (state_dict s') k =
            if mem_list k ks then None else Dict.get (state_dict s) k.
Proof.
  induction ks as [|k0 ks IH]; intros s s' H.
  - cbn in H. injection H as <-. auto.
  - cbn [delete_keys] in H. apply bind_ok in H as ([] & s1 & H1 & H).
    unfold sd_delitem in H1. destruct (Dict.mem (state_dict s) k0); [|discriminate].
    injection H1 as <-. destruct (IH _ _ H) as (Hm & Hl & Hg). cbn [model_of log state_dict] in *.
    split; [exact Hm|]. split; [exact Hl|]. intros k. rewrite Hg, get_del.
    cbn [mem_list existsb]. fold (mem_list k ks).
    destruct (String.eqb_spec k0 k) as [->|Hne].
    + rewrite String.eqb_refl. destruct (mem_list k ks); reflexivity.
    + destruct (String.eqb_spec k k0); [congruence|reflexivity].
Qed.

Lemma delete_keys_exists ks : forall s,
  NoDup ks -> (forall k, In k ks -> Dict.mem (state_dict s) k = true) ->
  exists s', delete_keys ks s = Ok (tt, s').
Proof.
  induction ks as [|k0 ks IH]; intros s Hnd Hin.
  - exists s. reflexivity.
  - inversion Hnd as [|? ? Hk0 Hnd']; subst.
    cbn [delete_keys]. unfold bind at 1, sd_delitem at 1. rewrite (Hin k0 (or_introl eq_refl)).
    apply IH; [exact Hnd'|]. intros k Hk. cbn [state_dict].
    unfold Dict.mem. rewrite get_del. destruct (String.eqb_spec k0 k) as [->|]; [contradiction|].
    exact (Hin k (or_intror Hk)).
Qed.

Lemma backfill_ok cur : forall s,
  exists s', backfill "" cur s = Ok (tt, s') /\ model_of s' = model_of s /\
    (forall d, In d (log s) -> In d (log s')) /\
    forall k, Dict.get (state_dict s') k =
      match Dict.get (state_dict s) k with
      | Some v => Some v
      | None => Dict.get (List.map (fun kv => (heads_ns ++ fst kv, snd kv)) cur) k
      end.
Proof.
  induction cur as [|[k0 v0] cur IH]; intros s.
  - exists s. split; [reflexivity|]. split; [reflexivity|]. split; [auto|].
    intros k. destruct (Dict.get (state_dict s) k); reflexivity.
  - cbn [backfill]. change ("" ++ "classification_heads." ++ k0) with (heads_ns ++ k0).
    unfold bind at 1, sd_contains at 1. cbv beta iota.
    destruct (Dict.mem (state_dict s) (heads_ns ++ k0)) eqn:Hm.
    + unfold bind at 1, ret at 1. destruct (IH s) as (s' & H1 & H2 & H3 & H4).
      exists s'. split; [exact H1|]. split; [exact H2|]. split; [exact H3|].
      intros k. rewrite H4. cbn [List.map fst snd Dict.get].
      destruct (String.eqb_spec (heads_ns ++ k0) k) as [<-|]; [|reflexivity].
      apply mem_get in Hm as [w Hw]. rewrite Hw. reflexivity.
    + unfold bind at 1 2, emit at 1, sd_setitem at 1. cbv beta iota.
      cbn [model_of state_dict log].
      destruct (IH (St (model_of s) (Dict.set (state_dict s) (heads_ns ++ k0) v0)
                     (log s ++ [InfoOverwriting (heads_ns ++ k0)])%list))
        as (s' & H1 & H2 & H3 & H4).
      exists s'. split; [exact H1|]. split; [exact H2|].
      split; [intros d Hd; apply H3; cbn; apply in_or_app; left; exact Hd|].
      intros k. rewrite H4. cbn [state_dict List.map fst snd Dict.get]. rewrite get_set.
      destruct (String.eqb_spec (heads_ns ++ k0) k) as [<-|]; [|reflexivity].
      apply mem_false_get in Hm. rewrite Hm. reflexivity.
Qed.

(** The top-level migration, stage by stage. *)
Lemma migrate_run m sd r s' :
  NoDup (Dict.keys sd) -> migrate m sd = Ok (r, s') ->
  exists s1 s2, model_of s1 = m /\ NoDup (Dict.keys (state_dict s1)) /\
    (forall k, Dict.get (state_dict s1) k = renamed sd k) /\
    reconcile_heads "" (Dict.keys (state_dict s1)) [] s1 = Ok (r, s2) /\
    model_of s' = model_of s2 /\ (forall d, In d (log s2) -> In d (log s')) /\
    forall k, Dict.get (state_dict s') k =
      match (if mem_list k r then None else Dict.get (state_dict s2) k) with
      | Some v => Some v
      | None => Dict.get (backfill_entries (classification_heads (model_of s2))) k
      end.
Proof.
  intros Hnd H.
  destruct (rename_all m sd [] Hnd) as (s1 & Hr & Hm1 & _ & Hnd1 & Hg1).
  unfold migrate, upgrade_state_dict_named in H. cbv zeta in H.
  change (module_prefix "") with "" in H.
  unfold bind at 1, sd_keys at 1 in H. cbv beta iota in H. cbn [state_dict] in H.
  apply bind_ok in H as ([] & s1' & H1 & H). rewrite Hr in H1. injection H1 as <-.
  unfold bind at 1, upgrade_children at 1, ret at 1 in H. cbv beta iota in H.
  unfold bind at 1, sd_keys at 1 in H. cbv beta iota in H.
  apply bind_ok in H as (r' & s2 & H2 & H).
  apply bind_ok in H as ([] & s3 & H3 & H).
  unfold bind at 1, get_model at 1 in H. cbv beta iota in H.
  apply bind_ok in H as ([] & s4 & H4 & H).
  unfold ret in H. injection H as <- <-.
  destruct (delete_keys_ok _ _ _ H3) as (Hm3 & _ & Hg3).
  destruct (backfill_ok (heads_state_dict (classification_heads (model_of s3))) s3)
    as (s4' & H4' & Hm4 & Hl4 & Hg4).
  rewrite H4' in H4. injection H4 as <-.
  exists s1, s2. split; [exact Hm1|]. split; [exact Hnd1|]. split; [exact Hg1|].
  split; [exact H2|]. split; [congruence|]. split.
  - intros d Hd. apply Hl4. pose proof (delete_keys_ok _ _ _ H3) as (_ & Hl3 & _).
    rewrite Hl3. exact Hd.
  - intros k. rewrite Hg4, Hg3, Hm3. reflexivity.
Qed.

Lemma bf_ns (l : list (string * tensor)) k v :
  Dict.get (List.map (fun kv => (heads_ns ++ fst kv, snd kv)) l) k = Some v ->
  String.prefix heads_ns k = true.
Proof.
  induction l as [|[a b] l IH]; cbn [List.map Dict.get fst snd]; [discriminate|].
  destruct (String.eqb_spec (heads_ns ++ a) k) as [<-|]; [intros _; apply prefix_app|exact IH].
Qed.

Lemma backfill_entries_outside hs k :
  String.prefix heads_ns k = false -> Dict.get (backfill_entries hs) k = None.
Proof.
  intros Hk. unfold backfill_entries.
  destruct (Dict.get _ k) eqn:E; [|reflexivity]. apply bf_ns in E. congruence.
Qed.

Lemma reconcile_frame ks s r s' :
  reconcile_heads "" ks [] s = Ok (r, s') ->
  state_dict s' = state_dict s /\
  forall k, In k r -> In k ks /\ String.prefix heads_ns k = true.
Proof.
  intros H. destruct (load_checkpoint_heads (args (model_of s))) eqn:Hl.
  - destruct (reconcile_enabled _ _ _ _ _ Hl H) as (-> & Hsd & _).
    split; [exact Hsd|intros k []].
  - destruct (reconcile_disabled _ _ _ _ _ Hl H) as (_ & Hsd & -> & _).
    split; [exact Hsd|]. intros k Hk. cbn in Hk. apply filter_In in Hk as [Hin Hd].
    unfold drop_decision in Hd. apply andb_prop in Hd as [Hp _]. auto.
Qed.

(** Keys outside the heads namespace end as the rename left them. *)
Lemma migrate_outside m sd r s' k :
  NoDup (Dict.keys sd) -> migrate m sd = Ok (r, s') ->
  String.prefix heads_ns k = false ->
  Dict.get (state_dict s') k = renamed sd k /\ ~ In k r.
Proof.
  intros Hnd H Hk.
  destruct (migrate_run _ _ _ _ Hnd H) as (s1 & s2 & _ & _ & Hg1 & Hrec & _ & _ & Hg).
  destruct (reconcile_frame _ _ _ _ Hrec) as (Hsd & Hr).
  assert (Hn : ~ In k r) by (intros Hin; apply Hr in Hin as [_ E]; congruence).
  split; [|exact Hn].
  rewrite Hg. destruct (mem_list k r) eqn:E; [apply mem_list_In in E; contradiction|].
  rewrite Hsd, Hg1, backfill_entries_outside by exact Hk.
  destruct (renamed sd k); reflexivity.
Qed.

Lemma renamed_ns sd x : renamed sd (heads_ns ++ x) = Dict.get sd (heads_ns ++ x).
Proof. unfold renamed. rewrite dec_ns, enc_ns. reflexivity. Qed.

Lemma persisted_dims_renamed sd sd1 hn :
  (forall k, Dict.get sd1 k = renamed sd k) -> persisted_dims sd1 hn = persisted_dims sd hn.
Proof. intros H. unfold persisted_dims. rewrite !H, !renamed_ns. reflexivity. Qed.

Lemma get_ns_renamed sd sd1 k :
  (forall k, Dict.get sd1 k = renamed sd k) -> String.prefix heads_ns k = true ->
  Dict.get sd1 k = Dict.get sd k.
Proof.
  intros H Hk. rewrite (prefix_split _ _ Hk), H, renamed_ns. reflexivity.
Qed.

(** A key ["decoder" ++ r0] moves to ["encoder" ++ r0], in the rename loop
    and in the result of the whole migration. *)
Lemma decoder_key_moved m sd r0 v :
  NoDup (Dict.keys sd) -> Dict.get sd ("decoder" ++ r0) = Some v ->
  (exists s1, rename_decoder "" (Dict.keys sd) (St m sd []) = Ok (tt, s1) /\
     Dict.get (state_dict s1) ("encoder" ++ r0) = Some v /\
     Dict.get (state_dict s1) ("decoder" ++ r0) = None) /\
  (forall ks s', migrate m sd = Ok (ks, s') ->
     Dict.get (state_dict s') ("encoder" ++ r0) = Some v /\
     Dict.get (state_dict s') ("decoder" ++ r0) = None).
Proof.
  intros Hnd Hv.
  assert (Re : renamed sd ("encoder" ++ r0) = Some v).
  { unfold renamed. rewrite dec_enc, prefix_app, drop7_enc, Hv. reflexivity. }
  assert (Rd : renamed sd ("decoder" ++ r0) = None).
  { unfold renamed. rewrite prefix_app. reflexivity. }
  split.
  - destruct (rename_all m sd [] Hnd) as (s1 & H1 & _ & _ & _ & Hg).
    exists s1. rewrite !Hg. auto.
  - intros ks s' H.
    rewrite (proj1 (migrate_outside _ _ _ _ _ Hnd H (ns_enc r0))).
    rewrite (proj1 (migrate_outside _ _ _ _ _ Hnd H (ns_dec r0))). auto.
Qed.

End Migrate.

Module HeadKeys.
Import Strs Migrate.

Lemma first_segment_dot n x : has_dot n = false -> first_segment (n ++ "." ++ x) = n.
Proof.
  induction n as [|c n IH]; [reflexivity|]. cbn [has_dot]. intros H.
  apply orb_false_iff in H as [Hc Hn]. cbn [append first_segment]. rewrite Hc.
  f_equal. apply IH, Hn.
Qed.

Lemma head_name_of_key n x : has_dot n = false -> head_name_of (heads_ns ++ n ++ "." ++ x) = n.
Proof. intros H. unfold head_name_of. rewrite drop_app. apply first_segment_dot, H. Qed.

Lemma app_inj_l q a b : q ++ a = q ++ b -> a = b.
Proof. induction q as [|c q IH]; cbn; [auto|]. intros E. injection E as E. auto. Qed.

Lemma is_head_key_split hn k :
  is_head_key hn k = true -> String.prefix heads_ns k = true /\ head_name_of k = hn.
Proof.
  unfold is_head_key. intros H. apply andb_prop in H as [H1 H2].
  apply String.eqb_eq in H2. auto.
Qed.

Lemma wf_names_no_dot m :
  heads_wf m -> forall n, In n (Dict.keys (classification_heads m)) -> has_dot n = false.
Proof.
  intros Hwf n Hn. apply in_keys_get in Hn as [h Hh]. apply Hwf in Hh as [Hok _].
  unfold module_name_ok in Hok. apply andb_prop in Hok as [_ Hd].
  destruct (has_dot n); [discriminate|reflexivity].
Qed.

Lemma get_map_head (l : list (string * tensor)) n p :
  Dict.get (List.map (fun kv => (heads_ns ++ n ++ "." ++ fst kv, snd kv)) l)
           (heads_ns ++ n ++ "." ++ p) = Dict.get l p.
Proof.
  induction l as [|[a b] l IH]; cbn [List.map Dict.get fst snd]; [reflexivity|].
  destruct (String.eqb_spec (heads_ns ++ n ++ "." ++ a) (heads_ns ++ n ++ "." ++ p)) as [E|E];
    destruct (String.eqb_spec a p) as [<-|Hne]; auto.
  - exfalso. apply Hne. apply app_inj_l in E. apply app_inj_l in E. apply app_inj_l in E. exact E.
  - congruence.
Qed.

Lemma get_map_other (l : list (string * tensor)) n n' p :
  has_dot n = false -> has_dot n' = false -> n' <> n ->
  Dict.get (List.map (fun kv => (heads_ns ++ n' ++ "." ++ fst kv, snd kv)) l)
           (heads_ns ++ n ++ "." ++ p) = None.
Proof.
  intros Hn Hn' Hne. induction l as [|[a b] l IH]; cbn [List.map Dict.get fst snd]; [reflexivity|].
  destruct (String.eqb_spec (heads_ns ++ n' ++ "." ++ a) (heads_ns ++ n ++ "." ++ p)) as [E|];
    [|exact IH].
  exfalso. apply Hne. apply app_inj_l in E.
  rewrite <- (first_segment_dot n' a Hn'), <- (first_segment_dot n p Hn), E. reflexivity.
Qed.

Lemma get_map_key (f : string -> string) (l : list (string * tensor)) k v :
  Dict.get (List.map (fun kv => (f (fst kv), snd kv)) l) k = Some v -> exists a, k = f a.
Proof.
  induction l as [|[a b] l IH]; cbn [List.map Dict.get fst snd]; [discriminate|].
  destruct (String.eqb_spec (f a) k) as [<-|]; eauto.
Qed.

Lemma bf_unfold n h (hs : Dict.t head) :
  backfill_entries ((n, h) :: hs) =
  List.app (List.map (fun kv => (heads_ns ++ n ++ "." ++ fst kv, snd kv)) (head_state_dict h))
           (backfill_entries hs).
Proof.
  unfold backfill_entries, heads_state_dict. cbn [flat_map fst snd].
  rewrite map_app, map_map. reflexivity.
Qed.

Lemma bf_absent (hs : Dict.t head) n p :
  ~ In n (Dict.keys hs) -> (forall n', In n' (Dict.keys hs) -> has_dot n' = false) ->
  has_dot n = false -> Dict.get (backfill_entries hs) (heads_ns ++ n ++ "." ++ p) = None.
Proof.
  induction hs as [|[n0 h0] hs IH]; intros Hn Hd Hdn; [reflexivity|].
  rewrite bf_unfold, get_app, get_map_other; [|exact Hdn|apply Hd; left; reflexivity|].
  - apply IH; [intros H; apply Hn; right; exact H|intros n' H; apply Hd; right; exact H|exact Hdn].
  - intros <-. apply Hn. left. reflexivity.
Qed.

(** The backfilled copy of a current head's parameters, under its key. *)
Lemma bf_lookup (hs : Dict.t head) n h p :
  NoDup (Dict.keys hs) -> (forall n', In n' (Dict.keys hs) -> has_dot n' = false) ->
  Dict.get hs n = Some h ->
  Dict.get (backfill_entries hs) (heads_ns ++ n ++ "." ++ p) = Dict.get (head_state_dict h) p.
Proof.
  induction hs as [|[n0 h0] hs IH]; intros Hnd Hd Hh; [discriminate|].
  inversion Hnd as [|? ? Hn0 Hnd']; subst.
  assert (Hdn : has_dot n = false) by (apply Hd, (get_in_keys _ _ _ Hh)).
  rewrite bf_unfold, get_app. cbn [Dict.get] in Hh.
  destruct (String.eqb_spec n0 n) as [<-|Hne].
  - injection Hh as <-. rewrite get_map_head.
    destruct (Dict.get (head_state_dict h0) p); [reflexivity|].
    apply bf_absent; [exact Hn0|intros n' H; apply Hd; right; exact H|exact Hdn].
  - rewrite get_map_other; [|exact Hdn|apply Hd; left; reflexivity|exact Hne].
    apply IH; [exact Hnd'|intros n' H; apply Hd; right; exact H|exact Hh].
Qed.

(** Every backfilled key belongs to a current head. *)
Lemma bf_head_name (hs : Dict.t head) k v :
  (forall n', In n' (Dict.keys hs) -> has_dot n' = false) ->
  Dict.get (backfill_entries hs) k = Some v -> In (head_name_of k) (Dict.keys hs).
Proof.
  induction hs as [|[n0 h0] hs IH]; intros Hd H; [discriminate|].
  rewrite bf_unfold, get_app in H.
  destruct (Dict.get (List.map _ (head_state_dict h0)) k) eqn:E.
  - apply (get_map_key (fun a => heads_ns ++ n0 ++ "." ++ a)) in E as [a ->].
    rewrite head_name_of_key by (apply Hd; left; reflexivity). left. reflexivity.
  - right. apply IH; [intros n' Hn; apply Hd; right; exact Hn|exact H].
Qed.

Lemma drop_decision_head hs sd hn k nc i :
  is_head_key hn k = true -> persisted_dims sd hn = Ok (nc, i) ->
  match Dict.get hs hn with
  | None => True
  | Some h => nc <> out_proj_out h \/ i <> dense_out h
  end ->
  drop_decision hs sd k = true.
Proof.
  intros Hk Hd Hh. apply is_head_key_split in Hk as [Hp <-].
  unfold drop_decision. rewrite Hp, Hd. cbn [andb].
  destruct (Dict.get hs (head_name_of k)) as [h|]; [|reflexivity].
  destruct Hh as [Hh|Hh].
  - apply Z.eqb_neq in Hh. rewrite Hh. reflexivity.
  - apply Z.eqb_neq in Hh. rewrite Hh, orb_true_r. reflexivity.
Qed.

Lemma in_keys_renamed sd sd1 k :
  (forall k, Dict.get sd1 k = renamed sd k) -> String.prefix heads_ns k = true ->
  In k (Dict.keys sd) -> In k (Dict.keys sd1).
Proof.
  intros H Hp Hk. apply in_keys_get in Hk as [v Hv].
  apply (get_in_keys _ _ v). rewrite (get_ns_renamed _ _ _ H Hp). exact Hv.
Qed.

Lemma in_keys_renamed_inv sd sd1 k :
  (forall k, Dict.get sd1 k = renamed sd k) -> String.prefix heads_ns k = true ->
  In k (Dict.keys sd1) -> In k (Dict.keys sd).
Proof.
  intros H Hp Hk. apply in_keys_get in Hk as [v Hv].
  apply (get_in_keys _ _ v). rewrite <- (get_ns_renamed _ _ _ H Hp). exact Hv.
Qed.

End HeadKeys.

Module Completion.
Import Monad Strs Reconcile Migrate HeadKeys.

Lemma reconcile_disabled_exists ks : forall acc s,
  load_checkpoint_heads (args (model_of s)) = false ->
  (forall k, In k ks -> String.prefix heads_ns k = true ->
     exists d, persisted_dims (state_dict s) (head_name_of k) = Ok d) ->
  exists r s', reconcile_heads "" ks acc s = Ok (r, s').
Proof.
  induction ks as [|k ks IH]; intros acc s Hl Hd.
  - do 2 eexists. reflexivity.
  - assert (Hd' : forall k', In k' ks -> String.prefix heads_ns k' = true ->
                  exists d, persisted_dims (state_dict s) (head_name_of k') = Ok d)
      by (intros k' Hk'; apply Hd; right; exact Hk').
    rewrite reconcile_unfold. destruct (String.prefix heads_ns k) eqn:Hp; cbn [negb];
      [|exact (IH acc s Hl Hd')].
    rewrite dims_step. destruct (Hd k (or_introl eq_refl) Hp) as [[nc i] Hdk]. rewrite Hdk.
    unfold bind at 1, get_model at 1. cbv beta iota. rewrite Hl.
    destruct (Dict.get (classification_heads (model_of s)) (head_name_of k)) as [h|].
    + destruct (negb (nc =? out_proj_out h)%Z || negb (i =? dense_out h)%Z).
      * unfold bind at 1, emit at 1. cbv beta iota. apply IH; [exact Hl|exact Hd'].
      * exact (IH acc s Hl Hd').
    + unfold bind at 1, emit at 1. cbv beta iota. apply IH; [exact Hl|exact Hd'].
Qed.

Lemma mem_set_false {V} (d : Dict.t V) k v k' :
  Dict.mem (Dict.set d k v) k' = false -> Dict.mem d k' = false.
Proof.
  unfold Dict.mem. rewrite get_set. destruct (String.eqb k k'); [discriminate|auto].
Qed.

Lemma reconcile_enabled_exists ks : forall acc s,
  load_checkpoint_heads (args (model_of s)) = true ->
  (forall k, In k ks -> String.prefix heads_ns k = true ->
     exists nc i, persisted_dims (state_dict s) (head_name_of k) = Ok (nc, i) /\
     (Dict.mem (classification_heads (model_of s)) (head_name_of k) = false ->
      sen_rep_type (args (model_of s)) <> None /\
      head_ctor_ok (args (model_of s)) (encoder_embed_dim (args (model_of s)))
        (or_default (Some i) (encoder_embed_dim (args (model_of s)))) nc = true /\
      module_name_ok (head_name_of k) = true)) ->
  exists s', reconcile_heads "" ks acc s = Ok (acc, s').
Proof.
  induction ks as [|k ks IH]; intros acc s Hl Hd.
  - eexists. reflexivity.
  - rewrite reconcile_unfold. destruct (String.prefix heads_ns k) eqn:Hp; cbn [negb].
    2: { apply IH; [exact Hl|]. intros k' Hk'. apply Hd. right. exact Hk'. }
    destruct (Hd k (or_introl eq_refl) Hp) as (nc & i & Hdk & Hn).
    rewrite dims_step, Hdk.
    unfold bind at 1, get_model at 1. cbv beta iota. rewrite Hl.
    destruct (Dict.mem (classification_heads (model_of s)) (head_name_of k)) eqn:Hmem;
      cbn [negb].
    + unfold bind at 1, ret at 1. cbv beta iota.
      apply IH; [exact Hl|]. intros k' Hk'. apply Hd. right. exact Hk'.
    + destruct (Hn eq_refl) as (Hs & Hc & Hok).
      rewrite <- (HeadCtor.add_module_fresh _ _ Hmem) in Hok.
      destruct (register_succeeds (head_name_of k) nc (Some i) s Hs Hc Hok) as [s1 Hreg].
      rewrite (bind_step _ _ _ _ _ Hreg).
      pose proof (register_ok _ _ _ _ _ _ Hreg) as R. cbv zeta in R.
      destruct R as (h1 & _ & _ & Hm1 & Hsd1 & _).
      apply IH; rewrite ?Hm1; cbn [args classification_heads]; [exact Hl|].
      rewrite Hsd1. intros k' Hk' Hp'.
      destruct (Hd k' (or_intror Hk') Hp') as (nc' & i' & Hd' & Hn').
      exists nc', i'. split; [exact Hd'|]. intros Hm'. apply Hn'.
      exact (mem_set_false _ _ _ _ Hm').
Qed.

Lemma migrate_of_stages m sd s1 r s2 s3 s4 :
  rename_decoder "" (Dict.keys sd) (St m sd []) = Ok (tt, s1) ->
  reconcile_heads "" (Dict.keys (state_dict s1)) [] s1 = Ok (r, s2) ->
  delete_keys r s2 = Ok (tt, s3) ->
  backfill "" (heads_state_dict (classification_heads (model_of s3))) s3 = Ok (tt, s4) ->
  migrate m sd = Ok (r, s4).
Proof.
  intros H1 H2 H3 H4.
  unfold migrate, upgrade_state_dict_named. cbv zeta. change (module_prefix "") with "".
  unfold bind at 1, sd_keys at 1. cbv beta iota. cbn [state_dict].
  rewrite (bind_step _ _ _ _ _ H1).
  unfold bind at 1, upgrade_children at 1, ret at 1. cbv beta iota.
  unfold bind at 1, sd_keys at 1. cbv beta iota.
  rewrite (bind_step _ _ _ _ _ H2), (bind_step _ _ _ _ _ H3).
  unfold bind at 1, get_model at 1. cbv beta iota.
  rewrite (bind_step _ _ _ _ _ H4). reflexivity.
Qed.

Lemma qqp_model_wf : heads_wf qqp_model.
Proof.
  intros n h E. cbn [Dict.get classification_heads qqp_model] in E.
  destruct (String.eqb_spec "qqp" n) as [<-|]; [|discriminate].
  injection E as <-. split; [reflexivity|cbn; lia].
Qed.

Lemma sst2_model_wf lch : heads_wf (sst2_model lch).
Proof.
  intros n h E. cbn [Dict.get classification_heads sst2_model] in E.
  destruct (String.eqb_spec "sst2" n) as [<-|]; [|discriminate].
  injection E as <-. split; [reflexivity|cbn; lia].
Qed.

End Completion.

Module Upgrade.
Import Monad Strs Reconcile Migrate HeadKeys Completion.

Ltac nodup_keys :=
  cbv [Dict.keys List.map fst];
  repeat (constructor; [cbn [In]; intuition discriminate|]); constructor.

(** C5: a key ["decoder." ++ r0] of the checkpoint is renamed to
    ["encoder." ++ r0] with its value (overwriting a present
    ["encoder." ++ r0]) and removed, both by the rename loop and in the
    migrated state dict. *)
Theorem C5_decoder_namespace_renamed (m : model) sd r0 v :
  NoDup (Dict.keys sd) -> Dict.get sd ("decoder." ++ r0) = Some v ->
  (exists s1, rename_decoder "" (Dict.keys sd) (St m sd []) = Ok (tt, s1) /\
     Dict.get (state_dict s1) ("encoder." ++ r0) = Some v /\
     Dict.get (state_dict s1) ("decoder." ++ r0) = None) /\
  (forall ks s', migrate m sd = Ok (ks, s') ->
     Dict.get (state_dict s') ("encoder." ++ r0) = Some v /\
     Dict.get (state_dict s') ("decoder." ++ r0) = None).
Proof.
  intros Hnd Hv. exact (decoder_key_moved m sd ("." ++ r0) v Hnd Hv).
Qed.

Lemma C5_decoder_namespace_renamed_witness :
  exists ks s', migrate qqp_model legacy_blob = Ok (ks, s') /\
    Dict.get (state_dict s') "encoder.lm_head.bias" = Some (Tensor [100] (Stored 0)) /\
    Dict.get (state_dict s') "decoder.lm_head.bias" = None.
Proof.
  destruct (migrate qqp_model legacy_blob) as [[ks s']|e] eqn:E;
    [|vm_compute in E; discriminate].
  exists ks, s'. split; [reflexivity|].
  exact (proj2 (C5_decoder_namespace_renamed qqp_model legacy_blob "lm_head.bias"
                  (Tensor [100] (Stored 0)) ltac:(nodup_keys) eq_refl) ks s' E).
Defined.

(** C9: the rename matches the characters ["decoder"], not a path segment:
    any key ["decoder" ++ r0] (e.g. ["decoder_embed.weight"]) becomes
    ["encoder" ++ r0] with its value and is removed. *)
Theorem C9_rename_by_string_prefix (m : model) sd r0 v :
  NoDup (Dict.keys sd) -> Dict.get sd ("decoder" ++ r0) = Some v ->
  (exists s1, rename_decoder "" (Dict.keys sd) (St m sd []) = Ok (tt, s1) /\
     Dict.get (state_dict s1) ("encoder" ++ r0) = Some v /\
     Dict.get (state_dict s1) ("decoder" ++ r0) = None) /\
  (forall ks s', migrate m sd = Ok (ks, s') ->
     Dict.get (state_dict s') ("encoder" ++ r0) = Some v /\
     Dict.get (state_dict s') ("decoder" ++ r0) = None).
Proof.
  intros Hnd Hv. exact (decoder_key_moved m sd r0 v Hnd Hv).
Qed.

Lemma C9_rename_by_string_prefix_witness :
  exists s1, rename_decoder "" (Dict.keys overlap_blob) (St qqp_model overlap_blob []) = Ok (tt, s1) /\
    Dict.get (state_dict s1) "encoder_embed.weight" = Some (Tensor [100; 512] (Stored 2)) /\
    Dict.get (state_dict s1) "decoder_embed.weight" = None.
Proof.
  exact (proj1 (C9_rename_by_string_prefix qqp_model overlap_blob "_embed.weight"
                  (Tensor [100; 512] (Stored 2)) ltac:(nodup_keys) eq_refl)).
Defined.

(** C8 (amended): when the migration completes, a key that does not start
    with ["decoder"] or ["classification_heads."], and is not the
    ["encoder"] image of a key starting with ["decoder"], keeps its value. *)
Theorem C8_outside_keys_unchanged (m : model) sd r s' k :
  NoDup (Dict.keys sd) -> migrate m sd = Ok (r, s') ->
  String.prefix "decoder" k = false -> String.prefix heads_ns k = false ->
  (String.prefix "encoder" k = false \/ Dict.get sd ("decoder" ++ drop 7 k) = None) ->
  Dict.get (state_dict s') k = Dict.get sd k.
Proof.
  intros Hnd H Hd Hns He.
  rewrite (proj1 (migrate_outside _ _ _ _ _ Hnd H Hns)). unfold renamed. rewrite Hd.
  destruct He as [He|He]; rewrite ?He; [reflexivity|].
  destruct (String.prefix "encoder" k); reflexivity.
Qed.

Lemma C8_outside_keys_unchanged_witness :
  exists r s', migrate qqp_model mnli_blob = Ok (r, s') /\
    Dict.get (state_dict s') "encoder.sentence_encoder.embed_tokens.weight" =
      Some (Tensor [100; 512] (Stored 0)).
Proof.
  destruct (migrate qqp_model mnli_blob) as [[r s']|e] eqn:E;
    [|vm_compute in E; discriminate].
  exists r, s'. split; [reflexivity|].
  exact (C8_outside_keys_unchanged qqp_model mnli_blob r s'
           "encoder.sentence_encoder.embed_tokens.weight" ltac:(nodup_keys) E
           eq_refl eq_refl (or_intror eq_refl)).
Defined.

(** C8: two keys outside both namespaces change: ["encoder.lm_head.bias"] is
    overwritten by the value of ["decoder.lm_head.bias"], and
    ["decoder_embed.weight"] is removed. *)
Lemma C8_outside_keys_changed :
  exists r s', migrate qqp_model overlap_blob = Ok (r, s') /\
    Dict.get overlap_blob "encoder.lm_head.bias" = Some (Tensor [100] (Stored 0)) /\
    Dict.get (state_dict s') "encoder.lm_head.bias" = Some (Tensor [100] (Stored 1)) /\
    Dict.get overlap_blob "decoder_embed.weight" = Some (Tensor [100; 512] (Stored 2)) /\
    Dict.get (state_dict s') "decoder_embed.weight" = None.
Proof.
  do 2 eexists. split; [vm_compute; reflexivity|].
  vm_compute. repeat split.
Qed.

(** C3 (amended): with [load_checkpoint_heads] off, every checkpoint key of a
    current head whose persisted shapes differ is dropped and reported in the
    returned list, the model is unchanged, and the head's keys end holding the
    current head's own parameters; with it on, nothing is dropped, the
    current head stays, and every checkpoint key of the head keeps its
    value, mismatched shapes included. *)
Theorem C3_known_head_mismatch_dropped (m : model) sd r s' hn h nc i :
  heads_wf m -> NoDup (Dict.keys (classification_heads m)) -> NoDup (Dict.keys sd) ->
  Dict.get (classification_heads m) hn = Some h ->
  persisted_dims sd hn = Ok (nc, i) -> (nc <> out_proj_out h \/ i <> dense_out h) ->
  migrate m sd = Ok (r, s') ->
  if load_checkpoint_heads (args m) then
    r = [] /\ Dict.get (classification_heads (model_of s')) hn = Some h /\
    (forall k v, is_head_key hn k = true -> Dict.get sd k = Some v ->
       Dict.get (state_dict s') k = Some v)
  else
    model_of s' = m /\
    (forall k, In k (Dict.keys sd) -> is_head_key hn k = true -> In k r) /\
    (forall k, is_head_key hn k = true ->
       Dict.get (state_dict s') k = Dict.get (backfill_entries (classification_heads m)) k) /\
    (forall p, Dict.get (state_dict s') (heads_ns ++ hn ++ "." ++ p) =
               Dict.get (head_state_dict h) p).
Proof.
  intros Hwf Hnh Hnd Hh Hd Hne H.
  destruct (migrate_run _ _ _ _ Hnd H) as (s1 & s2 & Hm1 & _ & Hg1 & Hrec & Hm' & _ & Hg).
  destruct (load_checkpoint_heads (args m)) eqn:Hl.
  - assert (Hl1 : load_checkpoint_heads (args (model_of s1)) = true) by (rewrite Hm1; exact Hl).
    destruct (reconcile_enabled _ _ _ _ _ Hl1 Hrec) as (Hr & Hsd2 & _ & Hpres & _).
    rewrite Hm1 in Hpres.
    split; [exact Hr|]. split; [rewrite Hm'; exact (Hpres hn h Hh)|].
    intros k v Hk Hv. destruct (is_head_key_split _ _ Hk) as [Hp _].
    rewrite Hg, Hr. cbn [mem_list existsb].
    rewrite Hsd2, (get_ns_renamed _ _ _ Hg1 Hp), Hv. reflexivity.
  - assert (Hl1 : load_checkpoint_heads (args (model_of s1)) = false) by (rewrite Hm1; exact Hl).
    destruct (reconcile_disabled _ _ _ _ _ Hl1 Hrec) as (Hm2 & Hsd2 & Hr & _).
    rewrite Hm1 in Hr, Hm2. cbn [List.app] in Hr.
    assert (Hd1 : persisted_dims (state_dict s1) hn = Ok (nc, i))
      by (rewrite (persisted_dims_renamed _ _ _ Hg1); exact Hd).
    assert (Hin : forall k, In k (Dict.keys (state_dict s1)) -> is_head_key hn k = true -> In k r).
    { intros k Hk Hhk. rewrite Hr. apply filter_In. split; [exact Hk|].
      apply (drop_decision_head _ _ hn k nc i Hhk Hd1). rewrite Hh. exact Hne. }
    assert (Hfin : forall k, is_head_key hn k = true ->
              Dict.get (state_dict s') k = Dict.get (backfill_entries (classification_heads m)) k).
    { intros k Hk. rewrite Hg, Hm2, Hsd2. destruct (mem_list k r) eqn:E; [reflexivity|].
      destruct (Dict.get (state_dict s1) k) eqn:Hv; [|reflexivity].
      exfalso. apply get_in_keys in Hv. apply (Hin k Hv), mem_list_In in Hk. congruence. }
    split; [congruence|]. split.
    + intros k Hk Hhk. apply Hin; [|exact Hhk].
      destruct (is_head_key_split _ _ Hhk) as [Hp _]. exact (in_keys_renamed _ _ _ Hg1 Hp Hk).
    + split; [exact Hfin|]. intros p.
      assert (Hdn : has_dot hn = false)
        by (apply (wf_names_no_dot m Hwf), (get_in_keys _ _ _ Hh)).
      rewrite Hfin.
      * apply bf_lookup; [exact Hnh|exact (wf_names_no_dot m Hwf)|exact Hh].
      * unfold is_head_key. rewrite prefix_app, head_name_of_key, String.eqb_refl by exact Hdn.
        reflexivity.
Qed.

Lemma C3_known_head_mismatch_dropped_witness :
  exists r s', migrate (sst2_model false) sst2_blob = Ok (r, s') /\
    In "classification_heads.sst2.out_proj.weight" r /\
    Dict.get (state_dict s') "classification_heads.sst2.out_proj.weight" =
      Some (Tensor [2; 512] (Fresh 0 "out_proj.weight")).
Proof.
  destruct (migrate (sst2_model false) sst2_blob) as [[r s']|e] eqn:E;
    [|vm_compute in E; discriminate].
  exists r, s'. split; [reflexivity|].
  assert (Hn : (3 <> out_proj_out sst2_head)%Z) by discriminate.
  pose proof (C3_known_head_mismatch_dropped (sst2_model false) sst2_blob r s' "sst2" sst2_head
                3 512 (sst2_model_wf false) ltac:(nodup_keys) ltac:(nodup_keys) eq_refl eq_refl
                (or_introl Hn) E) as Hc.
  change (load_checkpoint_heads (args (sst2_model false))) with false in Hc. cbv iota in Hc.
  destruct Hc as (_ & Hin & _ & Hp).
  split.
  - apply Hin; [right; right; left; reflexivity|reflexivity].
  - exact (Hp "out_proj.weight").
Defined.

(** C3: with [load_checkpoint_heads] on, the keys of a current head whose
    persisted shapes differ are kept: the 3-class ["sst2"] weights stay in
    the migrated state dict next to the 2-class head, and nothing is
    dropped. *)
Lemma C3_enabled_keeps_mismatched_head :
  exists r s', migrate (sst2_model true) sst2_blob = Ok (r, s') /\ r = [] /\
    persisted_dims sst2_blob "sst2" = Ok (3, 512) /\ out_proj_out sst2_head = 2 /\
    Dict.get (classification_heads (model_of s')) "sst2" = Some sst2_head /\
    Dict.get (state_dict s') "classification_heads.sst2.out_proj.weight" =
      Some (Tensor [3; 512] (Stored 2)).
Proof.
  do 2 eexists. split; [vm_compute; reflexivity|].
  vm_compute. repeat split.
Qed.

(** C7 (corrected): for a head named in the checkpoint but absent from the model, with
    [load_checkpoint_heads] on, a head with the persisted shapes is
    registered (the inner dimension falls back to [encoder_embed_dim] only
    for a persisted [0]), existing heads are kept and all of the head's keys
    stay; with it off, the model is unchanged and every key of the head is
    dropped, removed from the state dict and reported by a warning. *)
Theorem C7_unknown_head_by_policy (m : model) sd r s' k0 hn :
  heads_wf m -> NoDup (Dict.keys sd) ->
  In k0 (Dict.keys sd) -> is_head_key hn k0 = true ->
  Dict.get (classification_heads m) hn = None ->
  migrate m sd = Ok (r, s') ->
  exists nc i, persisted_dims sd hn = Ok (nc, i) /\
  if load_checkpoint_heads (args m) then
    (exists h, Dict.get (classification_heads (model_of s')) hn = Some h /\
       out_proj_out h = nc /\
       dense_out h = or_default (Some i) (encoder_embed_dim (args m)) /\
       (i <> 0 -> dense_out h = i)) /\
    (forall n h, Dict.get (classification_heads m) n = Some h ->
       Dict.get (classification_heads (model_of s')) n = Some h) /\
    r = [] /\
    (forall k v, is_head_key hn k = true -> Dict.get sd k = Some v ->
       Dict.get (state_dict s') k = Some v)
  else
    model_of s' = m /\
    forall k, In k (Dict.keys sd) -> is_head_key hn k = true ->
      In k r /\ Dict.get (state_dict s') k = None /\ In (WarnDeleteUnknown hn k) (log s').
Proof.
  intros Hwf Hnd Hk0 Hhk0 Hun H.
  destruct (is_head_key_split _ _ Hhk0) as [Hp0 Hn0].
  destruct (migrate_run _ _ _ _ Hnd H) as (s1 & s2 & Hm1 & _ & Hg1 & Hrec & Hm' & Hlog & Hg).
  pose proof (in_keys_renamed _ _ _ Hg1 Hp0 Hk0) as Hk0'.
  destruct (load_checkpoint_heads (args m)) eqn:Hl.
  - assert (Hl1 : load_checkpoint_heads (args (model_of s1)) = true) by (rewrite Hm1; exact Hl).
    destruct (reconcile_enabled _ _ _ _ _ Hl1 Hrec) as (Hr & Hsd2 & _ & Hpres & Hnew & Hks).
    rewrite Hm1 in Hpres, Hnew.
    destruct (Hks k0 Hk0' Hp0) as (_ & h & Hh). rewrite Hn0 in Hh.
    destruct (Hnew hn h Hun Hh) as (nc & i & Hd & Hoo & Hdo).
    rewrite (persisted_dims_renamed _ _ _ Hg1) in Hd.
    exists nc, i. split; [exact Hd|]. split; [|split; [|split]].
    + exists h. rewrite Hm'. split; [exact Hh|]. split; [exact Hoo|]. split; [exact Hdo|].
      intros Hi. rewrite Hdo. cbn [or_default]. apply Z.eqb_neq in Hi. rewrite Hi. reflexivity.
    + intros n h' Hh'. rewrite Hm'. exact (Hpres n h' Hh').
    + exact Hr.
    + intros k v Hk Hv. destruct (is_head_key_split _ _ Hk) as [Hp _].
      rewrite Hg, Hr. cbn [mem_list existsb].
      rewrite Hsd2, (get_ns_renamed _ _ _ Hg1 Hp), Hv. reflexivity.
  - assert (Hl1 : load_checkpoint_heads (args (model_of s1)) = false) by (rewrite Hm1; exact Hl).
    destruct (reconcile_disabled _ _ _ _ _ Hl1 Hrec) as (Hm2 & Hsd2 & Hr & _ & Hw & Hdims).
    rewrite Hm1 in Hm2, Hr, Hw. cbn [List.app] in Hr.
    destruct (Hdims k0 Hk0' Hp0) as [[nc i] Hd1]. rewrite Hn0 in Hd1.
    exists nc, i. split; [rewrite <- (persisted_dims_renamed _ _ _ Hg1); exact Hd1|].
    split; [congruence|].
    intros k Hk Hhk. destruct (is_head_key_split _ _ Hhk) as [Hp Hnk].
    pose proof (in_keys_renamed _ _ _ Hg1 Hp Hk) as Hk'.
    assert (Hdk : drop_decision (classification_heads m) (state_dict s1) k = true).
    { apply (drop_decision_head _ _ hn k nc i Hhk Hd1). rewrite Hun. exact I. }
    assert (Hin : In k r) by (rewrite Hr; apply filter_In; auto).
    split; [exact Hin|]. split.
    + rewrite Hg, Hm2, (proj2 (mem_list_In k r) Hin).
      destruct (Dict.get (backfill_entries (classification_heads m)) k) eqn:E; [|reflexivity].
      exfalso. apply bf_head_name in E; [|exact (wf_names_no_dot m Hwf)].
      rewrite Hnk in E. apply in_keys_get in E as [h' Hh']. congruence.
    + apply Hlog. rewrite <- Hnk. apply Hw; [exact Hk'|exact Hdk|rewrite Hnk; exact Hun].
Qed.

Lemma C7_unknown_head_by_policy_witness :
  exists r s', migrate qqp_model mnli_blob = Ok (r, s') /\
    In "classification_heads.mnli.out_proj.weight" r /\
    Dict.get (state_dict s') "classification_heads.mnli.out_proj.weight" = None /\
    In (WarnDeleteUnknown "mnli" "classification_heads.mnli.out_proj.weight") (log s').
Proof.
  destruct (migrate qqp_model mnli_blob) as [[r s']|e] eqn:E;
    [|vm_compute in E; discriminate].
  exists r, s'. split; [reflexivity|].
  destruct (C7_unknown_head_by_policy qqp_model mnli_blob r s'
              "classification_heads.mnli.dense.weight" "mnli" qqp_model_wf ltac:(nodup_keys)
              ltac:(right; left; reflexivity) eq_refl eq_refl E) as (nc & i & _ & Hc).
  change (load_checkpoint_heads (args qqp_model)) with false in Hc. cbv iota in Hc.
  destruct Hc as (_ & Hc).
  exact (Hc "classification_heads.mnli.out_proj.weight"
            ltac:(right; right; right; left; reflexivity) eq_refl).
Defined.

(** C7: with [load_checkpoint_heads] on, an ["rte"] head persisted with
    inner dimension 0 is registered with [dense.out_features = 512]
    ([encoder_embed_dim]), not with the persisted shape. *)
Lemma C7_zero_inner_dim_not_persisted :
  exists r s', migrate (sst2_model true) zero_inner_blob = Ok (r, s') /\
    persisted_dims zero_inner_blob "rte" = Ok (2, 0) /\
    exists h, Dict.get (classification_heads (model_of s')) "rte" = Some h /\
      dense_out h = 512.
Proof.
  do 2 eexists. split; [vm_compute; reflexivity|].
  split; [reflexivity|]. eexists. split; [vm_compute; reflexivity|]. reflexivity.
Qed.

(** C6 (amended): the migration completes when every head named in the
    checkpoint has readable [out_proj.weight] and [dense.weight] entries of
    rank at least 1 and, with [load_checkpoint_heads] on, every such head
    absent from the model can be registered: [sen_rep_type] is set, the
    head constructor accepts its persisted shapes and [nn.ModuleDict]
    accepts its name. *)
Theorem C6_migration_completes (m : model) sd :
  NoDup (Dict.keys sd) ->
  (forall k, In k (Dict.keys sd) -> String.prefix heads_ns k = true ->
     exists nc i, persisted_dims sd (head_name_of k) = Ok (nc, i) /\
     (load_checkpoint_heads (args m) = true ->
      Dict.get (classification_heads m) (head_name_of k) = None ->
      sen_rep_type (args m) <> None /\
      head_ctor_ok (args m) (encoder_embed_dim (args m))
        (or_default (Some i) (encoder_embed_dim (args m))) nc = true /\
      module_name_ok (head_name_of k) = true)) ->
  exists r s', migrate m sd = Ok (r, s').
Proof.
  intros Hnd Hdims.
  destruct (rename_all m sd [] Hnd) as (s1 & Hren & Hm1 & _ & Hnd1 & Hg1).
  assert (Hdims1 : forall k, In k (Dict.keys (state_dict s1)) -> String.prefix heads_ns k = true ->
            exists nc i, persisted_dims (state_dict s1) (head_name_of k) = Ok (nc, i) /\
            (load_checkpoint_heads (args m) = true ->
             Dict.get (classification_heads m) (head_name_of k) = None ->
             sen_rep_type (args m) <> None /\
             head_ctor_ok (args m) (encoder_embed_dim (args m))
               (or_default (Some i) (encoder_embed_dim (args m))) nc = true /\
             module_name_ok (head_name_of k) = true)).
  { intros k Hk Hp. rewrite (persisted_dims_renamed _ _ _ Hg1).
    exact (Hdims k (in_keys_renamed_inv _ _ _ Hg1 Hp Hk) Hp). }
  destruct (load_checkpoint_heads (args m)) eqn:Hl.
  - assert (Hl1 : load_checkpoint_heads (args (model_of s1)) = true) by (rewrite Hm1; exact Hl).
    assert (Hn1 : forall k, In k (Dict.keys (state_dict s1)) -> String.prefix heads_ns k = true ->
       exists nc i, persisted_dims (state_dict s1) (head_name_of k) = Ok (nc, i) /\
       (Dict.mem (classification_heads (model_of s1)) (head_name_of k) = false ->
        sen_rep_type (args (model_of s1)) <> None /\
        head_ctor_ok (args (model_of s1)) (encoder_embed_dim (args (model_of s1)))
          (or_default (Some i) (encoder_embed_dim (args (model_of s1)))) nc = true /\
        module_name_ok (head_name_of k) = true)).
    { intros k Hk Hp. destruct (Hdims1 k Hk Hp) as (nc & i & Hd & Hc).
      exists nc, i. split; [exact Hd|]. rewrite Hm1. intros Hmem. apply Hc; [reflexivity|].
      unfold Dict.mem in Hmem. destruct (Dict.get _ _); [discriminate|reflexivity]. }
    destruct (reconcile_enabled_exists _ [] s1 Hl1 Hn1) as (s2 & Hrec).
    destruct (backfill_ok (heads_state_dict (classification_heads (model_of s2))) s2)
      as (s4 & Hbf & _).
    exists [], s4. eapply migrate_of_stages; [exact Hren|exact Hrec|reflexivity|exact Hbf].
  - assert (Hl1 : load_checkpoint_heads (args (model_of s1)) = false) by (rewrite Hm1; exact Hl).
    assert (Hd1 : forall k, In k (Dict.keys (state_dict s1)) -> String.prefix heads_ns k = true ->
                  exists d, persisted_dims (state_dict s1) (head_name_of k) = Ok d).
    { intros k Hk Hp. destruct (Hdims1 k Hk Hp) as (nc & i & Hd & _). eauto. }
    destruct (reconcile_disabled_exists _ [] s1 Hl1 Hd1) as (r & s2 & Hrec).
    destruct (reconcile_disabled _ _ _ _ _ Hl1 Hrec) as (_ & Hsd2 & Hr & _).
    cbn [List.app] in Hr.
    destruct (delete_keys_exists r s2) as (s3 & Hdel).
    + rewrite Hr. apply NoDup_filter, Hnd1.
    + intros k Hk. rewrite Hr in Hk. apply filter_In in Hk as [Hk _].
      rewrite Hsd2. apply in_keys_get in Hk as [v Hv]. unfold Dict.mem. rewrite Hv. reflexivity.
    + destruct (backfill_ok (heads_state_dict (classification_heads (model_of s3))) s3)
        as (s4 & Hbf & _).
      exists r, s4. eapply migrate_of_stages; [exact Hren|exact Hrec|exact Hdel|exact Hbf].
Qed.

Lemma C6_migration_completes_witness :
  exists r s', migrate qqp_model mnli_blob = Ok (r, s').
Proof.
  apply C6_migration_completes.
  - nodup_keys.
  - intros k Hk Hp. cbv [Dict.keys List.map fst mnli_blob In] in Hk.
    repeat destruct Hk as [<-|Hk]; try contradiction;
      first [vm_compute in Hp; discriminate Hp
            | do 2 eexists; split; [vm_compute; reflexivity|];
              intros E; vm_compute in E; discriminate E].
Defined.

(** C6: a checkpoint with a key of the ["qqp"] head but no
    [out_proj.weight] for it makes the migration raise [KeyError]. *)
Lemma C6_missing_weight_raises :
  Dict.get partial_head_blob "classification_heads.qqp.out_proj.weight" = None /\
  migrate qqp_model partial_head_blob =
    Err (KeyError "classification_heads.qqp.out_proj.weight").
Proof. split; vm_compute; reflexivity. Qed.

End Upgrade.

(** ** Further properties of the presets *)
Module PresetDefaults.
Import PresetFacts.

(** The default of the first line of [body] writing [k]. *)
Fixpoint first_default (body : list assign) (k : string) : option value :=
  match body with
  | [] => None
  | l :: body' => if String.eqb (dst l) k then Some (dflt l) else first_default body' k
  end.

(** Every line of [body] writing [k] reads [k] itself. *)
Definition self_reads (body : list assign) (k : string) : bool :=
  forallb (fun l => negb (String.eqb (dst l) k) || String.eqb (src l) k) body.

Lemma exec_self_default body k : self_reads body k = true ->
  forall a, Dict.get (exec body a) k =
    match Dict.get a k with Some v => Some v | None => first_default body k end.
Proof.
  induction body as [|x body IH]; intros Hs a; cbn [first_default].
  - change (exec [] a) with a. destruct (Dict.get a k); reflexivity.
  - unfold self_reads in Hs. cbn [forallb] in Hs. apply andb_prop in Hs as [Hx Hs].
    rewrite exec_cons, (IH Hs). unfold exec_assign. rewrite get_set.
    destruct (String.eqb_spec (dst x) k) as [Hd|Hd].
    + cbn in Hx. apply String.eqb_eq in Hx.
      unfold getattr. rewrite Hx. destruct (Dict.get a k); reflexivity.
    + destruct (Dict.get a k); reflexivity.
Qed.

Lemma preset_get_absent body k a : self_reads body k = true -> Dict.get a k = None ->
  Dict.get (exec body a) k = first_default body k.
Proof. intros Hs Ha. rewrite (exec_self_default body k Hs a), Ha. reflexivity. Qed.

Lemma base_idempotent x : ns_equiv (base_architecture (base_architecture x)) (base_architecture x).
Proof. apply exec_idempotent, foreign_reads_ok_FR. vm_compute. reflexivity. Qed.

Ltac unfold_presets :=
  cbv beta delta [base_architecture smlp_mlm_complex_architecture
    smlp_mlm_complex_architecture_mp smlp_mlm_complex_architecture_test1
    smlp_mlm_complex_architecture_sst2 smlp_mlm_complex_architecture_qqp_gate
    smlp_mlm_complex_architecture_sst2_gate smlp_mlm_complex_architecture_cola
    smlp_mlm_complex_architecture_cola_gate smlp_mlm_complex_architecture_mrpc
    smlp_mlm_complex_architecture_mrpc_gate smlp_mlm_complex_architecture_test1_base
    smlp_mlm_complex_architecture_test1_base' smlp_mlm_complex_gate
    smlp_mlm_complex_architecture_qnli smlp_mlm_complex_architecture_qnli_gate
    smlp_mlm_complex_architecture_imdb smlp_mlm_complex_architecture_imdb_gate];
  rewrite <- ?exec_app.

(** An attribute absent from the caller's namespace gets the default of the
    first line of the preset chain that writes it. *)
Ltac preset_absent :=
  unfold_presets;
  rewrite preset_get_absent; [vm_compute; reflexivity|vm_compute; reflexivity|assumption].

Ltac in_registry :=
  simpl; repeat match goal with
                | |- (?n, ?f) = (?n, ?f) \/ _ => left; reflexivity
                | |- _ \/ _ => right
                end.

(** Whatever preset is resolved, an unset [activation_fn] becomes ["gelu"]:
    the later line [args.activation_fn = getattr(args, "activation_fn",
    "relu")] of [base_architecture] never takes effect. *)
Theorem preset_activation_fn_gelu n f a :
  In (n, f) arch_registry -> Dict.get a "activation_fn" = None ->
  Dict.get (f a) "activation_fn" = Some (VStr "gelu").
Proof.
  simpl. intros H Ha.
  repeat destruct H as [H|H]; try contradiction; injection H as <- <-; preset_absent.
Qed.

Lemma preset_activation_fn_gelu_witness :
  In ("smlp_mlm_complex_sst2", smlp_mlm_complex_architecture_sst2) arch_registry /\
  Dict.get [("activation_fn", VStr "relu")] "activation_fn" <> None /\
  Dict.get (smlp_mlm_complex_architecture_sst2 [("dropout", VFloat 0)]) "activation_fn" =
    Some (VStr "gelu").
Proof.
  assert (Hin : In ("smlp_mlm_complex_sst2", smlp_mlm_complex_architecture_sst2) arch_registry)
    by in_registry.
  split; [exact Hin|]. split; [discriminate|].
  exact (preset_activation_fn_gelu _ _ [("dropout", VFloat 0)] Hin eq_refl).
Defined.

(** Sizes and modes each registered preset gives a namespace that sets none
    of them: [encoder_layers], [encoder_embed_dim], [sen_rep_type] and
    [gate].  ["smlp_mlm"], ["smlp_mlm_complex"] and ["smlp_mlm_complex_gate"]
    leave [sen_rep_type] unset; ["smlp_mlm_complex_QQP_gate"] and
    ["smlp_mlm_complex_mnli_gate"] have 12 layers where their non-gated
    counterparts ["smlp_mlm_complex_QQP"] and ["smlp_mlm_complex_mnli"] have
    6 and 12. *)
Theorem preset_size_defaults a :
  Dict.get a "encoder_layers" = None -> Dict.get a "encoder_embed_dim" = None ->
  Dict.get a "sen_rep_type" = None -> Dict.get a "gate" = None ->
  List.map (fun nf => (fst nf, List.map (Dict.get (snd nf a))
              ["encoder_layers"; "encoder_embed_dim"; "sen_rep_type"; "gate"])) arch_registry =
  [("smlp_mlm", [Some (VInt 12); Some (VInt 768); None; Some (VBool false)]);
   ("smlp_mlm_complex", [Some (VInt 12); Some (VInt 768); None; Some (VBool false)]);
   ("smlp_mlm_complex_mp", [Some (VInt 12); Some (VInt 768); Some (VStr "mp"); Some (VBool false)]);
   ("smlp_mlm_complex_QQP", [Some (VInt 6); Some (VInt 512); Some (VStr "mp"); Some (VBool false)]);
   ("smlp_mlm_complex_sst2", [Some (VInt 12); Some (VInt 512); Some (VStr "mp"); Some (VBool false)]);
   ("smlp_mlm_complex_sst2_gate", [Some (VInt 12); Some (VInt 512); Some (VStr "mp"); Some (VBool true)]);
   ("smlp_mlm_complex_QQP_gate", [Some (VInt 12); Some (VInt 512); Some (VStr "mp"); Some (VBool true)]);
   ("smlp_mlm_complex_cola", [Some (VInt 3); Some (VInt 512); Some (VStr "mp"); Some (VBool false)]);
   ("smlp_mlm_complex_cola_gate", [Some (VInt 3); Some (VInt 512); Some (VStr "mp"); Some (VBool true)]);
   ("smlp_mlm_complex_mrpc", [Some (VInt 6); Some (VInt 512); Some (VStr "mp"); Some (VBool false)]);
   ("smlp_mlm_complex_mrpc_gate", [Some (VInt 6); Some (VInt 512); Some (VStr "mp"); Some (VBool true)]);
   ("smlp_mlm_complex_mnli", [Some (VInt 12); Some (VInt 512); Some (VStr "mp"); Some (VBool false)]);
   ("smlp_mlm_complex_mnli_gate", [Some (VInt 12); Some (VInt 512); Some (VStr "mp"); Some (VBool true)]);
   ("smlp_mlm_complex_gate", [Some (VInt 12); Some (VInt 768); None; Some (VBool true)]);
   ("smlp_mlm_complex_qnli", [Some (VInt 6); Some (VInt 512); Some (VStr "mp"); Some (VBool false)]);
   ("smlp_mlm_complex_qnli_gate", [Some (VInt 6); Some (VInt 512); Some (VStr "mp"); Some (VBool true)]);
   ("smlp_mlm_complex_imdb", [Some (VInt 4); Some (VInt 512); Some (VStr "mp"); Some (VBool false)]);
   ("smlp_mlm_complex_imdb_gate", [Some (VInt 4); Some (VInt 512); Some (VStr "mp"); Some (VBool true)])].
Proof.
  intros H1 H2 H3 H4. cbn [arch_registry List.map fst snd].
  repeat match goal with
         | |- (_ :: _) = (_ :: _) => f_equal
         | |- (_, _) = (_, _) => f_equal
         end;
  preset_absent.
Qed.

Lemma preset_size_defaults_witness :
  In ("smlp_mlm_complex_QQP", [Some (VInt 6); Some (VInt 512); Some (VStr "mp"); Some (VBool false)])
    (List.map (fun nf => (fst nf, List.map (Dict.get (snd nf [("pooler_activation_fn", VStr "relu")]))
                 ["encoder_layers"; "encoder_embed_dim"; "sen_rep_type"; "gate"])) arch_registry).
Proof.
  refine (eq_ind _ (fun l => In _ l) _ _ (eq_sym (preset_size_defaults
            [("pooler_activation_fn", VStr "relu")] eq_refl eq_refl eq_refl eq_refl))).
  in_registry.
Defined.

(** The [base_architecture(args)] call that [build_model] makes on a
    namespace already resolved by any registered preset changes no
    attribute. *)
Theorem base_architecture_after_preset n f a : In (n, f) arch_registry ->
  ns_equiv (base_architecture (f a)) (f a).
Proof.
  simpl. intros H.
  repeat destruct H as [H|H]; try contradiction; injection H as <- <-;
  cbv beta delta [smlp_mlm_complex_architecture
    smlp_mlm_complex_architecture_mp smlp_mlm_complex_architecture_test1
    smlp_mlm_complex_architecture_sst2 smlp_mlm_complex_architecture_qqp_gate
    smlp_mlm_complex_architecture_sst2_gate smlp_mlm_complex_architecture_cola
    smlp_mlm_complex_architecture_cola_gate smlp_mlm_complex_architecture_mrpc
    smlp_mlm_complex_architecture_mrpc_gate smlp_mlm_complex_architecture_test1_base
    smlp_mlm_complex_architecture_test1_base' smlp_mlm_complex_gate
    smlp_mlm_complex_architecture_qnli smlp_mlm_complex_architecture_qnli_gate
    smlp_mlm_complex_architecture_imdb smlp_mlm_complex_architecture_imdb_gate];
  apply base_idempotent.
Qed.

Lemma base_architecture_after_preset_witness :
  In ("smlp_mlm_complex_imdb_gate", smlp_mlm_complex_architecture_imdb_gate) arch_registry /\
  ns_equiv (base_architecture (smlp_mlm_complex_architecture_imdb_gate caller_args_spectral))
           (smlp_mlm_complex_architecture_imdb_gate caller_args_spectral).
Proof.
  assert (Hin : In ("smlp_mlm_complex_imdb_gate", smlp_mlm_complex_architecture_imdb_gate)
                   arch_registry) by in_registry.
  split; [exact Hin|]. exact (base_architecture_after_preset _ _ caller_args_spectral Hin).
Defined.

End PresetDefaults.

Module Build.
Import PresetFacts PresetDefaults.




Lemma base_get a k d0 : self_reads base_architecture_body k = true ->
  first_default base_architecture_body k = d0 ->
  Dict.get (base_architecture a) k = match Dict.get a k with Some v => Some v | None => d0 end.
Proof. intros H <-. apply exec_self_default, H. Qed.

Lemma match_get (a : Namespace) k :
  match Dict.get a k with Some v => Some v | None => None end = Dict.get a k.
Proof. destruct (Dict.get a k); reflexivity. Qed.

Lemma match_getattr (a : Namespace) k d :
  match Dict.get a k with Some v => Some v | None => Some d end = Some (getattr a k d).
Proof. unfold getattr. destruct (Dict.get a k); reflexivity. Qed.

Ltac base_rw k d0 := rewrite (base_get _ k d0) by (vm_compute; reflexivity).




Lemma base_get_none a k : self_reads base_architecture_body k = true ->
  first_default base_architecture_body k = None ->
  Dict.get (base_architecture a) k = Dict.get a k.
Proof. intros H1 H2. rewrite (base_get a k None H1 H2). apply match_get. Qed.

Lemma base_ltk a : Dict.get (base_architecture a) "encoder_layers_to_keep" =
  Some (getattr a "encoder_layers_to_keep" VNone).
Proof. base_rw "encoder_layers_to_keep" (Some VNone). apply match_getattr. Qed.


Lemma RobertaEncoder_split_error x d v :
  Dict.get x "encoder_layers_to_keep" = Some v -> truthy v = true ->
  (forall s, v <> VStr s) -> RobertaEncoder x d = Err (AttributeError "split").
Proof.
  intros Hg Ht Hs. unfold RobertaEncoder, getattr_strict. rewrite Hg. cbn [rbind]. rewrite Ht.
  destruct v; try reflexivity. exfalso. exact (Hs s eq_refl).
Qed.

(** [build_model] raises [AttributeError] before the sentence encoder is
    constructed in two cases: when the namespace has neither
    [max_positions] nor [tokens_per_sample], and when
    [encoder_layers_to_keep] is truthy but not a string (it has no
    [split]). *)
Theorem build_model_raises a d :
  (Dict.mem a "max_positions" = false -> Dict.mem a "tokens_per_sample" = false ->
   build_model a d = Err (AttributeError "tokens_per_sample")) /\
  ((Dict.mem a "max_positions" || Dict.mem a "tokens_per_sample") = true ->
   truthy (getattr a "encoder_layers_to_keep" VNone) = true ->
   (forall s, getattr a "encoder_layers_to_keep" VNone <> VStr s) ->
   build_model a d = Err (AttributeError "split")).
Proof.
  pose proof (base_get_none a "max_positions" eq_refl eq_refl) as Hmp.
  pose proof (base_get_none a "tokens_per_sample" eq_refl eq_refl) as Htp.
  assert (Hsplit : forall x, (forall k, k <> "max_positions" ->
                     Dict.get x k = Dict.get (base_architecture a) k) ->
            truthy (getattr a "encoder_layers_to_keep" VNone) = true ->
            (forall s, getattr a "encoder_layers_to_keep" VNone <> VStr s) ->
            RobertaEncoder x d = Err (AttributeError "split")).
  { intros x Hx Ht Hs. apply (RobertaEncoder_split_error _ _ (getattr a "encoder_layers_to_keep" VNone));
      [|exact Ht|exact Hs]. rewrite Hx by discriminate. apply base_ltk. }
  split.
  - intros H1 H2. unfold build_model. cbv zeta. unfold Dict.mem at 1. rewrite Hmp.
    unfold Dict.mem in H1, H2. destruct (Dict.get a "max_positions"); [discriminate|].
    cbn [rbind]. unfold getattr_strict. rewrite Htp.
    destruct (Dict.get a "tokens_per_sample"); [discriminate|reflexivity].
  - intros Hmt Ht Hs. unfold build_model. cbv zeta. unfold Dict.mem at 1. rewrite Hmp.
    unfold Dict.mem in Hmt.
    destruct (Dict.get a "max_positions") eqn:Ea; cbn [rbind].
    + apply Hsplit; [reflexivity|exact Ht|exact Hs].
    + unfold getattr_strict. rewrite Htp.
      destruct (Dict.get a "tokens_per_sample"); [|discriminate]. cbn [rbind].
      apply Hsplit; [|exact Ht|exact Hs].
      intros k Hk. rewrite get_set. destruct (String.eqb_spec "max_positions" k); congruence.
Qed.

Lemma build_model_raises_witness :
  build_model [("encoder_layers_to_keep", VStr "0,2,4")] (Dictionary 1 50265) =
    Err (AttributeError "tokens_per_sample") /\
  build_model [("tokens_per_sample", VInt 512); ("encoder_layers_to_keep", VInt 3)]
    (Dictionary 1 50265) = Err (AttributeError "split").
Proof.
  split.
  - exact (proj1 (build_model_raises [("encoder_layers_to_keep", VStr "0,2,4")]
                    (Dictionary 1 50265)) eq_refl eq_refl).
  - exact (proj2 (build_model_raises [("tokens_per_sample", VInt 512);
                                      ("encoder_layers_to_keep", VInt 3)] (Dictionary 1 50265))
             eq_refl eq_refl (fun s E => ltac:(discriminate E))).
Defined.












End Build.

Module Runtime.
Import Monad HeadCtor Reconcile.

(** A model whose preset left a pooling mode [forward] does not implement. *)
Definition mean_args : ModelArgs := MkArgs 512 "tanh" 0 0 8 false (Some "mean") false.
Definition mean_model : model := Model mean_args [] 0.

(** A model trained with quantisation noise on its heads
    ([--quant-noise-pq 0.1], block size 8). *)
Definition qn_args : ModelArgs := MkArgs 512 "tanh" (1 # 10) (1 # 10) 8 false (Some "cls") false.
Definition qn_model : model := Model qn_args [] 0.

Lemma register_fresh_step m sd lg n nc idim srt :
  Dict.get (classification_heads m) n = None ->
  module_name_ok n = true -> sen_rep_type (args m) = Some srt ->
  head_ctor_ok (args m) (encoder_embed_dim (args m))
    (or_default idim (encoder_embed_dim (args m))) nc = true ->
  register_classification_head n nc idim (St m sd lg) =
    Ok (tt, St (Model (args m)
                  (classification_heads m ++
                   [(n, Head (next_uid m) (encoder_embed_dim (args m))
                          (or_default idim (encoder_embed_dim (args m)))
                          (or_default idim (encoder_embed_dim (args m))) nc
                          (spectral_norm_classification_head (args m)) srt)])%list
                  (S (next_uid m))) sd lg).
Proof.
  intros Hg Hn Hs Hq.
  unfold register_classification_head, bind, get_model, ret, lift, put_model.
  cbn [model_of state_dict log]. rewrite Hg.
  rewrite (ctor_ok _ (next_uid m) _ _ _ _ Hs Hq), (add_module_of_ok _ _ Hn).
  unfold Dict.set, Dict.mem. rewrite Hg. reflexivity.
Qed.

Lemma register_head_of m sd lg n nc idim s' srt :
  sen_rep_type (args m) = Some srt ->
  register_classification_head n nc idim (St m sd lg) = Ok (tt, s') ->
  exists h, Dict.get (classification_heads (model_of s')) n = Some h /\
    head_uid h = next_uid m /\ head_sen_rep_type h = srt.
Proof.
  intros Hs H. pose proof (register_ok _ _ _ _ _ _ H) as R. cbv zeta in R. cbn [model_of] in R.
  destruct R as (h & Hc & _ & Hm & _).
  exists h. rewrite Hm. cbn [classification_heads]. rewrite get_set, String.eqb_refl.
  split; [reflexivity|].
  destruct (ctor_inv _ _ _ _ _ _ Hc) as (srt' & Hs' & _ & ->).
  rewrite Hs in Hs'. injection Hs' as <-. split; reflexivity.
Qed.

(** After [register_classification_head name ...] succeeds, [forward]
    through [name] uses the new head object: for the model's
    [sen_rep_type] ["mp"], mean pooling over [src_lengths] when that keyword
    is passed a tensor, plain mean pooling when it is absent, and
    [AttributeError] when it is passed [None]; the first token for ["cls"];
    and [NotImplementedError] for any other [sen_rep_type], although the
    registration itself accepted it. *)
Theorem register_then_forward m sd lg name nc idim s' srt src_tokens
    (features_only return_all_hiddens : bool) kw :
  sen_rep_type (args m) = Some srt ->
  register_classification_head name nc idim (St m sd lg) = Ok (tt, s') ->
  let f := Features src_tokens (src_lengths_of kw) (negb return_all_hiddens) in
  let extra := if return_all_hiddens
               then Some (InnerStates src_tokens (src_lengths_of kw) (negb return_all_hiddens))
               else None in
  forward (model_of s') src_tokens features_only return_all_hiddens (Some name) kw =
    if String.eqb srt "mp" then
      match kw_src_lengths kw with
      | Some (Some l) => Ok (HeadOutput (next_uid m) (PoolMeanLen f l), extra)
      | Some None => Err (AttributeError "unsqueeze")
      | None => Ok (HeadOutput (next_uid m) (PoolMean f), extra)
      end
    else if String.eqb srt "cls" then Ok (HeadOutput (next_uid m) (PoolCls f), extra)
    else Err NotImplementedError.
Proof.
  intros Hs H f extra.
  destruct (register_head_of _ _ _ _ _ _ _ _ Hs H) as (h & Hh & Hu & Hr).
  unfold forward. cbn [negb]. rewrite Hh.
  unfold encoder_forward, extract_features, head_forward. cbn [negb].
  rewrite Hu, Hr. subst f extra.
  destruct (String.eqb srt "mp").
  - destruct (kw_src_lengths kw) as [[l|]|]; reflexivity.
  - destruct (String.eqb srt "cls"); reflexivity.
Qed.

Lemma register_then_forward_witness :
  exists s', register_classification_head "sst2" 2 None (St mean_model [] []) = Ok (tt, s') /\
    forward (model_of s') (Tokens 0) false false (Some "sst2") qqp_kwargs = Err NotImplementedError.
Proof.
  exists (St (Model mean_args [("sst2", Head 0 512 512 512 2 false "mean")] 1) [] []).
  split; [vm_compute; reflexivity|].
  exact (register_then_forward mean_model [] [] "sst2" 2 None _ "mean" (Tokens 0) false false
           qqp_kwargs eq_refl eq_refl).
Defined.

(** Registering a name the model does not have yet, with a head the
    constructor accepts and a name [nn.ModuleDict] accepts, appends the new
    head last, allocates it the next object id, leaves the other heads, the
    state dict and the log unchanged (no warning), and sizes [dense] by
    [inner_dim] unless it is [None] or 0, in which case [encoder_embed_dim]
    is used. *)
Theorem register_fresh_head m sd lg n nc idim srt :
  Dict.get (classification_heads m) n = None ->
  module_name_ok n = true -> sen_rep_type (args m) = Some srt ->
  let e := encoder_embed_dim (args m) in
  let i := or_default idim e in
  head_ctor_ok (args m) e i nc = true ->
  register_classification_head n nc idim (St m sd lg) =
    Ok (tt, St (Model (args m)
                  (classification_heads m ++
                   [(n, Head (next_uid m) e i i nc (spectral_norm_classification_head (args m)) srt)])%list
                  (S (next_uid m))) sd lg).
Proof. intros Hg Hn Hs e i Hq. exact (register_fresh_step m sd lg n nc idim srt Hg Hn Hs Hq). Qed.

Lemma register_fresh_head_witness :
  register_classification_head "mnli" 3 (Some 0) (St qqp_model [] []) =
    Ok (tt, St (Model qqp_args [("qqp", qqp_head); ("mnli", Head 1 512 512 512 3 false "mp")] 2)
               [] []).
Proof.
  exact (register_fresh_head qqp_model [] [] "mnli" 3 (Some 0) "mp" eq_refl eq_refl eq_refl eq_refl).
Defined.

(** A name that is an attribute of [nn.ModuleDict] (such as ["keys"],
    ["training"] or ["forward"]) can never be registered as a new head:
    [register_classification_head] raises, whatever the shapes. *)
Theorem register_attribute_name_fails name nc idim s :
  is_module_dict_attr name = true ->
  Dict.get (classification_heads (model_of s)) name = None ->
  exists e, register_classification_head name nc idim s = Err e.
Proof.
  intros Ha Hg. destruct (register_classification_head name nc idim s) as [[[] s']|e] eqn:E;
    [exfalso|eauto].
  pose proof (register_ok _ _ _ _ _ _ E) as R. cbv zeta in R.
  destruct R as (h & _ & Hn & _).
  rewrite add_module_fresh in Hn by (unfold Dict.mem; rewrite Hg; reflexivity).
  unfold module_name_ok in Hn. rewrite Ha in Hn. discriminate.
Qed.

Lemma register_attribute_name_fails_witness :
  exists e, register_classification_head "keys" 2 None (St qqp_model [] []) = Err e.
Proof. exact (register_attribute_name_fails "keys" 2 None (St qqp_model [] []) eq_refl eq_refl).
Defined.

(** With [quant_noise_pq > 0], every successful registration has a non-zero
    [quant_noise_pq_block_size] dividing the head's inner dimension
    ([inner_dim], or [encoder_embed_dim] when it is [None] or 0): any
    other inner dimension makes [register_classification_head] raise,
    also when re-registering an existing head with its own shapes. *)
Theorem register_quant_noise_divides name nc idim s s' :
  register_classification_head name nc idim s = Ok (tt, s') ->
  let a := args (model_of s) in
  Qlt 0 (quant_noise_pq a) ->
  quant_noise_pq_block_size a <> 0 /\
  Z.modulo (or_default idim (encoder_embed_dim a)) (quant_noise_pq_block_size a) = 0.
Proof.
  intros H a Hq. pose proof (register_ok _ _ _ _ _ _ H) as R. cbv zeta in R.
  destruct R as (h & Hc & _).
  destruct (ctor_inv _ _ _ _ _ _ Hc) as (srt & _ & Hok & _). fold a in Hok.
  unfold head_ctor_ok in Hok. apply andb_prop in Hok as [Hok _]. apply andb_prop in Hok as [Hok _].
  apply andb_prop in Hok as [_ Hn]. unfold apply_quant_noise_ in Hn.
  destruct (Qle_bool (quant_noise_pq a) 0) eqn:Hle.
  - apply Qle_bool_iff in Hle. exfalso. apply (Qlt_not_le _ _ Hq Hle).
  - destruct (Z.eqb_spec (quant_noise_pq_block_size a) 0); [discriminate|].
    split; [assumption|].
    destruct (Z.eqb_spec (Z.modulo (or_default idim (encoder_embed_dim a))
                            (quant_noise_pq_block_size a)) 0); [assumption|discriminate].
Qed.

Lemma register_quant_noise_divides_witness :
  exists s', register_classification_head "sst2" 2 (Some 96) (St qn_model [] []) = Ok (tt, s') /\
    quant_noise_pq_block_size qn_args <> 0 /\ Z.modulo 96 (quant_noise_pq_block_size qn_args) = 0.
Proof.
  eexists. split; [vm_compute; reflexivity|].
  exact (register_quant_noise_divides "sst2" 2 (Some 96) (St qn_model [] []) _
           ltac:(vm_compute; reflexivity) ltac:(vm_compute; reflexivity)).
Defined.

End Runtime.

Module Reload.
Import Monad Strs Reconcile Migrate HeadKeys Completion.

(** [heads_wf] with distinct head names. *)
Definition heads_ok (m : model) : Prop :=
  heads_wf m /\ NoDup (Dict.keys (classification_heads m)).

(** No head object is registered under two names. *)
Definition heads_distinct_uids (m : model) : Prop :=
  forall n1 n2 h1 h2, Dict.get (classification_heads m) n1 = Some h1 ->
    Dict.get (classification_heads m) n2 = Some h2 -> head_uid h1 = head_uid h2 -> n1 = n2.

(** A model with an ["mnli"] head (3 classes, inner dimension 512). *)
Definition mnli_model (lch : bool) : model :=
  Model (sst2_args lch) [("mnli", Head 0 512 512 512 3 false "mp")] 1.

(** A model with a spectral-normalised ["cola"] head. *)
Definition spectral_args : ModelArgs := MkArgs 512 "tanh" 0 0 8 true (Some "mp") false.
Definition spectral_model : model :=
  Model spectral_args [("cola", Head 0 512 512 512 2 true "mp")] 1.

Ltac nodup_lit :=
  cbv [Dict.keys List.map fst];
  repeat (constructor; [cbn [In]; intuition discriminate|]); constructor.

Lemma one_head_ok a n h u : module_name_ok n = true -> (head_uid h < u)%nat ->
  heads_ok (Model a [(n, h)] u).
Proof.
  intros Hn Hu. split.
  - intros n' h' E. cbn [Dict.get classification_heads] in E.
    destruct (String.eqb_spec n n') as [<-|]; [|discriminate].
    injection E as <-. split; [exact Hn|exact Hu].
  - cbn. constructor; [intros []|constructor].
Qed.

Lemma reconcile_ok ks : forall acc s r s',
  heads_ok (model_of s) -> reconcile_heads "" ks acc s = Ok (r, s') -> heads_ok (model_of s').
Proof.
  induction ks as [|k ks IH]; intros acc s r s' Hw H.
  - cbn in H. injection H as _ <-. exact Hw.
  - rewrite reconcile_unfold in H.
    destruct (String.prefix heads_ns k); cbn [negb] in H; [|(eapply IH; [|exact H]; exact Hw)].
    rewrite dims_step in H.
    destruct (persisted_dims _ _) as [[nc i]|e]; [|discriminate].
    unfold bind at 1, get_model at 1 in H. cbv beta iota in H.
    destruct (load_checkpoint_heads _).
    + destruct (negb (Dict.mem _ _)).
      * apply bind_ok in H as ([] & s1 & Hreg & H). apply (IH acc s1 r s'); [|exact H].
        split; [exact (Heads.register_wf _ _ _ _ _ (proj1 Hw) Hreg)|].
        pose proof (register_ok _ _ _ _ _ _ Hreg) as R. cbv zeta in R.
        destruct R as (h1 & _ & _ & Hm1 & _). rewrite Hm1. cbn [classification_heads].
        apply keys_set_nodup, Hw.
      * unfold bind at 1, ret at 1 in H. cbv beta iota in H. (eapply IH; [|exact H]; exact Hw).
    + destruct (Dict.get _ _) as [h|].
      * destruct (_ || _).
        -- unfold bind at 1, emit at 1 in H. cbv beta iota in H. (eapply IH; [|exact H]; exact Hw).
        -- (eapply IH; [|exact H]; exact Hw).
      * unfold bind at 1, emit at 1 in H. cbv beta iota in H. (eapply IH; [|exact H]; exact Hw).
Qed.

Lemma register_uids name nc idim s s' :
  heads_wf (model_of s) -> heads_distinct_uids (model_of s) ->
  register_classification_head name nc idim s = Ok (tt, s') ->
  heads_distinct_uids (model_of s') /\ (next_uid (model_of s) <= next_uid (model_of s'))%nat /\
  forall n h, Dict.get (classification_heads (model_of s')) n = Some h ->
    Dict.get (classification_heads (model_of s)) n = Some h \/
    (next_uid (model_of s) <= head_uid h)%nat.
Proof.
  intros Hw Hd H. pose proof (register_ok _ _ _ _ _ _ H) as R. cbv zeta in R.
  destruct R as (h & Hc & _ & Hm & _). pose proof (HeadCtor.ctor_uid _ _ _ _ _ _ Hc) as Hu.
  rewrite Hm. cbn [classification_heads next_uid]. split; [|split; [lia|]].
  - unfold heads_distinct_uids. cbn [classification_heads]. intros n1 n2 h1 h2. rewrite !get_set.
    destruct (String.eqb_spec name n1) as [<-|N1];
      destruct (String.eqb_spec name n2) as [<-|N2]; intros E1 E2 Heq; auto.
    + injection E1 as <-. destruct (Hw n2 h2 E2) as [_ Hl]. lia.
    + injection E2 as <-. destruct (Hw n1 h1 E1) as [_ Hl]. lia.
    + exact (Hd n1 n2 h1 h2 E1 E2 Heq).
  - intros n h'. rewrite get_set. destruct (String.eqb_spec name n) as [<-|N].
    + intros E. injection E as <-. right. lia.
    + intros E. left. exact E.
Qed.

Lemma reconcile_uids ks : forall acc s r s',
  reconcile_heads "" ks acc s = Ok (r, s') ->
  heads_wf (model_of s) -> heads_distinct_uids (model_of s) ->
  heads_distinct_uids (model_of s') /\
  forall n h, Dict.get (classification_heads (model_of s')) n = Some h ->
    Dict.get (classification_heads (model_of s)) n = Some h \/
    (next_uid (model_of s) <= head_uid h)%nat.
Proof.
  induction ks as [|k ks IH]; intros acc s r s' H Hw Hd.
  - cbn in H. injection H as _ <-. split; [exact Hd|]. intros n h E. left. exact E.
  - rewrite reconcile_unfold in H.
    destruct (String.prefix heads_ns k); cbn [negb] in H; [|exact (IH _ _ _ _ H Hw Hd)].
    rewrite dims_step in H.
    destruct (persisted_dims _ _) as [[nc i]|e]; [|discriminate].
    unfold bind at 1, get_model at 1 in H. cbv beta iota in H.
    destruct (load_checkpoint_heads _).
    + destruct (negb (Dict.mem _ _)).
      * apply bind_ok in H as ([] & s1 & Hreg & H).
        destruct (register_uids _ _ _ _ _ Hw Hd Hreg) as (Hd1 & Hle & Hf1).
        destruct (IH _ _ _ _ H (Heads.register_wf _ _ _ _ _ Hw Hreg) Hd1) as (Hd' & Hf').
        split; [exact Hd'|]. intros n h E. destruct (Hf' n h E) as [E1|L].
        -- exact (Hf1 n h E1).
        -- right. lia.
      * unfold bind at 1, ret at 1 in H. cbv beta iota in H. exact (IH _ _ _ _ H Hw Hd).
    + destruct (Dict.get _ _) as [h|].
      * destruct (_ || _).
        -- unfold bind at 1, emit at 1 in H. cbv beta iota in H. exact (IH _ _ _ _ H Hw Hd).
        -- exact (IH _ _ _ _ H Hw Hd).
      * unfold bind at 1, emit at 1 in H. cbv beta iota in H. exact (IH _ _ _ _ H Hw Hd).
Qed.

Lemma one_head_distinct a n h u : heads_distinct_uids (Model a [(n, h)] u).
Proof.
  intros n1 n2 h1 h2 E1 E2 _. cbn [Dict.get classification_heads] in E1, E2.
  destruct (String.eqb_spec n n1) as [<-|]; [|discriminate].
  destruct (String.eqb_spec n n2) as [<-|]; [reflexivity|discriminate].
Qed.

Lemma migrate_ok_model m sd r s' :
  heads_ok m -> NoDup (Dict.keys sd) -> migrate m sd = Ok (r, s') -> heads_ok (model_of s').
Proof.
  intros Hw Hnd H.
  destruct (migrate_run _ _ _ _ Hnd H) as (s1 & s2 & Hm1 & _ & _ & Hrec & Hm' & _).
  rewrite Hm'. apply (reconcile_ok _ _ _ _ _ (ltac:(rewrite Hm1; exact Hw)) Hrec).
Qed.

Lemma migrate_dims m sd r s' k :
  NoDup (Dict.keys sd) -> migrate m sd = Ok (r, s') ->
  In k (Dict.keys sd) -> String.prefix heads_ns k = true ->
  exists d, persisted_dims sd (head_name_of k) = Ok d.
Proof.
  intros Hnd H Hk Hp.
  destruct (migrate_run _ _ _ _ Hnd H) as (s1 & s2 & _ & _ & Hg1 & Hrec & _).
  pose proof (in_keys_renamed _ _ _ Hg1 Hp Hk) as Hk1.
  rewrite <- (persisted_dims_renamed _ _ (head_name_of k) Hg1).
  destruct (load_checkpoint_heads (args (model_of s1))) eqn:Hl.
  - destruct (reconcile_enabled _ _ _ _ _ Hl Hrec) as (_ & _ & _ & _ & _ & Hks).
    exact (proj1 (Hks k Hk1 Hp)).
  - destruct (reconcile_disabled _ _ _ _ _ Hl Hrec) as (_ & _ & _ & _ & _ & Hks).
    exact (Hks k Hk1 Hp).
Qed.

Lemma map_keys_nodup (f : string -> string) (l : list (string * tensor)) :
  (forall a b, f a = f b -> a = b) -> NoDup (Dict.keys l) ->
  NoDup (Dict.keys (List.map (fun kv => (f (fst kv), snd kv)) l)).
Proof.
  intros Hf Hnd. unfold Dict.keys in *. rewrite map_map. cbn.
  rewrite <- (map_map fst f). apply NoDup_map_NoDup_ForallPairs; [|exact Hnd].
  intros x y _ _. apply Hf.
Qed.

Lemma head_state_dict_nodup h : NoDup (Dict.keys (head_state_dict h)).
Proof. unfold head_state_dict. destruct (spectral h); nodup_lit. Qed.

Lemma backfill_entries_nodup (hs : Dict.t head) :
  NoDup (Dict.keys hs) -> (forall n, In n (Dict.keys hs) -> has_dot n = false) ->
  NoDup (Dict.keys (backfill_entries hs)).
Proof.
  induction hs as [|[n h] hs IH]; intros Hnd Hd; [constructor|].
  inversion Hnd as [|? ? Hn Hnd']; subst.
  assert (Hdn : has_dot n = false) by (apply Hd; left; reflexivity).
  rewrite bf_unfold. unfold Dict.keys at 1. rewrite map_app. apply NoDup_app.
  - apply (map_keys_nodup (fun p => heads_ns ++ n ++ "." ++ p)); [|apply head_state_dict_nodup].
    intros a b E. do 3 apply app_inj_l in E. exact E.
  - apply IH; [exact Hnd'|intros n' H; apply Hd; right; exact H].
  - intros k Hk1 Hk2.
    apply in_keys_get in Hk1 as [v1 Hv1]. apply (get_map_key (fun a => heads_ns ++ n ++ "." ++ a)) in Hv1 as [p ->].
    apply in_keys_get in Hk2 as [v2 Hv2].
    apply bf_head_name in Hv2; [|intros n' H; apply Hd; right; exact H].
    rewrite head_name_of_key in Hv2 by exact Hdn. contradiction.
Qed.

Lemma migrate_kept m sd r s' k v :
  NoDup (Dict.keys sd) -> migrate m sd = Ok (r, s') ->
  String.prefix heads_ns k = true -> Dict.get sd k = Some v -> ~ In k r ->
  Dict.get (state_dict s') k = Some v.
Proof.
  intros Hnd H Hp Hv Hr.
  destruct (migrate_run _ _ _ _ Hnd H) as (s1 & s2 & _ & _ & Hg1 & Hrec & _ & _ & Hg).
  destruct (reconcile_frame _ _ _ _ Hrec) as (Hsd & _).
  rewrite Hg. destruct (mem_list k r) eqn:E; [apply mem_list_In in E; contradiction|].
  rewrite Hsd, Hg1, (prefix_split _ _ Hp), renamed_ns, <- (prefix_split _ _ Hp), Hv.
  reflexivity.
Qed.

Lemma migrate_enabled_nothing_dropped m sd r s' :
  NoDup (Dict.keys sd) -> load_checkpoint_heads (args m) = true ->
  migrate m sd = Ok (r, s') -> r = [].
Proof.
  intros Hnd Hl H.
  destruct (migrate_run _ _ _ _ Hnd H) as (s1 & s2 & Hm1 & _ & _ & Hrec & _).
  rewrite <- Hm1 in Hl. exact (proj1 (reconcile_enabled _ _ _ _ _ Hl Hrec)).
Qed.

Lemma migrate_disabled_dropped m sd r s' k :
  NoDup (Dict.keys sd) -> load_checkpoint_heads (args m) = false ->
  migrate m sd = Ok (r, s') -> In k r -> drop_decision (classification_heads m) sd k = true.
Proof.
  intros Hnd Hl H Hk.
  destruct (migrate_run _ _ _ _ Hnd H) as (s1 & s2 & Hm1 & _ & Hg1 & Hrec & _).
  rewrite <- Hm1 in Hl |- *.
  destruct (reconcile_disabled _ _ _ _ _ Hl Hrec) as (_ & _ & Hr & _).
  rewrite Hr in Hk. cbn [List.app] in Hk. apply filter_In in Hk as [_ Hd].
  unfold drop_decision in *. rewrite (persisted_dims_renamed _ _ _ Hg1) in Hd. exact Hd.
Qed.

(** A successful migration keeps the model's head invariants: head names
    stay valid [nn.ModuleDict] keys and distinct, every head object id stays
    below [next_uid] and no object is registered under two names, and every
    head of the final model is either the initial model's head under the
    same name or a new object allocated by the migration (its id is at least
    the initial [next_uid]). *)
Theorem migrate_keeps_model_wf m sd r s' :
  heads_wf m -> NoDup (Dict.keys (classification_heads m)) -> heads_distinct_uids m ->
  NoDup (Dict.keys sd) -> migrate m sd = Ok (r, s') ->
  heads_wf (model_of s') /\ NoDup (Dict.keys (classification_heads (model_of s'))) /\
  heads_distinct_uids (model_of s') /\
  forall n h, Dict.get (classification_heads (model_of s')) n = Some h ->
    Dict.get (classification_heads m) n = Some h \/ (next_uid m <= head_uid h)%nat.
Proof.
  intros Hw Hn Hu Hnd H.
  destruct (migrate_ok_model m sd r s' (conj Hw Hn) Hnd H) as [Hw' Hn'].
  destruct (migrate_run _ _ _ _ Hnd H) as (s1 & s2 & Hm1 & _ & _ & Hrec & Hm' & _).
  rewrite <- Hm1 in Hw, Hu.
  destruct (reconcile_uids _ _ _ _ _ Hrec Hw Hu) as [Hu' Hf].
  rewrite Hm1 in Hf. rewrite <- Hm' in Hu', Hf.
  split; [exact Hw'|split; [exact Hn'|split; [exact Hu'|exact Hf]]].
Qed.

Lemma migrate_keeps_model_wf_witness :
  exists r s', migrate (sst2_model true) mnli_blob = Ok (r, s') /\
    heads_distinct_uids (model_of s').
Proof.
  do 2 eexists. split; [cbv; reflexivity|].
  refine (proj1 (proj2 (proj2 (migrate_keeps_model_wf (sst2_model true) mnli_blob _ _
            (proj1 (one_head_ok (sst2_args true) "sst2" sst2_head 1 eq_refl ltac:(cbn; lia)))
            (proj2 (one_head_ok (sst2_args true) "sst2" sst2_head 1 eq_refl ltac:(cbn; lia)))
            (one_head_distinct (sst2_args true) "sst2" sst2_head 1)
            ltac:(nodup_lit) _)))).
  vm_compute. reflexivity.
Defined.

(** With [load_checkpoint_heads] on, a successful migration implies that
    every head named in the checkpoint has a name [nn.ModuleDict] accepts:
    not an attribute name such as [keys], [training] or [forward], not
    empty, no dot. A checkpoint head under any other name makes the
    migration raise. *)
Theorem migrate_enabled_head_names_ok m sd r s' k :
  heads_wf m -> NoDup (Dict.keys (classification_heads m)) -> NoDup (Dict.keys sd) ->
  load_checkpoint_heads (args m) = true -> migrate m sd = Ok (r, s') ->
  In k (Dict.keys sd) -> String.prefix heads_ns k = true ->
  module_name_ok (head_name_of k) = true.
Proof.
  intros Hw Hn Hnd Hl H Hk Hp.
  destruct (migrate_ok_model m sd r s' (conj Hw Hn) Hnd H) as [Hw' _].
  destruct (migrate_run _ _ _ _ Hnd H) as (s1 & s2 & Hm1 & _ & Hg1 & Hrec & Hm' & _).
  rewrite <- Hm1 in Hl.
  destruct (reconcile_enabled _ _ _ _ _ Hl Hrec) as (_ & _ & _ & _ & _ & Hks).
  destruct (proj2 (Hks k (in_keys_renamed _ _ _ Hg1 Hp Hk) Hp)) as [h Hh].
  rewrite <- Hm' in Hh. exact (proj1 (Hw' _ _ Hh)).
Qed.

Lemma migrate_enabled_head_names_ok_witness :
  module_name_ok (head_name_of "classification_heads.mnli.dense.bias") = true.
Proof.
  exact (migrate_enabled_head_names_ok (sst2_model true) mnli_blob _ _
           "classification_heads.mnli.dense.bias"
           (proj1 (one_head_ok (sst2_args true) "sst2" sst2_head 1 eq_refl ltac:(cbn; lia)))
           (proj2 (one_head_ok (sst2_args true) "sst2" sst2_head 1 eq_refl ltac:(cbn; lia)))
           ltac:(nodup_lit) eq_refl ltac:(vm_compute; reflexivity)
           ltac:(cbv [Dict.keys List.map fst mnli_blob In]; tauto) eq_refl).
Defined.

(** Every checkpoint key in the classification-heads namespace must name a
    head whose [out_proj.weight] and [dense.weight] are present and of rank
    at least 1: otherwise the migration raises, whatever
    [load_checkpoint_heads] is. *)
Theorem migrate_reads_every_head m sd r s' k :
  NoDup (Dict.keys sd) -> migrate m sd = Ok (r, s') ->
  In k (Dict.keys sd) -> String.prefix heads_ns k = true ->
  exists nc i, persisted_dims sd (head_name_of k) = Ok (nc, i).
Proof.
  intros Hnd H Hk Hp. destruct (migrate_dims m sd r s' k Hnd H Hk Hp) as [[nc i] E]. eauto.
Qed.

Lemma migrate_reads_every_head_witness :
  exists nc i, persisted_dims mnli_blob "mnli" = Ok (nc, i).
Proof.
  exact (migrate_reads_every_head qqp_model mnli_blob _ _ "classification_heads.mnli.dense.bias"
           ltac:(nodup_lit) ltac:(vm_compute; reflexivity)
           ltac:(cbv [Dict.keys List.map fst mnli_blob In]; tauto) eq_refl).
Defined.

(** After a successful migration, every parameter of every head of the
    final model has an entry under its full key, so no head parameter is
    missing from the migrated state dict. *)
Theorem migrate_covers_final_heads m sd r s' n h p t :
  heads_wf m -> NoDup (Dict.keys (classification_heads m)) -> NoDup (Dict.keys sd) ->
  migrate m sd = Ok (r, s') ->
  Dict.get (classification_heads (model_of s')) n = Some h ->
  Dict.get (head_state_dict h) p = Some t ->
  exists t', Dict.get (state_dict s') (heads_ns ++ n ++ "." ++ p) = Some t'.
Proof.
  intros Hw Hn Hnd H Hh Ht.
  destruct (migrate_ok_model m sd r s' (conj Hw Hn) Hnd H) as [Hw' Hn'].
  destruct (migrate_run _ _ _ _ Hnd H) as (s1 & s2 & _ & _ & _ & _ & Hm' & _ & Hg).
  rewrite Hg. destruct (if mem_list _ r then None else Dict.get (state_dict s2) _) as [v|];
    [eauto|].
  rewrite <- Hm'. rewrite (bf_lookup _ n h p Hn' (wf_names_no_dot _ Hw') Hh). eauto.
Qed.

Lemma migrate_covers_final_heads_witness :
  exists r s', migrate (sst2_model true) mnli_blob = Ok (r, s') /\
    exists t', Dict.get (state_dict s') (heads_ns ++ "sst2" ++ "." ++ "out_proj.weight") = Some t'.
Proof.
  do 2 eexists. split; [cbv; reflexivity|].
  refine (migrate_covers_final_heads (sst2_model true) mnli_blob _ _ "sst2" sst2_head
            "out_proj.weight" (Tensor [2; 512] (Fresh 0 "out_proj.weight"))
            (proj1 (one_head_ok (sst2_args true) "sst2" sst2_head 1 eq_refl ltac:(cbn; lia)))
            (proj2 (one_head_ok (sst2_args true) "sst2" sst2_head 1 eq_refl ltac:(cbn; lia)))
            ltac:(nodup_lit) _ _ _); vm_compute; reflexivity.
Defined.

(** After a successful migration, every entry left in the
    classification-heads namespace belongs to a head of the final model: no
    orphan head parameters remain. *)
Theorem migrate_no_orphan_head_keys m sd r s' k v :
  heads_wf m -> NoDup (Dict.keys (classification_heads m)) -> NoDup (Dict.keys sd) ->
  migrate m sd = Ok (r, s') ->
  Dict.get (state_dict s') k = Some v -> String.prefix heads_ns k = true ->
  exists h, Dict.get (classification_heads (model_of s')) (head_name_of k) = Some h.
Proof.
  intros Hw Hn Hnd H Hk Hp.
  destruct (migrate_ok_model m sd r s' (conj Hw Hn) Hnd H) as [Hw' _].
  destruct (migrate_run _ _ _ _ Hnd H) as (s1 & s2 & Hm1 & _ & Hg1 & Hrec & Hm' & _ & Hg).
  rewrite Hg in Hk.
  destruct (mem_list k r) eqn:Er;
    [|destruct (Dict.get (state_dict s2) k) as [v0|] eqn:E2].
  2: { destruct (reconcile_frame _ _ _ _ Hrec) as (Hsd & _). rewrite Hsd in E2.
       apply get_in_keys in E2 as Hk1. rewrite Hm'.
       destruct (load_checkpoint_heads (args (model_of s1))) eqn:Hl.
       - destruct (reconcile_enabled _ _ _ _ _ Hl Hrec) as (_ & _ & _ & _ & _ & Hks).
         exact (proj2 (Hks k Hk1 Hp)).
       - destruct (reconcile_disabled _ _ _ _ _ Hl Hrec) as (Hm2 & _ & Hr & _ & _ & Hks).
         rewrite Hm2.
         destruct (Dict.get (classification_heads (model_of s1)) (head_name_of k)) as [h|] eqn:Eh;
           [eauto|].
         exfalso. destruct (Hks k Hk1 Hp) as [[nc i] Hd].
         assert (Hin : In k r).
         { rewrite Hr. cbn [List.app]. apply filter_In. split; [exact Hk1|].
           unfold drop_decision. rewrite Hp, Hd, Eh. reflexivity. }
         apply mem_list_In in Hin. congruence. }
  all: cbv iota in Hk; apply in_keys_get;
       apply (bf_head_name _ _ v (wf_names_no_dot _ Hw')); rewrite Hm'; exact Hk.
Qed.

Lemma migrate_no_orphan_head_keys_witness :
  exists r s', migrate qqp_model mnli_blob = Ok (r, s') /\
    exists h, Dict.get (classification_heads (model_of s')) "qqp" = Some h.
Proof.
  do 2 eexists. split; [cbv; reflexivity|].
  exact (migrate_no_orphan_head_keys qqp_model mnli_blob _ _
           "classification_heads.qqp.dense.weight" (Tensor [512; 512] (Fresh 0 "dense.weight"))
           (proj1 (one_head_ok qqp_args "qqp" qqp_head 1 eq_refl ltac:(cbn; lia)))
           (proj2 (one_head_ok qqp_args "qqp" qqp_head 1 eq_refl ltac:(cbn; lia)))
           ltac:(nodup_lit) ltac:(vm_compute; reflexivity)
           ltac:(vm_compute; reflexivity) eq_refl).
Defined.

(** A checkpoint key of a current head whose persisted shapes equal the
    head's keeps its value and is not deleted, whatever
    [load_checkpoint_heads] is. *)
Theorem migrate_keeps_matching_head m sd r s' hn h k v :
  NoDup (Dict.keys sd) -> migrate m sd = Ok (r, s') ->
  Dict.get (classification_heads m) hn = Some h ->
  persisted_dims sd hn = Ok (out_proj_out h, dense_out h) ->
  is_head_key hn k = true -> Dict.get sd k = Some v ->
  Dict.get (state_dict s') k = Some v /\ ~ In k r.
Proof.
  intros Hnd H Hh Hd Hk Hv. apply is_head_key_split in Hk as [Hp Hn].
  assert (Hr : ~ In k r).
  { destruct (load_checkpoint_heads (args m)) eqn:Hl.
    - rewrite (migrate_enabled_nothing_dropped _ _ _ _ Hnd Hl H). intros [].
    - intros Hin. apply (migrate_disabled_dropped _ _ _ _ _ Hnd Hl H) in Hin.
      unfold drop_decision in Hin. rewrite Hn, Hd, Hh, !Z.eqb_refl in Hin.
      rewrite andb_false_r in Hin. discriminate. }
  split; [exact (migrate_kept _ _ _ _ _ _ Hnd H Hp Hv Hr)|exact Hr].
Qed.

Lemma migrate_keeps_matching_head_witness :
  exists r s', migrate (mnli_model false) mnli_blob = Ok (r, s') /\
    Dict.get (state_dict s') "classification_heads.mnli.out_proj.weight" =
      Some (Tensor [3; 512] (Stored 3)) /\
    ~ In "classification_heads.mnli.out_proj.weight" r.
Proof.
  do 2 eexists. split; [cbv; reflexivity|].
  exact (migrate_keeps_matching_head (mnli_model false) mnli_blob _ _ "mnli"
           (Head 0 512 512 512 3 false "mp") "classification_heads.mnli.out_proj.weight"
           (Tensor [3; 512] (Stored 3)) ltac:(nodup_lit) ltac:(vm_compute; reflexivity)
           eq_refl ltac:(vm_compute; reflexivity) eq_refl eq_refl).
Defined.

(** With [load_checkpoint_heads] off, a successful migration never changes
    the model: unknown heads are dropped from the state dict, not
    registered. *)
Theorem migrate_disabled_keeps_model m sd r s' :
  NoDup (Dict.keys sd) -> load_checkpoint_heads (args m) = false ->
  migrate m sd = Ok (r, s') -> model_of s' = m.
Proof.
  intros Hnd Hl H.
  destruct (migrate_run _ _ _ _ Hnd H) as (s1 & s2 & Hm1 & _ & _ & Hrec & Hm' & _).
  rewrite <- Hm1 in Hl |- *. rewrite Hm'.
  exact (proj1 (reconcile_disabled _ _ _ _ _ Hl Hrec)).
Qed.

Lemma migrate_disabled_keeps_model_witness :
  exists r s', migrate qqp_model mnli_blob = Ok (r, s') /\ model_of s' = qqp_model.
Proof.
  do 2 eexists. split; [cbv; reflexivity|].
  exact (migrate_disabled_keeps_model qqp_model mnli_blob _ _ ltac:(nodup_lit) eq_refl
           ltac:(vm_compute; reflexivity)).
Defined.

(** With [load_checkpoint_heads] on, a successful migration deletes
    nothing: every checkpoint entry in the classification-heads namespace
    keeps its value, whatever shapes the current heads have. *)
Theorem migrate_enabled_keeps_head_keys m sd r s' :
  NoDup (Dict.keys sd) -> load_checkpoint_heads (args m) = true ->
  migrate m sd = Ok (r, s') ->
  r = [] /\ forall k v, String.prefix heads_ns k = true -> Dict.get sd k = Some v ->
    Dict.get (state_dict s') k = Some v.
Proof.
  intros Hnd Hl H. pose proof (migrate_enabled_nothing_dropped _ _ _ _ Hnd Hl H) as Hr.
  split; [exact Hr|]. intros k v Hp Hv.
  apply (migrate_kept _ _ _ _ _ _ Hnd H Hp Hv). rewrite Hr. intros [].
Qed.

Lemma migrate_enabled_keeps_head_keys_witness :
  exists r s', migrate (sst2_model true) sst2_blob = Ok (r, s') /\
    Dict.get (state_dict s') "classification_heads.sst2.out_proj.weight" =
      Some (Tensor [3; 512] (Stored 2)).
Proof.
  do 2 eexists. split; [cbv; reflexivity|].
  exact (proj2 (migrate_enabled_keeps_head_keys (sst2_model true) sst2_blob _ _
                  ltac:(nodup_lit) eq_refl ltac:(cbv; reflexivity))
               "classification_heads.sst2.out_proj.weight" (Tensor [3; 512] (Stored 2))
               eq_refl eq_refl).
Defined.

Lemma bf_keys_prefix (hs : Dict.t head) k :
  In k (Dict.keys (backfill_entries hs)) -> String.prefix heads_ns k = true.
Proof.
  intros Hk. unfold backfill_entries, Dict.keys in Hk. rewrite map_map in Hk.
  apply in_map_iff in Hk as (kv & <- & _). cbn [fst]. apply prefix_app.
Qed.

Lemma get_app_absent (d1 d2 : Dict.t tensor) k :
  ~ In k (Dict.keys d1) -> Dict.get (List.app d1 d2) k = Dict.get d2 k.
Proof.
  intros Hk. rewrite get_app. destruct (Dict.get d1 k) as [v|] eqn:E; [|reflexivity].
  apply get_in_keys in E. contradiction.
Qed.

(** The state dict of a model with a spectral-normalised head (whose
    [out_proj] is saved as [weight_orig], [weight_u] and [weight_v]) cannot
    be migrated, whatever encoder entries precede the heads' entries and
    whatever model loads it: the reconciliation loop reads
    [out_proj.weight], which is absent, and raises. *)
Theorem migrate_rejects_spectral_heads m m' hn h enc :
  heads_wf m -> NoDup (Dict.keys (classification_heads m)) ->
  NoDup (Dict.keys enc) -> (forall k, In k (Dict.keys enc) -> String.prefix heads_ns k = false) ->
  Dict.get (classification_heads m) hn = Some h -> spectral h = true ->
  exists e, migrate m' (List.app enc (backfill_entries (classification_heads m))) = Err e.
Proof.
  intros Hw Hn He Hp Hh Hs.
  set (bf := backfill_entries (classification_heads m)).
  pose proof (wf_names_no_dot _ Hw) as Hd.
  assert (Hdn : has_dot hn = false) by (apply Hd, (get_in_keys _ _ _ Hh)).
  assert (Hout : forall k, String.prefix heads_ns k = true -> ~ In k (Dict.keys enc)).
  { intros k Hk Hin. rewrite (Hp k Hin) in Hk. discriminate. }
  assert (Hnd : NoDup (Dict.keys (List.app enc bf))).
  { unfold Dict.keys at 1. rewrite map_app. apply NoDup_app.
    - exact He.
    - exact (backfill_entries_nodup _ Hn Hd).
    - intros k Hk1 Hk2. exact (Hout k (bf_keys_prefix _ _ Hk2) Hk1). }
  destruct (migrate m' (List.app enc bf)) as [[r s']|e] eqn:E; [exfalso|eauto].
  set (kd := heads_ns ++ hn ++ "." ++ "dense.weight").
  assert (Hk : In kd (Dict.keys (List.app enc bf))).
  { apply (get_in_keys _ _ (Tensor [dense_out h; dense_in h] (Fresh (head_uid h) "dense.weight"))).
    unfold kd. rewrite get_app_absent by apply Hout, prefix_app.
    unfold bf. rewrite (bf_lookup _ _ _ _ Hn Hd Hh). reflexivity. }
  destruct (migrate_dims m' _ r s' _ Hnd E Hk (prefix_app _ _)) as [d Hdims].
  unfold kd in Hdims. rewrite head_name_of_key in Hdims by exact Hdn.
  unfold persisted_dims in Hdims.
  change (heads_ns ++ hn ++ ".out_proj.weight") with (heads_ns ++ hn ++ "." ++ "out_proj.weight")
    in Hdims.
  rewrite get_app_absent in Hdims by apply Hout, prefix_app.
  unfold bf in Hdims. rewrite (bf_lookup _ hn h "out_proj.weight" Hn Hd Hh) in Hdims.
  unfold head_state_dict in Hdims. rewrite Hs in Hdims. discriminate.
Qed.

(** Encoder entries of a checkpoint, outside the heads' namespace. *)
Definition encoder_entries : Dict.t tensor :=
  [("encoder.sentence_encoder.embed_tokens.weight", Tensor [50265; 512] (Stored 10));
   ("decoder.lm_head.weight", Tensor [50265; 512] (Stored 11))].

Lemma migrate_rejects_spectral_heads_witness :
  exists e, migrate spectral_model
    (List.app encoder_entries (backfill_entries (classification_heads spectral_model))) = Err e.
Proof.
  exact (migrate_rejects_spectral_heads spectral_model spectral_model "cola"
           (Head 0 512 512 512 2 true "mp") encoder_entries
           (proj1 (one_head_ok spectral_args "cola" (Head 0 512 512 512 2 true "mp") 1 eq_refl
                     ltac:(cbn; lia)))
           (proj2 (one_head_ok spectral_args "cola" (Head 0 512 512 512 2 true "mp") 1 eq_refl
                     ltac:(cbn; lia)))
           ltac:(nodup_lit)
           ltac:(intros k Hk; cbv [Dict.keys List.map fst encoder_entries In] in Hk;
                 destruct Hk as [<-|[<-|[]]]; reflexivity)
           eq_refl eq_refl).
Defined.

End Reload.
